(** * Ordo: order pricing, reservation workflow and role gates

    A shallow embedding of the tRPC routers of the Ordo API
    ([apps/api/src/routers]: the order router, the reservation router and
    the [requireRole] middleware) together with the properties the
    specification states about them.

    Conventions of the embedding.
    - A handler is a function in a state-and-error monad over the
      relational store the Prisma client talks to; a thrown [TRPCError]
      is a result [Err code] paired with the store at the time of the
      throw, so "nothing was written" is an equation between stores.
    - A procedure with an input schema is the schema check followed by the
      handler: a request the schema refuses is answered [BAD_REQUEST] and
      the handler does not run.
    - Monetary amounts are JS numbers, that is IEEE 754 doubles ([float]):
      sums and products round as they do in JS and are taken in the order
      the code takes them.  A [Decimal] column is read through [Number()]
      and holds the number that was written to it.
    - The clock times of a schedule go through [Number(string)]; they are
      read as [option Z], [None] being [NaN], for strings of decimal
      digits, and the statements about them say so.
    - A date is a time value, the milliseconds since 1970-01-01T00:00Z,
      [None] standing for an Invalid Date; the clock and the time zone of
      the server are those of its [Js.Host].
    - Strings are sequences of one-byte characters, and the length of a
      string is their number, as for the ASCII names, phones and clock
      times of the seed data. *)

From Stdlib Require Import PrimFloat.
From Stdlib Require FloatOps SpecFloat FloatAxioms.
From stdpp Require Import gmap strings list.
From Stdlib Require Import Ascii String.

Set Warnings "-inexact-float".

(** ** JavaScript helpers used by the routers *)
Module Js.

(** Truthiness of a string value: only the empty string is falsy. *)
Definition truthy_string (s : string) : bool := negb (String.eqb s "").

(** Truthiness of an optional string ([undefined] is falsy). *)
Definition truthy_opt_string (o : option string) : bool :=
  match o with
  | Some s => truthy_string s
  | None => false
  end.

(** Truthiness of a number: [0], [-0] and [NaN] are falsy. *)
Definition truthy_amount (x : float) : bool :=
  negb (PrimFloat.eqb x 0 || PrimFloat.is_nan x).

(** [x || 0] on a number. *)
Definition or_zero (x : float) : float := if truthy_amount x then x else 0%float.

(** [x < y], [x >= y] and [x > y] on numbers: false when either is [NaN]. *)
Definition lt_amount (x y : float) : bool := PrimFloat.ltb x y.

Definition ge_amount (x y : float) : bool := PrimFloat.leb y x.

Definition gt_amount (x y : float) : bool := PrimFloat.ltb y x.

(** [Number.isInteger(x)]: a finite double [m * 2^e] without a fraction. *)
Definition isInteger (x : float) : bool :=
  match FloatOps.Prim2SF x with
  | SpecFloat.S754_zero _ => true
  | SpecFloat.S754_finite _ m e => (0 <=? e)%Z || (Z.pos m mod 2 ^ (- e) =? 0)%Z
  | _ => false
  end.

(** The number an integer is as a double (the nearest one, ties to even). *)
Definition of_Z (z : Z) : float :=
  FloatOps.SF2Prim (SpecFloat.binary_normalize FloatOps.prec FloatOps.emax z 0 false).

(** A number that came out of [Number(string)] on a string of decimal
    digits: [None] is [NaN]. *)
Definition num := option Z.

Definition digit_of (c : ascii) : option Z :=
  let n := nat_of_ascii c in
  if (48 <=? n)%nat && (n <=? 57)%nat then Some (Z.of_nat (n - 48)) else None.

Fixpoint digits_value (acc : Z) (s : string) : num :=
  match s with
  | EmptyString => Some acc
  | String c rest =>
      match digit_of c with
      | Some d => digits_value (acc * 10 + d) rest
      | None => None
      end
  end.

(** [Number(s)] for [s] a string of decimal digits (the empty string is
    0, as in JS).  JS also reads signs, white space, fractions, exponents,
    radix prefixes and [Infinity]; such strings are not covered, they come
    out as [None] here, and the statements that rest on this function
    assume that the strings read are digits. *)
Definition Number_ (s : string) : num := digits_value 0 s.

(** [s.split(sep)] for a one-character separator. *)
Fixpoint split_go (sep : ascii) (cur : string) (s : string) : list string :=
  match s with
  | EmptyString => [cur]
  | String c rest =>
      if Ascii.eqb c sep then cur :: split_go sep EmptyString rest
      else split_go sep (cur +:+ String c EmptyString) rest
  end.

Definition split (sep : ascii) (s : string) : list string :=
  split_go sep EmptyString s.

(** Array destructuring [[a, b] = xs]: a missing element is [undefined],
    which arithmetic turns into [NaN]. *)
Definition destructure2 (xs : list num) : num * num :=
  (default None (xs !! 0%nat), default None (xs !! 1%nat)).

Definition mul (a b : num) : num :=
  match a, b with Some x, Some y => Some (x * y)%Z | _, _ => None end.
Definition add (a b : num) : num :=
  match a, b with Some x, Some y => Some (x + y)%Z | _, _ => None end.
Definition sub (a b : num) : num :=
  match a, b with Some x, Some y => Some (x - y)%Z | _, _ => None end.
Definition lt (a b : num) : bool :=
  match a, b with Some x, Some y => (x <? y)%Z | _, _ => false end.
Definition gt (a b : num) : bool := lt b a.

(** [n.toString()] for a non-negative integer. *)
Definition digit_char (d : Z) : ascii := ascii_of_nat (48 + Z.to_nat d).

Fixpoint toString_go (fuel : nat) (n : Z) (acc : string) : string :=
  match fuel with
  | O => acc
  | S fuel' =>
      let acc' := String (digit_char (n mod 10)) acc in
      if (n / 10 =? 0)%Z then acc' else toString_go fuel' (n / 10) acc'
  end.

Definition toString (n : Z) : string :=
  toString_go (S (Z.to_nat (Z.log2 n))) n EmptyString.

(** [s.padStart(2, '0')]. *)
Definition padStart2 (s : string) : string :=
  match String.length s with
  | O => "00"
  | S O => "0" +:+ s
  | _ => s
  end.

(** [s.slice(0, 5)]. *)
Definition slice05 (s : string) : string := substring 0 5 s.

(** [xs.includes(x)] on an array of strings. *)
Definition includes (xs : list string) (x : string) : bool :=
  existsb (String.eqb x) xs.

(** *** Dates *)

Definition msPerDay : Z := 86400000.

(** The machine the server runs on: the time value [new Date()] gives,
    and its time zone as ECMAScript's LocalTZA, the offset of local time
    in milliseconds, at a UTC time value and at a local one. *)
Record Host := mkHost {
  now : Z;
  offsetAtUTC : Z -> Z;
  offsetAtLocal : Z -> Z;
}.

(** ECMAScript's LocalTime(t) and UTC(t). *)
Definition localTime (host : Host) (t : Z) : Z := (t + offsetAtUTC host t)%Z.
Definition utc (host : Host) (t : Z) : Z := (t - offsetAtLocal host t)%Z.

(** ECMAScript's WeekDay(t); day 0 of the epoch was a Thursday. *)
Definition weekDay (t : Z) : Z := ((t / msPerDay + 4) mod 7)%Z.

(** [date.getDay()]: the weekday in local time; [NaN] for an Invalid
    Date. *)
Definition getDay (host : Host) (date : option Z) : num :=
  (fun t => weekDay (localTime host t)) <$> date.

(** [date.setHours(0, 0, 0, 0)]: local midnight of the local day of [t]. *)
Definition setHours0 (host : Host) (t : Z) : Z :=
  utc host (localTime host t / msPerDay * msPerDay)%Z.

(** The time value [new Date('YYYY-MM-DD')] has: a date-only string is
    midnight UTC of that day of the proleptic Gregorian calendar. *)
Definition dateOnly (year month day : Z) : Z :=
  let y := (if month <=? 2 then year - 1 else year)%Z in
  let era := (y / 400)%Z in
  let yearOfEra := (y - era * 400)%Z in
  let dayOfYear := ((153 * ((month + 9) mod 12) + 2) / 5 + day - 1)%Z in
  let dayOfEra :=
    (yearOfEra * 365 + yearOfEra / 4 - yearOfEra / 100 + dayOfYear)%Z in
  ((era * 146097 + dayOfEra - 719468) * msPerDay)%Z.

End Js.

(** ** The tRPC layer: error codes and the handler monad *)
Module Trpc.

Inductive Code :=
| UNAUTHORIZED
| FORBIDDEN
| NOT_FOUND
| PRECONDITION_FAILED
| BAD_REQUEST
| INTERNAL_SERVER_ERROR.

Inductive Result (A : Type) :=
| Ok (a : A)
| Err (c : Code).
Arguments Ok {A} a.
Arguments Err {A} c.

Section Monad.
Context {S : Type}.

(** A handler reads and writes the store and either returns or throws. *)
Definition M (A : Type) : Type := S -> Result A * S.

Definition ret {A} (a : A) : M A := fun s => (Ok a, s).

Definition bind {A B} (m : M A) (k : A -> M B) : M B :=
  fun s =>
    match m s with
    | (Ok a, s') => k a s'
    | (Err c, s') => (Err c, s')
    end.

Definition throw {A} (c : Code) : M A := fun s => (Err c, s).
Definition get : M S := fun s => (Ok s, s).
Definition gets {A} (f : S -> A) : M A := fun s => (Ok (f s), s).
Definition modify (f : S -> S) : M unit := fun s => (Ok tt, f s).
End Monad.
Arguments M : clear implicits.

End Trpc.

Declare Scope handler_scope.
Delimit Scope handler_scope with handler.
Notation "'let*' x ':=' c 'in' k" := (Trpc.bind c (fun x => k))
  (at level 10, x name, c at level 100, k at level 200) : handler_scope.
Notation "'run*' c 'in' k" := (Trpc.bind c (fun _ => k))
  (at level 10, c at level 100, k at level 200) : handler_scope.

(** ** The relational store behind the Prisma client *)
Module Db.

Inductive OrderType := DINE_IN | TAKEOUT | DELIVERY.
Inductive PaymentMethod := cash | card | transfer.
Inductive PaymentStatus := PAYMENT_PENDING | PAID.

Module OrderStatus.
Inductive t :=
| PENDING | CONFIRMED | PREPARING | READY
| OUT_FOR_DELIVERY | DELIVERED | COMPLETED | CANCELLED.
End OrderStatus.

Module ReservationStatus.
Inductive t := PENDING | CONFIRMED | SEATED | COMPLETED | CANCELLED | NO_SHOW.

Definition eqb (a b : t) : bool :=
  match a, b with
  | PENDING, PENDING | CONFIRMED, CONFIRMED | SEATED, SEATED
  | COMPLETED, COMPLETED | CANCELLED, CANCELLED | NO_SHOW, NO_SHOW => true
  | _, _ => false
  end.
End ReservationStatus.

Module ItemModifier.
Record t := mk {
  id : string;
  name : string;
  priceAdjustment : float;
}.
End ItemModifier.

(** A menu item as [findUnique] returns it with [include: { modifiers: true }]. *)
Module MenuItem.
Record t := mk {
  id : string;
  name : string;
  price : float;
  isAvailable : bool;
  modifiers : list ItemModifier.t;
}.
End MenuItem.

Module Address.
Record t := mk {
  street : string;
  neighborhood : string;
  city : string;
  references : option string;
  coordinates : option (float * float);
}.
End Address.

Module Customer.
Record t := mk {
  id : string;
  phone : string;
  name : string;
  email : option string;
  addresses : list Address.t;
}.
End Customer.

(** The snapshot of an applied modifier stored on an order item. *)
Module AppliedModifier.
Record t := mk {
  id : string;
  name : string;
  priceAdjustment : float;
  selectedOptions : option (list string);
}.
End AppliedModifier.

Module OrderItem.
Record t := mk {
  menuItemId : string;
  quantity : float;
  unitPrice : float;
  totalPrice : float;
  specialInstructions : option string;
  modifiers : option (list AppliedModifier.t);
}.
End OrderItem.

Module Order.
Record t := mk {
  id : string;
  orderNumber : string;
  customerId : string;
  orderType : OrderType;
  status : OrderStatus.t;
  subtotal : float;
  taxAmount : float;
  deliveryFee : float;
  tipAmount : float;
  discountAmount : float;
  total : float;
  paymentStatus : PaymentStatus;
  paymentMethod : PaymentMethod;
  paymentReference : option string;
  customerName : string;
  customerPhone : string;
  deliveryAddress : option Address.t;
  tableNumber : option Z;
  specialInstructions : option string;
  orderItems : list OrderItem.t;
  estimatedReadyTime : option Z;
  readyAt : option Z;
  deliveredAt : option Z;
}.
End Order.

Module DaySchedule.
Record t := mk {
  open : string;
  close : string;
  is_closed : bool;
}.
End DaySchedule.

Module Services.
Record t := mk {
  dine_in : bool;
  takeout : bool;
  delivery : bool;
  reservations : bool;
}.
End Services.

(** The delivery settings, with the fields the restaurant router's schema
    requires ([is_free_over_amount] is optional there). *)
Module DeliveryConfig.
Record t := mk {
  fee : float;
  minimum_order : float;
  delivery_radius_km : float;
  estimated_time_minutes : float;
  is_free_over_amount : option float;
}.
End DeliveryConfig.

(** The fields of a restaurant configuration row the two routers read.
    [openingHours] is the JSON object keyed by the English day name. *)
Module RestaurantConfig.
Record t := mk {
  slug : string;
  isActive : bool;
  openingHours : gmap string DaySchedule.t;
  services : Services.t;
  deliveryConfig : option DeliveryConfig.t;
}.
End RestaurantConfig.

(** [reservationDate] is the time value of the stored date. *)
Module Reservation.
Record t := mk {
  id : string;
  customerId : string;
  customerName : string;
  customerPhone : string;
  reservationDate : Z;
  reservationTime : string;
  partySize : Z;
  status : ReservationStatus.t;
  tablePreferences : option string;
  specialRequests : option string;
}.
End Reservation.

Record Store := mkStore {
  menuItems : list MenuItem.t;
  restaurantConfigs : list RestaurantConfig.t;
  customers : list Customer.t;
  orders : list Order.t;
  reservations : list Reservation.t;
  nextId : nat;
}.

Definition with_customers (cs : list Customer.t) (s : Store) : Store :=
  mkStore (menuItems s) (restaurantConfigs s) cs (orders s) (reservations s) (nextId s).
Definition with_orders (os : list Order.t) (s : Store) : Store :=
  mkStore (menuItems s) (restaurantConfigs s) (customers s) os (reservations s) (nextId s).
Definition with_reservations (rs : list Reservation.t) (s : Store) : Store :=
  mkStore (menuItems s) (restaurantConfigs s) (customers s) (orders s) rs (nextId s).
Definition with_nextId (n : nat) (s : Store) : Store :=
  mkStore (menuItems s) (restaurantConfigs s) (customers s) (orders s) (reservations s) n.

(** Replace the first row satisfying [p]; [None] when no row does. *)
Fixpoint update_first {A} (p : A -> bool) (f : A -> A) (rows : list A)
  : option (A * list A) :=
  match rows with
  | [] => None
  | r :: rest =>
      if p r then Some (f r, f r :: rest)
      else match update_first p f rest with
           | Some (r', rest') => Some (r', r :: rest')
           | None => None
           end
  end.

End Db.

(** ** The Prisma client calls the routers make *)
Module Prisma.
Import Trpc Db.
Local Open Scope handler_scope.

(** Handlers run against the store. *)
Definition H (A : Type) : Type := M Store A.

(** The [@default(cuid())] of a primary key: a fresh identifier, drawn
    here from the store's counter. *)
Definition cuid : H string :=
  fun s => (Ok ("c" +:+ Js.toString (Z.of_nat (nextId s))),
            with_nextId (S (nextId s)) s).

(** A query or mutation the client rejects (missing row, invalid value)
    surfaces as an unhandled exception of the procedure. *)
Definition clientError {A} : H A := throw INTERNAL_SERVER_ERROR.

Module menuItem.
Definition findUnique (id : string) : H (option MenuItem.t) :=
  gets (fun s => List.find (fun m => String.eqb (MenuItem.id m) id) (menuItems s)).
End menuItem.

Module restaurantConfig.
(** [findFirst({ where: { isActive: true } })] *)
Definition findFirstActive : H (option RestaurantConfig.t) :=
  gets (fun s => List.find RestaurantConfig.isActive (restaurantConfigs s)).
End restaurantConfig.

Module customer.
Record CreateData := mkCreate {
  phone : string;
  name : string;
  email : option string;
  addresses : list Address.t;
}.

Record UpdateData := mkUpdate {
  u_name : option string;
  u_email : option string;
}.

Definition findUniqueByPhone (p : string) : H (option Customer.t) :=
  gets (fun s => List.find (fun c => String.eqb (Customer.phone c) p) (customers s)).

Definition create (data : CreateData) : H Customer.t :=
  let* id := cuid in
  let row := Customer.mk id (phone data) (name data) (email data) (addresses data) in
  run* modify (fun s => with_customers (customers s ++ [row]) s) in
  ret row.

Definition applyUpdate (data : UpdateData) (c : Customer.t) : Customer.t :=
  Customer.mk (Customer.id c) (Customer.phone c)
    (default (Customer.name c) (u_name data))
    (match u_email data with Some e => Some e | None => Customer.email c end)
    (Customer.addresses c).

Definition update (id : string) (data : UpdateData) : H Customer.t :=
  let* rows := gets customers in
  match update_first (fun c => String.eqb (Customer.id c) id) (applyUpdate data) rows with
  | Some (row, rows') =>
      run* modify (with_customers rows') in
      ret row
  | None => clientError
  end.
End customer.

Module order.
Record CreateData := mkCreate {
  orderNumber : string;
  customerId : string;
  orderType : OrderType;
  subtotal : float;
  taxAmount : float;
  deliveryFee : float;
  total : float;
  customerName : string;
  customerPhone : string;
  deliveryAddress : option Address.t;
  tableNumber : option Z;
  specialInstructions : option string;
  paymentMethod : PaymentMethod;
  orderItems : list OrderItem.t;
}.

Record UpdateData := mkUpdate {
  u_status : option OrderStatus.t;
  u_readyAt : option Z;
  u_deliveredAt : option Z;
  u_estimatedReadyTime : option Z;
  u_paymentStatus : option PaymentStatus;
  u_paymentReference : option string;
  u_tipAmount : option float;
  u_total : option float;
}.

(** Modelled from the spec: the column defaults of the Order table,
    whose schema is not part of the sources; a new order starts
    [PENDING] and unpaid, with [tipAmount] and [discountAmount] 0. *)
Definition row_of (id : string) (data : CreateData) : Order.t :=
  Order.mk id (orderNumber data) (customerId data) (orderType data)
    OrderStatus.PENDING
    (subtotal data) (taxAmount data) (deliveryFee data)
    0%float 0%float (total data)
    PAYMENT_PENDING (paymentMethod data) None
    (customerName data) (customerPhone data) (deliveryAddress data)
    (tableNumber data) (specialInstructions data) (orderItems data)
    None None None.

Definition create (data : CreateData) : H Order.t :=
  let* id := cuid in
  let row := row_of id data in
  run* modify (fun s => with_orders (orders s ++ [row]) s) in
  ret row.

Definition findUnique (id : string) : H (option Order.t) :=
  gets (fun s => List.find (fun o => String.eqb (Order.id o) id) (orders s)).

Definition keep {A} (new : option A) (old : option A) : option A :=
  match new with Some a => Some a | None => old end.

Definition applyUpdate (data : UpdateData) (o : Order.t) : Order.t :=
  Order.mk (Order.id o) (Order.orderNumber o) (Order.customerId o)
    (Order.orderType o)
    (default (Order.status o) (u_status data))
    (Order.subtotal o) (Order.taxAmount o) (Order.deliveryFee o)
    (default (Order.tipAmount o) (u_tipAmount data))
    (Order.discountAmount o)
    (default (Order.total o) (u_total data))
    (default (Order.paymentStatus o) (u_paymentStatus data))
    (Order.paymentMethod o)
    (keep (u_paymentReference data) (Order.paymentReference o))
    (Order.customerName o) (Order.customerPhone o)
    (Order.deliveryAddress o) (Order.tableNumber o)
    (Order.specialInstructions o) (Order.orderItems o)
    (keep (u_estimatedReadyTime data) (Order.estimatedReadyTime o))
    (keep (u_readyAt data) (Order.readyAt o))
    (keep (u_deliveredAt data) (Order.deliveredAt o)).

Definition update (id : string) (data : UpdateData) : H Order.t :=
  let* rows := gets orders in
  match update_first (fun o => String.eqb (Order.id o) id) (applyUpdate data) rows with
  | Some (row, rows') =>
      run* modify (with_orders rows') in
      ret row
  | None => clientError
  end.
End order.

Module reservation.
Record CreateData := mkCreate {
  customerId : string;
  customerName : string;
  customerPhone : string;
  reservationDate : option Z;
  reservationTime : string;
  partySize : Z;
  tablePreferences : option string;
  specialRequests : option string;
}.

(** A new reservation starts [PENDING]; an Invalid Date is rejected by
    the client. *)
Definition create (data : CreateData) : H Reservation.t :=
  match reservationDate data with
  | None => clientError
  | Some date =>
      let* id := cuid in
      let row := Reservation.mk id (customerId data) (customerName data)
                   (customerPhone data) date (reservationTime data)
                   (partySize data) ReservationStatus.PENDING
                   (tablePreferences data) (specialRequests data) in
      run* modify (fun s => with_reservations (reservations s ++ [row]) s) in
      ret row
  end.

Definition findUnique (id : string) : H (option Reservation.t) :=
  gets (fun s => List.find (fun r => String.eqb (Reservation.id r) id) (reservations s)).

(** [findMany({ where: { reservationDate, status: { in: statuses } } })] *)
Definition findManyOn (date : option Z) (statuses : list ReservationStatus.t)
  : H (list Reservation.t) :=
  match date with
  | None => clientError
  | Some d =>
      gets (fun s =>
        List.filter (fun r =>
          (Reservation.reservationDate r =? d)%Z
          && existsb (ReservationStatus.eqb (Reservation.status r)) statuses)
          (reservations s))
  end.

Definition setStatus (st : ReservationStatus.t) (r : Reservation.t) : Reservation.t :=
  Reservation.mk (Reservation.id r) (Reservation.customerId r)
    (Reservation.customerName r) (Reservation.customerPhone r)
    (Reservation.reservationDate r) (Reservation.reservationTime r)
    (Reservation.partySize r) st
    (Reservation.tablePreferences r) (Reservation.specialRequests r).

(** [update({ where: { id }, data: { status } })] *)
Definition updateStatus (id : string) (st : ReservationStatus.t) : H Reservation.t :=
  let* rows := gets reservations in
  match update_first (fun r => String.eqb (Reservation.id r) id) (setStatus st) rows with
  | Some (row, rows') =>
      run* modify (with_reservations rows') in
      ret row
  | None => clientError
  end.
End reservation.

End Prisma.

(** ** Request context and the authorization middleware *)
Module Middleware.
Import Trpc Prisma.

Record User := mkUser {
  id : string;
  email : string;
  role : string;
}.

Record Context := mkContext {
  user : option User;
}.

Definition isAuthed {A} (next : Context -> H A) (ctx : Context) : H A :=
  match user ctx with
  | None => throw UNAUTHORIZED
  | Some _ => next ctx
  end.

(** Every router declares the same [requireRole]. *)
Definition requireRole (roles : list string) {A}
    (next : Context -> H A) (ctx : Context) : H A :=
  match user ctx with
  | None => throw UNAUTHORIZED
  | Some u =>
      if negb (Js.includes roles (role u)) then throw FORBIDDEN
      else next ctx
  end.

Definition publicProcedure {A} (handler : Context -> H A) : Context -> H A :=
  handler.
Definition protectedProcedure {A} := @isAuthed A.
Definition adminProcedure {A} := @requireRole ["ADMIN"] A.
Definition kitchenProcedure {A} := @requireRole ["ADMIN"; "KITCHEN"] A.
Definition staffProcedure {A} :=
  @requireRole ["ADMIN"; "KITCHEN"; "WAITER"; "CASHIER"] A.

End Middleware.

(** ** The order router *)
Module OrderRouter.
Import Trpc Db Prisma Middleware.
Local Open Scope handler_scope.

Record ModifierInput := mkModifierInput {
  modifierId : string;
  selectedOptions : option (list string);
}.

Record OrderItemInput := mkOrderItemInput {
  menuItemId : string;
  quantity : float;
  specialInstructions : option string;
  modifiers : option (list ModifierInput);
}.

Record CustomerInfo := mkCustomerInfo {
  name : string;
  phone : string;
  email : option string;
}.

Record CreateOrderInput := mkCreateOrderInput {
  orderType : OrderType;
  items : list OrderItemInput;
  customerInfo : CustomerInfo;
  deliveryAddress : option Address.t;
  tableNumber : option Z;
  orderInstructions : option string;
  paymentMethod : PaymentMethod;
}.

(** Modelled from the spec: [dbUtils.calculateOrderTotal] of the
    database package, which is not part of the sources.  The spec has
    tax = subtotal x rate and total = subtotal + tax + deliveryFee, with
    tip and discount (both 0 at creation) entering the total as in the
    order invariant; the operations are those of JS numbers, left to
    right. *)
Module dbUtils.
Record Totals := mkTotals {
  subtotal : float;
  taxAmount : float;
  deliveryFee : float;
  tipAmount : float;
  discountAmount : float;
  total : float;
}.

Definition calculateOrderTotal
    (subtotal taxRate deliveryFee tipAmount discountAmount : float) : Totals :=
  let taxAmount := (subtotal * taxRate)%float in
  mkTotals subtotal taxAmount deliveryFee tipAmount discountAmount
    (subtotal + taxAmount + deliveryFee + tipAmount - discountAmount)%float.

(** Modelled from the spec: [dbUtils.generateOrderNumber], also absent
    from the sources; a readable number built from a sequence. *)
Definition generateOrderNumber : H string :=
  fun s => (Ok ("ORD-" +:+ Js.toString (Z.of_nat (nextId s))),
            with_nextId (S (nextId s)) s).
End dbUtils.

(** The tax rate literal [0.16]. *)
Definition taxRate : float := 0.16%float.

Definition snapshot (modifier : ItemModifier.t) (mod_ : ModifierInput)
  : AppliedModifier.t :=
  AppliedModifier.mk (ItemModifier.id modifier) (ItemModifier.name modifier)
    (ItemModifier.priceAdjustment modifier) (selectedOptions mod_).

(** The inner loop [for (const mod of item.modifiers)]. *)
Fixpoint applyModifiers (available : list ItemModifier.t)
    (requested : list ModifierInput)
    (itemPrice : float) (modifiersApplied : list AppliedModifier.t)
  : float * list AppliedModifier.t :=
  match requested with
  | [] => (itemPrice, modifiersApplied)
  | mod_ :: rest =>
      match List.find (fun m => String.eqb (ItemModifier.id m) (modifierId mod_))
              available with
      | Some modifier =>
          applyModifiers available rest
            (itemPrice + ItemModifier.priceAdjustment modifier)%float
            (modifiersApplied ++ [snapshot modifier mod_])
      | None => applyModifiers available rest itemPrice modifiersApplied
      end
  end.

(** Price of one line once its menu item has been found. *)
Definition priceItem (menuItem : MenuItem.t) (item : OrderItemInput) : OrderItem.t :=
  let '(itemPrice, modifiersApplied) :=
    match modifiers item with
    | Some mods => applyModifiers (MenuItem.modifiers menuItem) mods
                     (MenuItem.price menuItem) []
    | None => (MenuItem.price menuItem, [])
    end in
  let totalItemPrice := (itemPrice * quantity item)%float in
  OrderItem.mk (menuItemId item) (quantity item) itemPrice totalItemPrice
    (specialInstructions item)
    (if (0 <? List.length modifiersApplied)%nat then Some modifiersApplied else None).

(** The loop [for (const item of orderItems)], threading [subtotal] and
    [processedItems]. *)
Fixpoint processItems (orderItems : list OrderItemInput)
    (subtotal : float) (processedItems : list OrderItem.t)
  : H (float * list OrderItem.t) :=
  match orderItems with
  | [] => ret (subtotal, processedItems)
  | item :: rest =>
      let* menuItem := menuItem.findUnique (menuItemId item) in
      match menuItem with
      | None => throw NOT_FOUND
      | Some menuItem =>
          if negb (MenuItem.isAvailable menuItem) then throw NOT_FOUND
          else
            let processed := priceItem menuItem item in
            processItems rest
              (subtotal + OrderItem.totalPrice processed)%float
              (processedItems ++ [processed])
      end
  end.

(** The delivery block: fee, minimum order and free-delivery threshold. *)
Definition computeDeliveryFee (orderType : OrderType) (subtotal : float) : H float :=
  match orderType with
  | DELIVERY =>
      let* config := restaurantConfig.findFirstActive in
      match config ≫= RestaurantConfig.deliveryConfig with
      | Some deliveryConfig =>
          let deliveryFee := Js.or_zero (DeliveryConfig.fee deliveryConfig) in
          if Js.lt_amount subtotal (DeliveryConfig.minimum_order deliveryConfig)
          then throw PRECONDITION_FAILED
          else
            match DeliveryConfig.is_free_over_amount deliveryConfig with
            | Some free_over =>
                if Js.truthy_amount free_over && Js.ge_amount subtotal free_over
                then ret 0%float
                else ret deliveryFee
            | None => ret deliveryFee
            end
      | None => ret 0%float
      end
  | _ => ret 0%float
  end.

(** "Crear o encontrar cliente": find by phone, create when absent,
    otherwise fill in a missing name or email. *)
Definition resolveCustomer (customerInfo : CustomerInfo)
    (deliveryAddress : option Address.t) : H Customer.t :=
  let* found := customer.findUniqueByPhone (phone customerInfo) in
  match found with
  | None =>
      customer.create
        (customer.mkCreate (phone customerInfo) (name customerInfo)
           (email customerInfo)
           (match deliveryAddress with Some a => [a] | None => [] end))
  | Some existing =>
      let updateData :=
        customer.mkUpdate
          (if negb (Js.truthy_string (Customer.name existing))
              && Js.truthy_string (name customerInfo)
           then Some (name customerInfo) else None)
          (if negb (Js.truthy_opt_string (Customer.email existing))
              && Js.truthy_opt_string (email customerInfo)
           then email customerInfo else None) in
      match customer.u_name updateData, customer.u_email updateData with
      | None, None => ret existing
      | _, _ => customer.update (Customer.id existing) updateData
      end
  end.

(** The function given to [.mutation] of [create]. *)
Definition createHandler (input : CreateOrderInput) (ctx : Context) : H Order.t :=
  let* priced := processItems (items input) 0%float [] in
  let '(subtotal, processedItems) := priced in
  let* deliveryFee := computeDeliveryFee (orderType input) subtotal in
  let totals := dbUtils.calculateOrderTotal subtotal taxRate deliveryFee
                  0%float 0%float in
  let* customer := resolveCustomer (customerInfo input) (deliveryAddress input) in
  let* orderNumber := dbUtils.generateOrderNumber in
  order.create
    (order.mkCreate orderNumber (Customer.id customer) (orderType input)
       (dbUtils.subtotal totals) (dbUtils.taxAmount totals)
       (dbUtils.deliveryFee totals) (dbUtils.total totals)
       (name (customerInfo input)) (phone (customerInfo input))
       (deliveryAddress input) (tableNumber input) (orderInstructions input)
       (paymentMethod input) processedItems).

(** [orderItemSchema]: [quantity] is [z.number().int().min(1)]. *)
Definition orderItemSchema (item : OrderItemInput) : bool :=
  Js.isInteger (quantity item) && negb (PrimFloat.ltb (quantity item) 1).

(** [customerInfo]: [name] of 2 characters or more, [phone] of 10 or
    more, [email] in the format [emailFormat] accepts when it is given. *)
Definition customerInfoSchema (emailFormat : string -> bool) (info : CustomerInfo)
  : bool :=
  (2 <=? String.length (name info))%nat
  && (10 <=? String.length (phone info))%nat
  && match email info with
     | Some address => emailFormat address
     | None => true
     end.

(** [deliveryAddress]: the coordinates are [z.number()], which refuses
    [NaN]. *)
Definition addressSchema (address : Address.t) : bool :=
  match Address.coordinates address with
  | Some (lat, lng) => negb (PrimFloat.is_nan lat) && negb (PrimFloat.is_nan lng)
  | None => true
  end.

(** [createOrderSchema], for a request of the right shape; [emailFormat]
    is the format check of [z.string().email()], which belongs to the
    validation library. *)
Definition createOrderSchema (emailFormat : string -> bool) (input : CreateOrderInput)
  : bool :=
  (1 <=? List.length (items input))%nat
  && forallb orderItemSchema (items input)
  && customerInfoSchema emailFormat (customerInfo input)
  && match deliveryAddress input with
     | Some address => addressSchema address
     | None => true
     end.

(** [publicProcedure.input(createOrderSchema).mutation(...)] *)
Definition create (emailFormat : string -> bool) (input : CreateOrderInput)
    (ctx : Context) : H Order.t :=
  if createOrderSchema emailFormat input then createHandler input ctx
  else throw BAD_REQUEST.

Record UpdateStatusInput := mkUpdateStatusInput {
  us_id : string;
  us_status : OrderStatus.t;
  us_estimatedReadyTime : option Z;
}.

(** [now] is the value of [new Date()] when the handler runs. *)
Definition updateStatusHandler (now : Z) (input : UpdateStatusInput)
    (ctx : Context) : H Order.t :=
  let updateData :=
    order.mkUpdate (Some (us_status input))
      (match us_status input with OrderStatus.READY => Some now | _ => None end)
      (match us_status input with OrderStatus.DELIVERED => Some now | _ => None end)
      (us_estimatedReadyTime input)
      None None None None in
  order.update (us_id input) updateData.

Definition updateStatus (now : Z) (input : UpdateStatusInput) :=
  staffProcedure (updateStatusHandler now input).

Record ConfirmPaymentInput := mkConfirmPaymentInput {
  cp_id : string;
  cp_paymentReference : option string;
  cp_tipAmount : option float;
}.

(** The tip block: the new [tipAmount] and [total], when the tip is
    positive and the order exists. *)
Definition tipUpdate (id : string) (tipAmount : option float)
  : H (option float * option float) :=
  match tipAmount with
  | Some tip =>
      if Js.truthy_amount tip && Js.gt_amount tip 0 then
        let* found := order.findUnique id in
        match found with
        | Some o =>
            ret (Some tip,
                 Some (Order.subtotal o + Order.taxAmount o
                       + Order.deliveryFee o + tip
                       - Order.discountAmount o)%float)
        | None => ret (None, None)
        end
      else ret (None, None)
  | None => ret (None, None)
  end.

Definition confirmPaymentHandler (input : ConfirmPaymentInput)
    (ctx : Context) : H Order.t :=
  let* tipPart := tipUpdate (cp_id input) (cp_tipAmount input) in
  let updateData :=
    order.mkUpdate None None None None (Some PAID)
      (if Js.truthy_opt_string (cp_paymentReference input)
       then cp_paymentReference input else None)
      (fst tipPart) (snd tipPart) in
  order.update (cp_id input) updateData.

(** The input schema of [confirmPayment]: [tipAmount] is [z.number()],
    which refuses [NaN]. *)
Definition confirmPaymentSchema (input : ConfirmPaymentInput) : bool :=
  match cp_tipAmount input with
  | Some tip => negb (PrimFloat.is_nan tip)
  | None => true
  end.

Definition confirmPaymentChecked (input : ConfirmPaymentInput)
    (ctx : Context) : H Order.t :=
  if confirmPaymentSchema input then confirmPaymentHandler input ctx
  else throw BAD_REQUEST.

(** [staffProcedure.input(...).mutation(...)]: the role check comes first,
    then the schema, then the handler. *)
Definition confirmPayment (input : ConfirmPaymentInput) :=
  staffProcedure (confirmPaymentChecked input).

End OrderRouter.

(** ** The reservation router *)
Module ReservationRouter.
Import Trpc Db Prisma Middleware.
Local Open Scope handler_scope.

(** [reservationDate], a string in the request, is given by the time
    value [new Date(reservationDate)] has, [None] for an Invalid Date. *)
Record CreateReservationInput := mkCreateReservationInput {
  customerName : string;
  customerPhone : string;
  reservationDate : option Z;
  reservationTime : string;
  partySize : Z;
  tablePreferences : option string;
  specialRequests : option string;
}.

Definition dayNames : list string :=
  ["sunday"; "monday"; "tuesday"; "wednesday"; "thursday"; "friday"; "saturday"].

(** [openingHours[dayNames[selectedDate.getDay()]]], the weekday being
    that of the server's local time; an [undefined] day name is the
    property key ["undefined"]. *)
Definition daySchedule (host : Js.Host) (config : RestaurantConfig.t)
    (selectedDate : option Z) : option DaySchedule.t :=
  let dayOfWeek :=
    Js.getDay host selectedDate ≫= (fun i => dayNames !! Z.to_nat i) in
  RestaurantConfig.openingHours config !! default "undefined" dayOfWeek.

(** [const [h, m] = s.split(':').map(Number); h * 60 + m] *)
Definition minutesOf (s : string) : Js.num :=
  let '(h, m) := Js.destructure2 (List.map Js.Number_ (Js.split ":" s)) in
  Js.add (Js.mul h (Some 60%Z)) m.

(** The condition of the opening-hours check. *)
Definition outsideHours (reservationTime : string) (schedule : DaySchedule.t) : bool :=
  let reservationMinutes := minutesOf reservationTime in
  let openMinutesTotal := minutesOf (DaySchedule.open schedule) in
  let closeMinutesTotal := minutesOf (DaySchedule.close schedule) in
  Js.lt reservationMinutes openMinutesTotal
  || Js.gt reservationMinutes (Js.sub closeMinutesTotal (Some 120%Z)).

Definition resolveCustomer (customerPhone customerName : string) : H Customer.t :=
  let* found := customer.findUniqueByPhone customerPhone in
  match found with
  | None => customer.create (customer.mkCreate customerPhone customerName None [])
  | Some existing => ret existing
  end.

(** The error of the opening-hours check.  Its message is built from
    [closeMinutes.toString()]: when the closing time has no [':'] that
    element is [undefined], the template throws a TypeError and the call
    ends as an internal error instead. *)
Definition outsideHoursError (schedule : DaySchedule.t) : Code :=
  if (List.length (Js.split ":" (DaySchedule.close schedule)) <? 2)%nat
  then INTERNAL_SERVER_ERROR
  else BAD_REQUEST.

(** The function given to [.mutation] of [create]. *)
Definition createHandler (host : Js.Host) (input : CreateReservationInput)
    (ctx : Context) : H Reservation.t :=
  let* config := restaurantConfig.findFirstActive in
  match config with
  | None => throw NOT_FOUND
  | Some config =>
      if negb (Services.reservations (RestaurantConfig.services config))
      then throw FORBIDDEN
      else
        match daySchedule host config (reservationDate input) with
        | None => throw BAD_REQUEST
        | Some schedule =>
            if DaySchedule.is_closed schedule then throw BAD_REQUEST
            else if outsideHours (reservationTime input) schedule
            then throw (outsideHoursError schedule)
            else
              let* customer :=
                resolveCustomer (customerPhone input) (customerName input) in
              reservation.create
                (reservation.mkCreate (Customer.id customer)
                   (customerName input) (customerPhone input)
                   (reservationDate input)
                   (reservationTime input +:+ ":00")
                   (partySize input)
                   (tablePreferences input) (specialRequests input))
        end
  end.

Definition between (lo hi c : ascii) : bool :=
  (nat_of_ascii lo <=? nat_of_ascii c)%nat && (nat_of_ascii c <=? nat_of_ascii hi)%nat.

(** The pattern [/^([01]?[0-9]|2[0-3]):[0-5][0-9]$/]. *)
Definition timeFormat (s : string) : bool :=
  match list_ascii_of_string s with
  | [h; colon; m1; m2] =>
      between "0" "9" h && Ascii.eqb colon ":"
      && between "0" "5" m1 && between "0" "9" m2
  | [h1; h2; colon; m1; m2] =>
      ((between "0" "1" h1 && between "0" "9" h2)
       || (Ascii.eqb h1 "2" && between "0" "3" h2))
      && Ascii.eqb colon ":"
      && between "0" "5" m1 && between "0" "9" m2
  | _ => false
  end.

(** The refinement of [reservationDate]: not before the local midnight
    that started the server's today; an Invalid Date compares false. *)
Definition fromToday (host : Js.Host) (date : option Z) : bool :=
  match date with
  | Some selectedDate => (Js.setHours0 host (Js.now host) <=? selectedDate)%Z
  | None => false
  end.

(** [createReservationSchema], for a request of the right shape
    ([partySize] is an integer). *)
Definition createReservationSchema (host : Js.Host) (input : CreateReservationInput)
  : bool :=
  (2 <=? String.length (customerName input))%nat
  && (10 <=? String.length (customerPhone input))%nat
  && fromToday host (reservationDate input)
  && timeFormat (reservationTime input)
  && (1 <=? partySize input)%Z && (partySize input <=? 20)%Z.

(** [publicProcedure.input(createReservationSchema).mutation(...)] *)
Definition create (host : Js.Host) (input : CreateReservationInput) (ctx : Context)
  : H Reservation.t :=
  if createReservationSchema host input then createHandler host input ctx
  else throw BAD_REQUEST.

Record AvailableTimes := mkAvailableTimes {
  availableTimes : list string;
  message : option string;
}.

Definition timeString (currentMinutes : Z) : string :=
  let hours := (currentMinutes / 60)%Z in
  let minutes := Z.rem currentMinutes 60 in
  Js.padStart2 (Js.toString hours) +:+ ":" +:+ Js.padStart2 (Js.toString minutes).

(** The loop [while (currentMinutes <= closeMinutesTotal)]; [fuel] bounds
    the number of iterations. *)
Fixpoint slotsLoop (fuel : nat) (currentMinutes closeMinutesTotal : Z)
    (slots : list string) : list string :=
  match fuel with
  | O => slots
  | S fuel' =>
      if (currentMinutes <=? closeMinutesTotal)%Z
      then slotsLoop fuel' (currentMinutes + 30)%Z closeMinutesTotal
             (slots ++ [timeString currentMinutes])
      else slots
  end.

(** Iterations the loop can make between two finite bounds. *)
Definition slotsFuel (currentMinutes closeMinutesTotal : Z) : nat :=
  Z.to_nat ((closeMinutesTotal - currentMinutes) / 30 + 1).

(** Slots every 30 minutes from opening to two hours before closing; a
    [NaN] bound makes the loop condition false at once. *)
Definition generateSlots (schedule : DaySchedule.t) : list string :=
  let currentMinutes := minutesOf (DaySchedule.open schedule) in
  let closeMinutesTotal :=
    Js.sub (minutesOf (DaySchedule.close schedule)) (Some 120%Z) in
  match currentMinutes, closeMinutesTotal with
  | Some cur, Some close =>
      slotsLoop (slotsFuel cur close) cur close []
  | _, _ => []
  end.

(** The [reduce] that counts reservations per [HH:MM] key. *)
Definition reservationCounts (existingReservations : list Reservation.t)
  : gmap string nat :=
  fold_left
    (fun (acc : gmap string nat) res =>
       let timeKey := Js.slice05 (Reservation.reservationTime res) in
       <[timeKey := (default 0 (acc !! timeKey) + 1)%nat]> acc)
    existingReservations ∅.

Definition activeStatuses : list ReservationStatus.t :=
  [ReservationStatus.PENDING; ReservationStatus.CONFIRMED; ReservationStatus.SEATED].

(** The function given to [.query] of [getAvailableTimes]; [date] is
    given like the date of a booking. *)
Definition getAvailableTimesHandler (host : Js.Host) (date : option Z)
    (partySize : Z) (ctx : Context) : H AvailableTimes :=
  let* config := restaurantConfig.findFirstActive in
  match config with
  | None => ret (mkAvailableTimes [] (Some "Restaurante no configurado"))
  | Some config =>
      if negb (Services.reservations (RestaurantConfig.services config))
      then ret (mkAvailableTimes [] (Some "Reservas no disponibles"))
      else
        match daySchedule host config date with
        | None => ret (mkAvailableTimes [] (Some "Restaurante cerrado este día"))
        | Some schedule =>
            if DaySchedule.is_closed schedule
            then ret (mkAvailableTimes [] (Some "Restaurante cerrado este día"))
            else
              let slots := generateSlots schedule in
              let* existingReservations :=
                reservation.findManyOn date activeStatuses in
              let counts := reservationCounts existingReservations in
              let available :=
                List.filter (fun time => (default 0 (counts !! time) <? 3)%nat) slots in
              ret (mkAvailableTimes available
                     (if (0 <? List.length available)%nat then None
                      else Some "No hay horarios disponibles para este día"))
        end
  end.


Record CancelInput := mkCancelInput {
  id : string;
  phone : option string;
}.

(** The guard [if (!ctx.user && phone)] and the ownership check in it. *)
Definition cancelGuard (input : CancelInput) (ctx : Context) : H unit :=
  if negb (bool_decide (is_Some (user ctx))) && Js.truthy_opt_string (phone input)
  then
    let* found := reservation.findUnique (id input) in
    match found with
    | None => throw FORBIDDEN
    | Some r =>
        if negb (bool_decide (Some (Reservation.customerPhone r) = phone input))
        then throw FORBIDDEN
        else ret tt
    end
  else ret tt.

Definition cancel (input : CancelInput) (ctx : Context) : H Reservation.t :=
  run* cancelGuard input ctx in
  reservation.updateStatus (id input) ReservationStatus.CANCELLED.

End ReservationRouter.

(** ** Sequences of mutating calls *)
Module Api.
Import Trpc Db Prisma Middleware.

(** The mutating procedures of the two routers modelled here.  The two
    [create] calls stand for requests that reach the handler: one the
    input schema refuses changes nothing. *)
Inductive Call :=
| OrderCreate (input : OrderRouter.CreateOrderInput) (ctx : Context)
| OrderUpdateStatus (now : Z) (input : OrderRouter.UpdateStatusInput) (ctx : Context)
| OrderConfirmPayment (input : OrderRouter.ConfirmPaymentInput) (ctx : Context)
| ReservationCreate (host : Js.Host)
    (input : ReservationRouter.CreateReservationInput) (ctx : Context)
| ReservationCancel (input : ReservationRouter.CancelInput) (ctx : Context).

(** The store a call leaves behind, whether it returned or threw. *)
Definition exec (c : Call) (s : Store) : Store :=
  match c with
  | OrderCreate input ctx => snd (OrderRouter.createHandler input ctx s)
  | OrderUpdateStatus now input ctx => snd (OrderRouter.updateStatus now input ctx s)
  | OrderConfirmPayment input ctx => snd (OrderRouter.confirmPayment input ctx s)
  | ReservationCreate host input ctx =>
      snd (ReservationRouter.createHandler host input ctx s)
  | ReservationCancel input ctx => snd (ReservationRouter.cancel input ctx s)
  end.

Definition execAll (calls : list Call) (s : Store) : Store :=
  fold_left (fun s c => exec c s) calls s.

End Api.

(** ** Properties stated by the specification *)
Module Props.
Import Db.

(** The order invariant of the data model, in the arithmetic of JS
    numbers: the stored total is what the expression
    [subtotal + taxAmount + deliveryFee + tipAmount - discountAmount]
    evaluates to on the stored amounts. *)
Definition order_total_ok (o : Order.t) : Prop :=
  Order.total o
  = (Order.subtotal o + Order.taxAmount o + Order.deliveryFee o
     + Order.tipAmount o - Order.discountAmount o)%float.

Definition store_totals_ok (s : Store) : Prop :=
  Forall order_total_ok (orders s).

(** At most one customer row per phone number. *)
Definition unique_phones (s : Store) : Prop :=
  NoDup (List.map Customer.phone (customers s)).

(** A sum of JS numbers as the code takes it: [start], then [+= x] for
    each [x] in turn. *)
Definition sumFrom (start : float) (xs : list float) : float :=
  fold_left PrimFloat.add xs start.

(** A requested modifier exists on the menu item. *)
Definition existsOn (menuItem : MenuItem.t) (m : OrderRouter.ModifierInput) : bool :=
  existsb (fun x => String.eqb (ItemModifier.id x) (OrderRouter.modifierId m))
    (MenuItem.modifiers menuItem).

(** The price adjustment of the item's modifier a request names. *)
Definition adjustmentOf (menuItem : MenuItem.t) (m : OrderRouter.ModifierInput) : float :=
  match List.find (fun x => String.eqb (ItemModifier.id x) (OrderRouter.modifierId m))
          (MenuItem.modifiers menuItem) with
  | Some x => ItemModifier.priceAdjustment x
  | None => 0%float
  end.

(** The spec's unit price: the base price plus the adjustments of exactly
    the requested modifiers that exist on the item, added in the order of
    the request. *)
Definition spec_unitPrice (menuItem : MenuItem.t) (item : OrderRouter.OrderItemInput)
  : float :=
  sumFrom (MenuItem.price menuItem)
    (List.map (adjustmentOf menuItem)
       (List.filter (existsOn menuItem) (default [] (OrderRouter.modifiers item)))).

(** What the spec asks of one persisted line. *)
Definition line_priced (s : Store) (item : OrderRouter.OrderItemInput)
    (line : OrderItem.t) : Prop :=
  exists menuItem,
    List.find (fun m => String.eqb (MenuItem.id m) (OrderRouter.menuItemId item))
      (menuItems s) = Some menuItem
    /\ OrderItem.menuItemId line = OrderRouter.menuItemId item
    /\ OrderItem.quantity line = OrderRouter.quantity item
    /\ OrderItem.unitPrice line = spec_unitPrice menuItem item
    /\ OrderItem.totalPrice line
       = (OrderItem.unitPrice line * OrderItem.quantity line)%float.

(** Reservations on [date] in one of [statuses] whose [HH:MM] key is [time]. *)
Definition countAt (statuses : list ReservationStatus.t) (s : Store)
    (date : Z) (time : string) : nat :=
  List.length
    (List.filter (fun r =>
       (Reservation.reservationDate r =? date)%Z
       && existsb (ReservationStatus.eqb (Reservation.status r)) statuses
       && String.eqb (Js.slice05 (Reservation.reservationTime r)) time)
       (reservations s)).

(** The same count over the rows whose stored time is [time] itself. *)
Definition countExact (statuses : list ReservationStatus.t) (s : Store)
    (date : Z) (time : string) : nat :=
  List.length
    (List.filter (fun r =>
       (Reservation.reservationDate r =? date)%Z
       && existsb (ReservationStatus.eqb (Reservation.status r)) statuses
       && String.eqb (Reservation.reservationTime r) time)
       (reservations s)).

(** Every status but [CANCELLED]. *)
Definition nonCancelled : list ReservationStatus.t :=
  [ReservationStatus.PENDING; ReservationStatus.CONFIRMED;
   ReservationStatus.SEATED; ReservationStatus.COMPLETED;
   ReservationStatus.NO_SHOW].

(** Tables a step leaves alone. *)
Definition same_catalog (s s' : Store) : Prop :=
  menuItems s' = menuItems s /\ restaurantConfigs s' = restaurantConfigs s.

(** The order row [create] persists for given totals, customer and lines. *)
Definition createData (input : OrderRouter.CreateOrderInput) (subtotal deliveryFee : float)
    (customer : Customer.t) (orderNumber : string) (lines : list OrderItem.t)
  : Prisma.order.CreateData :=
  let totals := OrderRouter.dbUtils.calculateOrderTotal subtotal OrderRouter.taxRate
                  deliveryFee 0%float 0%float in
  Prisma.order.mkCreate orderNumber (Customer.id customer) (OrderRouter.orderType input)
    (OrderRouter.dbUtils.subtotal totals) (OrderRouter.dbUtils.taxAmount totals)
    (OrderRouter.dbUtils.deliveryFee totals) (OrderRouter.dbUtils.total totals)
    (OrderRouter.name (OrderRouter.customerInfo input))
    (OrderRouter.phone (OrderRouter.customerInfo input))
    (OrderRouter.deliveryAddress input) (OrderRouter.tableNumber input)
    (OrderRouter.orderInstructions input) (OrderRouter.paymentMethod input) lines.

(** The existing customer rows after an order: same key, phone and
    addresses, and a name or email that was there is still there. *)
Definition backfilled (c c' : Customer.t) : Prop :=
  Customer.id c' = Customer.id c
  /\ Customer.phone c' = Customer.phone c
  /\ Customer.addresses c' = Customer.addresses c
  /\ (Js.truthy_string (Customer.name c) = true -> Customer.name c' = Customer.name c)
  /\ (Js.truthy_opt_string (Customer.email c) = true
      -> Customer.email c' = Customer.email c).

End Props.

(** ** Sample data, after [prisma/seed.ts] *)
Module Sample.
Import Db Middleware.

Definition weekday : DaySchedule.t := DaySchedule.mk "09:00" "22:00" false.
Definition closedDay : DaySchedule.t := DaySchedule.mk "09:00" "22:00" true.

Definition openingHours : gmap string DaySchedule.t :=
  list_to_map
    [("monday", weekday); ("tuesday", weekday); ("wednesday", weekday);
     ("thursday", weekday);
     ("friday", DaySchedule.mk "09:00" "23:00" false);
     ("saturday", DaySchedule.mk "10:00" "23:00" false);
     ("sunday", DaySchedule.mk "10:00" "21:00" false)].

(** The seeded hours with Tuesday closed. *)
Definition hoursTuesdayClosed : gmap string DaySchedule.t :=
  <["tuesday" := closedDay]> openingHours.

Definition delivery : DeliveryConfig.t :=
  DeliveryConfig.mk 25 150 5 45 None.

Definition config : RestaurantConfig.t :=
  RestaurantConfig.mk "mi-restaurante" true hoursTuesdayClosed
    (Services.mk true true true true) (Some delivery).


Definition configNoDelivery : RestaurantConfig.t :=
  RestaurantConfig.mk "mi-restaurante" true hoursTuesdayClosed
    (Services.mk true true false true) None.

Definition guacamole : MenuItem.t :=
  MenuItem.mk "item-1" "Guacamole Tradicional" 85 true [].

Definition tacos : MenuItem.t :=
  MenuItem.mk "item-2" "Tacos de Carnitas" 95 true
    [ItemModifier.mk "mod-1" "Queso extra" 15;
     ItemModifier.mk "mod-2" "Sin cebolla" 0].

Definition menu : list MenuItem.t := [guacamole; tacos].

Definition store : Store := mkStore menu [config] [] [] [] 0.
Definition storeNoDelivery : Store := mkStore menu [configNoDelivery] [] [] [] 0.
Definition storeNoConfig : Store := mkStore menu [] [] [] [] 0.

(** A server on UTC, on 2026-11-03 at noon. *)
Definition host : Js.Host :=
  Js.mkHost (Js.dateOnly 2026 11 3 + 12 * 3600000) (fun _ => 0%Z) (fun _ => 0%Z).

(** The same moment on a server in Mexico City, six hours behind UTC. *)
Definition hostMexico : Js.Host :=
  Js.mkHost (Js.dateOnly 2026 11 3 + 12 * 3600000)
    (fun _ => (-6 * 3600000)%Z) (fun _ => (-6 * 3600000)%Z).

(** 2031-01-06 is a Monday, 2031-01-07 a Tuesday. *)
Definition mondayValue : Z := Js.dateOnly 2031 1 6.
Definition monday : option Z := Some mondayValue.
Definition tuesday : option Z := Some (Js.dateOnly 2031 1 7).

(** An email check that lets every address through. *)
Definition anyEmail : string -> bool := fun _ => true.

Definition anonymous : Context := mkContext None.
Definition staff (role : string) : Context :=
  mkContext (Some (mkUser "staff-1" "staff@ordo.test" role)).

Definition ana : OrderRouter.CustomerInfo :=
  OrderRouter.mkCustomerInfo "Ana" "5551234567" None.

(** Two guacamoles to take away: the spec's pricing example. *)
Definition takeout : OrderRouter.CreateOrderInput :=
  OrderRouter.mkCreateOrderInput TAKEOUT
    [OrderRouter.mkOrderItemInput "item-1" 2 None None]
    ana None None None cash.

(** One plate of tacos with extra cheese and a modifier the item lacks. *)
Definition smallDelivery : OrderRouter.CreateOrderInput :=
  OrderRouter.mkCreateOrderInput DELIVERY
    [OrderRouter.mkOrderItemInput "item-2" 1 None
       (Some [OrderRouter.mkModifierInput "mod-1" None;
              OrderRouter.mkModifierInput "mod-9" None])]
    ana None None None cash.

(** Two plates of tacos to take away, same modifiers. *)
Definition tacosToGo : OrderRouter.CreateOrderInput :=
  OrderRouter.mkCreateOrderInput TAKEOUT
    [OrderRouter.mkOrderItemInput "item-2" 2 None
       (Some [OrderRouter.mkModifierInput "mod-1" None;
              OrderRouter.mkModifierInput "mod-9" None]);
     OrderRouter.mkOrderItemInput "item-1" 1 None None]
    ana None None None card.

(** An order is placed, paid with a tip of 20 and marked ready; the first
    order of the sample store gets the id ["c2"]. *)
Definition evening : list Api.Call :=
  [Api.OrderCreate takeout anonymous;
   Api.OrderConfirmPayment
     (OrderRouter.mkConfirmPaymentInput "c2" (Some "TX-1") (Some 20%float))
     (staff "CASHIER");
   Api.OrderUpdateStatus 0
     (OrderRouter.mkUpdateStatusInput "c2" OrderStatus.READY None)
     (staff "KITCHEN");
   Api.ReservationCreate host
     (ReservationRouter.mkCreateReservationInput "Ana" "5551234567" monday
        "19:30" 2 None None) anonymous;
   Api.OrderCreate tacosToGo anonymous].

Definition reservationAt (date : option Z) (time : string)
  : ReservationRouter.CreateReservationInput :=
  ReservationRouter.mkCreateReservationInput "Ana" "5551234567" date time 2 None None.

Definition booking (id : string) (status : ReservationStatus.t) : Reservation.t :=
  Reservation.mk id "c0" "Ana" "5551234567" mondayValue "10:00:00" 2 status None None.

(** Monday morning after three parties have come and gone. *)
Definition storeCompleted : Store :=
  mkStore menu [config] []
    [] [booking "r1" ReservationStatus.COMPLETED;
        booking "r2" ReservationStatus.COMPLETED;
        booking "r3" ReservationStatus.NO_SHOW] 0.

(** A returning customer known by name and phone only. *)
Definition storeWithAna : Store :=
  mkStore menu [config] [Customer.mk "c0" "5551234567" "Ana" None []] [] [] 1.

Definition anaWithEmail : OrderRouter.CreateOrderInput :=
  OrderRouter.mkCreateOrderInput TAKEOUT
    [OrderRouter.mkOrderItemInput "item-1" 1 None None]
    (OrderRouter.mkCustomerInfo "Ana Maria" "5551234567" (Some "ana@ordo.test"))
    None None None cash.

(** The same morning with the times stored as bare [HH:MM]. *)
Definition storeCompletedBare : Store :=
  mkStore menu [config] []
    [] (List.map (fun id => Reservation.mk id "c0" "Ana" "5551234567" mondayValue
                              "10:00" 2 ReservationStatus.COMPLETED None None)
          ["r1"; "r2"; "r3"]) 0.

Definition storeBooked : Store :=
  mkStore menu [config] [] [] [booking "r1" ReservationStatus.CONFIRMED] 0.

(** Monday's hours saved with a closing time that has no minutes part. *)
Definition closesAtTen : DaySchedule.t := DaySchedule.mk "09:00" "22" false.

Definition configClosesAtTen : RestaurantConfig.t :=
  RestaurantConfig.mk "mi-restaurante" true (<["monday" := closesAtTen]> openingHours)
    (Services.mk true true true true) (Some delivery).

Definition storeClosesAtTen : Store := mkStore menu [configClosesAtTen] [] [] [] 0.

End Sample.

(** ** Building the request context *)
Module ContextBuilder.
Import Middleware.

(** A row of the staff table, as [createContext] selects it. *)
Record StaffUser := mkStaffUser {
  id : string;
  email : string;
  role : string;
  isActive : bool;
}.

(** The claims of a verified token. *)
Record Payload := mkPayload {
  userId : option string;
  tokenEmail : option string;
  tokenRole : option string;
}.

Fixpoint dropChars (n : nat) (s : string) : string :=
  match n, s with
  | S n', String _ rest => dropChars n' rest
  | _, _ => s
  end.

(** [s.replace(pattern, replacement)] with a string pattern: the first
    occurrence only. *)
Fixpoint replaceFirst (pattern replacement s : string) : string :=
  if String.prefix pattern s
  then replacement +:+ dropChars (String.length pattern) s
  else match s with
       | EmptyString => EmptyString
       | String c rest => String c (replaceFirst pattern replacement rest)
       end.

Section Jwt.
(** [jwt.verify(token, secret)], a library call: [None] when it throws. *)
Variable verify : string -> option Payload.

(** [authorization] is the request header, [staffUsers] the staff table. *)
Definition createContext (staffUsers : list StaffUser) (authorization : option string)
  : Context :=
  let token := replaceFirst "Bearer " "" <$> authorization in
  let user :=
    if Js.truthy_opt_string token then
      match token ≫= verify with
      | Some decoded =>
          if Js.truthy_opt_string (userId decoded) then
            match List.find (fun u => bool_decide (Some (id u) = userId decoded))
                    staffUsers with
            | Some staffUser =>
                if isActive staffUser
                then Some (mkUser (id staffUser) (email staffUser) (role staffUser))
                else None
            | None => None
            end
          else None
      | None => None
      end
    else None in
  mkContext user.
End Jwt.

End ContextBuilder.

(** ** The restaurant router *)
Module RestaurantRouter.
Import Trpc Db Prisma Middleware.
Local Open Scope handler_scope.

Definition getConfig (ctx : Context) : H RestaurantConfig.t :=
  let* config := restaurantConfig.findFirstActive in
  match config with
  | None => throw NOT_FOUND
  | Some config => ret config
  end.

(** White space [parseInt] skips (the ASCII part of it). *)
Definition isWhiteSpace (c : ascii) : bool :=
  let n := nat_of_ascii c in
  ((9 <=? n)%nat && (n <=? 13)%nat) || (n =? 32)%nat.

Fixpoint skipWhiteSpace (s : string) : string :=
  match s with
  | String c rest => if isWhiteSpace c then skipWhiteSpace rest else s
  | EmptyString => s
  end.

Definition hexDigit_of (c : ascii) : option Z :=
  let n := nat_of_ascii c in
  if (48 <=? n)%nat && (n <=? 57)%nat then Some (Z.of_nat (n - 48))
  else if (65 <=? n)%nat && (n <=? 70)%nat then Some (Z.of_nat (n - 55))
  else if (97 <=? n)%nat && (n <=? 102)%nat then Some (Z.of_nat (n - 87))
  else None.

(** The longest prefix of digits, read in [radix]; [NaN] when empty. *)
Fixpoint digitsPrefix (digit : ascii -> option Z) (radix acc : Z) (seen : bool)
    (s : string) : Js.num :=
  match s with
  | EmptyString => if seen then Some acc else None
  | String c rest =>
      match digit c with
      | Some d => digitsPrefix digit radix (acc * radix + d) true rest
      | None => if seen then Some acc else None
      end
  end.

Definition isX (c : ascii) : bool := Ascii.eqb c "x" || Ascii.eqb c "X".

(** [parseInt(s)] without a radix: white space, a sign, [0x] for
    hexadecimal, then digits up to the first other character. *)
Definition parseIntString (s : string) : Js.num :=
  let trimmed := skipWhiteSpace s in
  let '(negative, body) :=
    match trimmed with
    | String c rest =>
        if Ascii.eqb c "-" then (true, rest)
        else if Ascii.eqb c "+" then (false, rest)
        else (false, trimmed)
    | EmptyString => (false, trimmed)
    end in
  let magnitude :=
    match body with
    | String c0 (String c1 rest) =>
        if Ascii.eqb c0 "0" && isX c1
        then digitsPrefix hexDigit_of 16 0 false rest
        else digitsPrefix Js.digit_of 10 0 false body
    | _ => digitsPrefix Js.digit_of 10 0 false body
    end in
  (fun v => if negative then (- v)%Z else v) <$> magnitude.

(** [parseInt] of an array element; a missing element is [undefined],
    which reads as [NaN]. *)
Definition parseInt (part : option string) : Js.num := part ≫= parseIntString.

(** [parseInt(t.split(':')[0]) * 60 + parseInt(t.split(':')[1])] *)
Definition clockMinutes (t : string) : Js.num :=
  let parts := Js.split ":" t in
  Js.add (Js.mul (parseInt (parts !! 0%nat)) (Some 60%Z)) (parseInt (parts !! 1%nat)).

Definition ge (a b : Js.num) : bool :=
  match a, b with Some x, Some y => (y <=? x)%Z | _, _ => false end.
Definition le (a b : Js.num) : bool :=
  match a, b with Some x, Some y => (x <=? y)%Z | _, _ => false end.

(** What [new Date()] gives the handler: [getDay()], [getHours()],
    [getMinutes()]. *)
Record Now := mkNow {
  day : Z;
  hours : Z;
  minutes : Z;
}.

(** The answer of [isOpen], without the restaurant name (the
    configuration rows here do not carry it). *)
Record IsOpen := mkIsOpen {
  open : bool;
  reason : option string;
  openingHours : option DaySchedule.t;
  currentTime : option string;
}.

Definition isOpen (now : Now) (ctx : Context) : H IsOpen :=
  let* config := restaurantConfig.findFirstActive in
  match config with
  | None => ret (mkIsOpen false (Some "Restaurant not configured") None None)
  | Some config =>
      let currentDay := default "undefined" (ReservationRouter.dayNames !! Z.to_nat (day now)) in
      match RestaurantConfig.openingHours config !! currentDay with
      | None => ret (mkIsOpen false (Some "Closed today") None None)
      | Some daySchedule =>
          if DaySchedule.is_closed daySchedule
          then ret (mkIsOpen false (Some "Closed today") None None)
          else
            let currentTimeMinutes := Some (hours now * 60 + minutes now)%Z in
            let openTime := clockMinutes (DaySchedule.open daySchedule) in
            let closeTime := clockMinutes (DaySchedule.close daySchedule) in
            let isCurrentlyOpen :=
              ge currentTimeMinutes openTime && le currentTimeMinutes closeTime in
            ret (mkIsOpen isCurrentlyOpen
                   (if isCurrentlyOpen then None else Some "Outside operating hours")
                   (Some daySchedule)
                   (Some (Js.padStart2 (Js.toString (hours now)) +:+ ":"
                          +:+ Js.padStart2 (Js.toString (minutes now)))))
      end
  end.

End RestaurantRouter.

(** ** The menu router *)
Module MenuRouter.
Import Trpc Db Middleware.
Local Open Scope handler_scope.

Module MenuCategory.
Record t := mk {
  id : string;
  name : string;
  sortOrder : Z;
  isActive : bool;
}.
End MenuCategory.

(** The tables the menu router works on: the store, the category table,
    and the [categoryId] column of the menu items, keyed by item id (the
    menu item rows of the store do not carry it). *)
Record Tables := mkTables {
  store : Store;
  categories : list MenuCategory.t;
  categoryIdOf : gmap string string;
}.

Definition H (A : Type) : Type := M Tables A.

(** The router's own copy of the role gate. *)
Definition requireRole (roles : list string) {A}
    (next : Context -> H A) (ctx : Context) : H A :=
  match user ctx with
  | None => throw UNAUTHORIZED
  | Some u =>
      if negb (Js.includes roles (role u)) then throw FORBIDDEN
      else next ctx
  end.

Definition staffProcedure {A} :=
  @requireRole ["ADMIN"; "KITCHEN"; "WAITER"; "CASHIER"] A.

Definition with_menuItems (items : list MenuItem.t) (t : Tables) : Tables :=
  mkTables
    (mkStore items (restaurantConfigs (store t)) (customers (store t))
       (orders (store t)) (reservations (store t)) (nextId (store t)))
    (categories t) (categoryIdOf t).

Definition with_categories (cs : list MenuCategory.t) (t : Tables) : Tables :=
  mkTables (store t) cs (categoryIdOf t).

Definition getItem (id : string) (ctx : Context) : H MenuItem.t :=
  let* item := gets (fun t => List.find (fun m => String.eqb (MenuItem.id m) id)
                               (menuItems (store t))) in
  match item with
  | None => throw NOT_FOUND
  | Some item => ret item
  end.

Record ToggleInput := mkToggleInput {
  id : string;
  isAvailable : bool;
}.

(** The [select] of [toggleAvailability]. *)
Record ItemSummary := mkItemSummary {
  s_id : string;
  s_name : string;
  s_isAvailable : bool;
}.

Definition setAvailable (b : bool) (m : MenuItem.t) : MenuItem.t :=
  MenuItem.mk (MenuItem.id m) (MenuItem.name m) (MenuItem.price m) b
    (MenuItem.modifiers m).

Definition toggleAvailabilityHandler (input : ToggleInput) (ctx : Context)
  : H ItemSummary :=
  let* rows := gets (fun t => menuItems (store t)) in
  match update_first (fun m => String.eqb (MenuItem.id m) (id input))
          (setAvailable (isAvailable input)) rows with
  | Some (item, rows') =>
      run* modify (with_menuItems rows') in
      ret (mkItemSummary (MenuItem.id item) (MenuItem.name item)
             (MenuItem.isAvailable item))
  | None => throw INTERNAL_SERVER_ERROR
  end.

Definition toggleAvailability (input : ToggleInput) :=
  staffProcedure (toggleAvailabilityHandler input).

(** [menuItem.count({ where: { categoryId, isAvailable: true } })] *)
Definition availableItemsIn (categoryId : string) (t : Tables) : nat :=
  List.length
    (List.filter
       (fun m => bool_decide (categoryIdOf t !! MenuItem.id m = Some categoryId)
                 && MenuItem.isAvailable m)
       (menuItems (store t))).

Definition deactivate (c : MenuCategory.t) : MenuCategory.t :=
  MenuCategory.mk (MenuCategory.id c) (MenuCategory.name c)
    (MenuCategory.sortOrder c) false.

Record Deleted := mkDeleted {
  success : bool;
}.

Definition deleteCategoryHandler (categoryId : string) (ctx : Context) : H Deleted :=
  let* itemCount := gets (availableItemsIn categoryId) in
  if (0 <? itemCount)%nat then throw PRECONDITION_FAILED
  else
    let* rows := gets categories in
    match update_first (fun c => String.eqb (MenuCategory.id c) categoryId)
            deactivate rows with
    | Some (_, rows') =>
        run* modify (with_categories rows') in
        ret (mkDeleted true)
    | None => throw INTERNAL_SERVER_ERROR
    end.

Definition deleteCategory (categoryId : string) :=
  staffProcedure (deleteCategoryHandler categoryId).

End MenuRouter.

(** ** The reservation router: staff procedures *)
Module ReservationStaff.
Import Trpc Db Prisma Middleware.
Local Open Scope handler_scope.

(** A reservation returned with [include: { customer: true }]. *)
Record WithCustomer := mkWithCustomer {
  row : Reservation.t;
  customer : option Customer.t;
}.

Definition includeCustomer (r : Reservation.t) : H WithCustomer :=
  let* c := gets (fun s =>
              List.find (fun c => String.eqb (Customer.id c) (Reservation.customerId r))
                (customers s)) in
  ret (mkWithCustomer r c).

Definition confirmHandler (id : string) (ctx : Context) : H WithCustomer :=
  let* r := reservation.updateStatus id ReservationStatus.CONFIRMED in
  includeCustomer r.

Definition confirm (id : string) := staffProcedure (confirmHandler id).

Definition markSeatedHandler (id : string) (ctx : Context) : H WithCustomer :=
  let* r := reservation.updateStatus id ReservationStatus.SEATED in
  includeCustomer r.

Definition markSeated (id : string) := staffProcedure (markSeatedHandler id).

Record StatsInput := mkStatsInput {
  startDate : Z;
  endDate : Z;
}.

Module ByStatus.
Record t := mk {
  PENDING : Z;
  CONFIRMED : Z;
  SEATED : Z;
  COMPLETED : Z;
  CANCELLED : Z;
  NO_SHOW : Z;
}.
End ByStatus.

(** [stats.byStatus[status]++] *)
Definition increment (st : ReservationStatus.t) (b : ByStatus.t) : ByStatus.t :=
  let '(ByStatus.mk p c s d x n) := b in
  match st with
  | ReservationStatus.PENDING => ByStatus.mk (p + 1) c s d x n
  | ReservationStatus.CONFIRMED => ByStatus.mk p (c + 1) s d x n
  | ReservationStatus.SEATED => ByStatus.mk p c (s + 1) d x n
  | ReservationStatus.COMPLETED => ByStatus.mk p c s (d + 1) x n
  | ReservationStatus.CANCELLED => ByStatus.mk p c s d (x + 1) n
  | ReservationStatus.NO_SHOW => ByStatus.mk p c s d x (n + 1)
  end.

(** A [Map] from strings to numbers, in insertion order. *)
Definition NumberMap := list (string * Z).

Fixpoint mapGet (k : string) (m : NumberMap) : option Z :=
  match m with
  | [] => None
  | (k', v) :: rest => if String.eqb k' k then Some v else mapGet k rest
  end.

Fixpoint mapSet (k : string) (v : Z) (m : NumberMap) : NumberMap :=
  match m with
  | [] => [(k, v)]
  | (k', v') :: rest =>
      if String.eqb k' k then (k, v) :: rest else (k', v') :: mapSet k v rest
  end.

(** [reservationTime.toString().slice(0, 2) + ':00'] *)
Definition hourSlot (r : Reservation.t) : string :=
  substring 0 2 (Reservation.reservationTime r) +:+ ":00".

Record Tally := mkTally {
  t_byStatus : ByStatus.t;
  t_totalGuests : float;
  t_peakTimes : NumberMap;
}.

(** The body of [reservations.forEach]. *)
Definition tally (acc : Tally) (r : Reservation.t) : Tally :=
  let timeSlot := hourSlot r in
  mkTally (increment (Reservation.status r) (t_byStatus acc))
    (t_totalGuests acc + Js.of_Z (Reservation.partySize r))%float
    (mapSet timeSlot (default 0%Z (mapGet timeSlot (t_peakTimes acc)) + 1)
       (t_peakTimes acc)).

Record PeakTime := mkPeakTime {
  time : string;
  count : Z;
}.

(** [sort((a, b) => b.count - a.count)]: by decreasing count, entries of
    equal count in the order they had. *)
Fixpoint insertPeak (x : PeakTime) (sorted : list PeakTime) : list PeakTime :=
  match sorted with
  | [] => [x]
  | y :: rest =>
      if (count x <? count y)%Z then y :: insertPeak x rest else x :: y :: rest
  end.

Definition sortPeaks (l : list PeakTime) : list PeakTime :=
  List.fold_right insertPeak [] l.

Record Stats := mkStats {
  totalReservations : Z;
  byStatus : ByStatus.t;
  averagePartySize : float;
  peakTimes : list PeakTime;
}.

Definition inRange (input : StatsInput) (r : Reservation.t) : bool :=
  (startDate input <=? Reservation.reservationDate r)%Z
  && (Reservation.reservationDate r <=? endDate input)%Z.

Definition getStatsHandler (input : StatsInput) (ctx : Context) : H Stats :=
  let* reservations := gets (fun s => List.filter (inRange input) (reservations s)) in
  let total := Z.of_nat (List.length reservations) in
  let acc := List.fold_left tally reservations
               (mkTally (ByStatus.mk 0 0 0 0 0 0) 0%float []) in
  ret (mkStats total (t_byStatus acc)
         (if (0 <? total)%Z
          then (t_totalGuests acc / Js.of_Z total)%float
          else 0%float)
         (sortPeaks (List.map (fun '(time, count) => mkPeakTime time count)
                       (t_peakTimes acc)))).

Definition getStats (input : StatsInput) := staffProcedure (getStatsHandler input).

End ReservationStaff.

(** ** The client's cart *)
Module CartStore.

(** Quantities are the whole numbers the pages pass; prices play no part
    in what is shown about the cart here. *)

Record CartItem := mkCartItem {
  id : string;
  name : string;
  price : float;
  quantity : Z;
  imageUrl : option string;
}.

(** [Omit<CartItem, 'quantity'>] *)
Record NewItem := mkNewItem {
  n_id : string;
  n_name : string;
  n_price : float;
  n_imageUrl : option string;
}.

Definition withQuantity (q : Z) (item : CartItem) : CartItem :=
  mkCartItem (id item) (name item) (price item) q (imageUrl item).

Definition addToCart (item : NewItem) (cartItems : list CartItem) : list CartItem :=
  match List.find (fun cartItem => String.eqb (id cartItem) (n_id item)) cartItems with
  | Some _ =>
      List.map (fun cartItem =>
                  if String.eqb (id cartItem) (n_id item)
                  then withQuantity (quantity cartItem + 1) cartItem
                  else cartItem)
        cartItems
  | None =>
      cartItems ++ [mkCartItem (n_id item) (n_name item) (n_price item) 1 (n_imageUrl item)]
  end.

Definition removeFromCart (id' : string) (cartItems : list CartItem) : list CartItem :=
  List.filter (fun item => negb (String.eqb (id item) id')) cartItems.

Definition updateQuantity (id' : string) (quantity' : Z) (cartItems : list CartItem)
  : list CartItem :=
  if (quantity' <=? 0)%Z
  then List.filter (fun item => negb (String.eqb (id item) id')) cartItems
  else List.map (fun item => if String.eqb (id item) id'
                             then withQuantity quantity' item else item)
         cartItems.

Definition clearCart (cartItems : list CartItem) : list CartItem := [].

(** The badge of the header and of the bottom navigation. *)
Definition cartItemsCount (cartItems : list CartItem) : Z :=
  List.fold_left (fun sum item => (sum + quantity item)%Z) cartItems 0%Z.

(** [cartItems.find(item => item.id === itemId)?.quantity || 0] of the menu page. *)
Definition getItemQuantityInCart (itemId : string) (cartItems : list CartItem) : Z :=
  match List.find (fun item => String.eqb (id item) itemId) cartItems with
  | Some cartItem => if (quantity cartItem =? 0)%Z then 0%Z else quantity cartItem
  | None => 0%Z
  end.

(** What the user can do to the cart. *)
Inductive Action :=
| Add (item : NewItem)
| Remove (id : string)
| Update (id : string) (quantity : Z)
| Clear.

Definition act (a : Action) (cartItems : list CartItem) : list CartItem :=
  match a with
  | Add item => addToCart item cartItems
  | Remove id => removeFromCart id cartItems
  | Update id quantity => updateQuantity id quantity cartItems
  | Clear => clearCart cartItems
  end.

Definition actAll (actions : list Action) (cartItems : list CartItem) : list CartItem :=
  List.fold_left (fun c a => act a c) actions cartItems.

End CartStore.

(** ** Further properties: vocabulary *)
Module Behaviour.
Import Db.

(** The menu item a line asks for exists and is available. *)
Definition onOffer (s : Store) (item : OrderRouter.OrderItemInput) : bool :=
  match List.find (fun m => String.eqb (MenuItem.id m) (OrderRouter.menuItemId item))
          (menuItems s) with
  | Some menuItem => MenuItem.isAvailable menuItem
  | None => false
  end.


(** The roles behind [staffProcedure]. *)
Definition staffRoles : list string := ["ADMIN"; "KITCHEN"; "WAITER"; "CASHIER"].

(** The amounts and payment fields of an order. *)
Definition money (o : Order.t) : float * float * float * float * float * float :=
  (Order.subtotal o, Order.taxAmount o, Order.deliveryFee o,
   Order.tipAmount o, Order.discountAmount o, Order.total o).

(** A stored reservation takes up capacity on [date] under [key]. *)
Definition occupies (date : Z) (key : string) (r : Reservation.t) : bool :=
  (Reservation.reservationDate r =? date)%Z
  && existsb (ReservationStatus.eqb (Reservation.status r))
       ReservationRouter.activeStatuses
  && String.eqb (Js.slice05 (Reservation.reservationTime r)) key.

(** A part of a time written as one to nine decimal digits: a whole number
    that [Number] and [parseInt] both read exactly. *)
Definition plainNumber (s : string) : bool :=
  (1 <=? String.length s)%nat && (String.length s <=? 9)%nat
  && forallb (fun c => bool_decide (is_Some (Js.digit_of c))) (list_ascii_of_string s).

(** Minutes of a day that survive the trip through [timeString] and back. *)
Definition roundTrips (m : Z) : bool :=
  match ReservationRouter.minutesOf (ReservationRouter.timeString m) with
  | Some m' => (m' =? m)%Z
  | None => false
  end.

(** The six counters of [byStatus] added up. *)
Definition statusSum (b : ReservationStaff.ByStatus.t) : Z :=
  (ReservationStaff.ByStatus.PENDING b + ReservationStaff.ByStatus.CONFIRMED b
   + ReservationStaff.ByStatus.SEATED b + ReservationStaff.ByStatus.COMPLETED b
   + ReservationStaff.ByStatus.CANCELLED b + ReservationStaff.ByStatus.NO_SHOW b)%Z.

Fixpoint sumZ (l : list Z) : Z :=
  match l with
  | [] => 0%Z
  | x :: rest => (x + sumZ rest)%Z
  end.

(** Peak times listed by decreasing count. *)
Fixpoint decreasing (l : list ReservationStaff.PeakTime) : Prop :=
  match l with
  | [] => True
  | x :: rest =>
      Forall (fun y => (ReservationStaff.count y <= ReservationStaff.count x)%Z) rest
      /\ decreasing rest
  end.

(** A cart lists every dish once, with a positive quantity. *)
Definition wellFormed (cartItems : list CartStore.CartItem) : Prop :=
  NoDup (List.map CartStore.id cartItems)
  /\ Forall (fun item => (1 <= CartStore.quantity item)%Z) cartItems.

End Behaviour.

(** ** More sample data *)
Module Sample2.
Import Db Middleware.

(** Delivery at 25, from 150, free from 300. *)
Definition deliveryFreeOver : DeliveryConfig.t :=
  DeliveryConfig.mk 25 150 5 45 (Some 300%float).

Definition configFreeOver : RestaurantConfig.t :=
  RestaurantConfig.mk "mi-restaurante" true Sample.hoursTuesdayClosed
    (Services.mk true true true true) (Some deliveryFreeOver).

Definition storeFreeOver : Store := mkStore Sample.menu [configFreeOver] [] [] [] 0.

(** An order naming a dish that is not on the menu. *)
Definition unknownDish : OrderRouter.CreateOrderInput :=
  OrderRouter.mkCreateOrderInput TAKEOUT
    [OrderRouter.mkOrderItemInput "item-1" 1 None None;
     OrderRouter.mkOrderItemInput "item-99" 1 None None]
    Sample.ana None None None cash.

(** The sample store once the take-away order has been placed. *)
Definition storeWithOrder : Store :=
  snd (OrderRouter.createHandler Sample.takeout Sample.anonymous Sample.store).

(** Monday 10:00 with three confirmed parties. *)
Definition storeFull : Store :=
  mkStore Sample.menu [Sample.config] []
    [] [Sample.booking "r1" ReservationStatus.CONFIRMED;
        Sample.booking "r2" ReservationStatus.PENDING;
        Sample.booking "r3" ReservationStatus.SEATED] 0.

(** Seven parties on one Monday, 29 guests in all. *)
Definition storeWeek : Store :=
  mkStore Sample.menu [Sample.config] [] []
    (List.map (fun '(id, size) =>
                 Reservation.mk id "c0" "Ana" "5551234567" Sample.mondayValue
                   "10:00:00" size ReservationStatus.COMPLETED None None)
       [("r1", 5); ("r2", 4); ("r3", 4); ("r4", 4); ("r5", 4); ("r6", 4);
        ("r7", 4)]%Z) 0.

(** January 2031. *)
Definition january : ReservationStaff.StatsInput :=
  ReservationStaff.mkStatsInput (Js.dateOnly 2031 1 1) (Js.dateOnly 2031 1 31).

(** The staff table: an active cook and a waiter who has left. *)
Definition staffTable : list ContextBuilder.StaffUser :=
  [ContextBuilder.mkStaffUser "u1" "cook@ordo.test" "KITCHEN" true;
   ContextBuilder.mkStaffUser "u2" "waiter@ordo.test" "WAITER" false].

(** A verifier that knows two tokens; the cook's token claims to be an
    admin's. *)
Definition verifyDemo (token : string) : option ContextBuilder.Payload :=
  if String.eqb token "cook-token"
  then Some (ContextBuilder.mkPayload (Some "u1") (Some "cook@ordo.test") (Some "ADMIN"))
  else if String.eqb token "waiter-token"
  then Some (ContextBuilder.mkPayload (Some "u2") (Some "waiter@ordo.test") (Some "WAITER"))
  else None.

Definition categoryTable : list MenuRouter.MenuCategory.t :=
  [MenuRouter.MenuCategory.mk "category-1" "Entradas" 0 true;
   MenuRouter.MenuCategory.mk "category-2" "Platos Fuertes" 1 true].

(** The seeded menu: guacamole is a starter, tacos a main. *)
Definition menuTables : MenuRouter.Tables :=
  MenuRouter.mkTables Sample.store categoryTable
    (list_to_map [("item-1", "category-1"); ("item-2", "category-2")]).

End Sample2.

(** * Proofs *)

Import Trpc Db Prisma Middleware Props.

(** ** The handler monad *)

Lemma bind_Ok {S A B} (m : M S A) (k : A -> M S B) s b s' :
  bind m k s = (Ok b, s') ->
  exists a s1, m s = (Ok a, s1) /\ k a s1 = (Ok b, s').
Proof.
  unfold bind. destruct (m s) as [[a | c] s1]; intros E.
  - exists a, s1. split; [reflexivity | exact E].
  - discriminate E.
Qed.

Lemma bind_Err {S A B} (m : M S A) (k : A -> M S B) s c s' :
  bind m k s = (Err c, s') ->
  m s = (Err c, s') \/ exists a s1, m s = (Ok a, s1) /\ k a s1 = (Err c, s').
Proof.
  unfold bind. destruct (m s) as [[a | c0] s1]; intros E.
  - right. exists a, s1. split; [reflexivity | exact E].
  - left. inversion E; subst. reflexivity.
Qed.

Lemma bind_eq {S A B} (m : M S A) (k : A -> M S B) s a s1 :
  m s = (Ok a, s1) -> bind m k s = k a s1.
Proof. unfold bind. intros ->. reflexivity. Qed.

Lemma bind_throws {S A B} (m : M S A) (k : A -> M S B) s c s1 :
  m s = (Err c, s1) -> bind m k s = (Err c, s1).
Proof. unfold bind. intros ->. reflexivity. Qed.

(** A step that returns or throws at once leaves the store as it found it. *)
Ltac store_kept :=
  let E := fresh "E" in
  unfold ret, throw; intros E; injection E as _ <-; reflexivity.

(** ** The role gate *)

Lemma includes_elem_of roles r : Js.includes roles r = true <-> r ∈ roles.
Proof.
  unfold Js.includes. rewrite existsb_exists. split.
  - intros (x & Hin & Heq). apply String.eqb_eq in Heq. subst x.
    apply list_elem_of_In. exact Hin.
  - intros Hin. exists r. split; [apply list_elem_of_In; exact Hin | apply String.eqb_refl].
Qed.

(** C6: a procedure behind [requireRole roles] throws UNAUTHORIZED for a
    context without a user and FORBIDDEN for a user whose role is not among
    [roles], in both cases without running the handler or touching the
    store; it runs the handler when the role is among [roles].  In
    particular the ADMIN-only gate rejects a KITCHEN user and admits an
    ADMIN user. *)
Theorem requireRole_gate :
  forall (roles : list string) (A : Type) (next : Context -> H A) (s : Store),
    (forall ctx, user ctx = None ->
       requireRole roles next ctx s = (Err UNAUTHORIZED, s))
    /\ (forall ctx u, user ctx = Some u -> role u ∉ roles ->
       requireRole roles next ctx s = (Err FORBIDDEN, s))
    /\ (forall ctx u, user ctx = Some u -> role u ∈ roles ->
       requireRole roles next ctx s = next ctx s)
    /\ (forall id email,
       adminProcedure next (mkContext (Some (mkUser id email "KITCHEN"))) s
       = (Err FORBIDDEN, s))
    /\ (forall id email,
       adminProcedure next (mkContext (Some (mkUser id email "ADMIN"))) s
       = next (mkContext (Some (mkUser id email "ADMIN"))) s).
Proof.
  intros roles A next s. repeat split.
  - intros ctx Hu. unfold requireRole. rewrite Hu. reflexivity.
  - intros ctx u Hu Hnot. unfold requireRole. rewrite Hu.
    destruct (Js.includes roles (role u)) eqn:E; [| reflexivity].
    apply includes_elem_of in E. contradiction.
  - intros ctx u Hu Hin. unfold requireRole. rewrite Hu.
    apply includes_elem_of in Hin. rewrite Hin. reflexivity.
Qed.

(** The staff gate in front of a handler that would cancel an order lets a
    waiter through and stops an anonymous or customer-role caller. *)
Lemma requireRole_gate_witness :
  let next := OrderRouter.updateStatusHandler 0
                (OrderRouter.mkUpdateStatusInput "c2" OrderStatus.CANCELLED None) in
  staffProcedure next Sample.anonymous Sample.store = (Err UNAUTHORIZED, Sample.store)
  /\ staffProcedure next (Sample.staff "CUSTOMER") Sample.store
     = (Err FORBIDDEN, Sample.store)
  /\ staffProcedure next (Sample.staff "WAITER") Sample.store
     = next (Sample.staff "WAITER") Sample.store.
Proof.
  intros next.
  destruct (requireRole_gate ["ADMIN"; "KITCHEN"; "WAITER"; "CASHIER"] _ next Sample.store)
    as (Hnone & Hforbidden & Hallowed & _).
  split; [| split].
  - apply Hnone. reflexivity.
  - apply (Hforbidden _ (mkUser "staff-1" "staff@ordo.test" "CUSTOMER")).
    + reflexivity.
    + intros Hin. apply includes_elem_of in Hin. vm_compute in Hin. discriminate Hin.
  - apply (Hallowed _ (mkUser "staff-1" "staff@ordo.test" "WAITER")).
    + reflexivity.
    + apply includes_elem_of. reflexivity.
Defined.

(** ** Rows and the first-match update *)

Lemma existsb_find {A} (p : A -> bool) (l : list A) :
  existsb p l = match List.find p l with Some _ => true | None => false end.
Proof.
  induction l as [| x l IH]; simpl; [reflexivity |].
  destruct (p x); [reflexivity | exact IH].
Qed.

Lemma update_first_spec {A} (p : A -> bool) (f : A -> A) (rows : list A) :
  match update_first p f rows with
  | Some (r', rows') =>
      exists pre r post,
        rows = pre ++ r :: post /\ List.find p rows = Some r
        /\ r' = f r /\ rows' = pre ++ f r :: post
  | None => List.find p rows = None
  end.
Proof.
  induction rows as [| x rows IH]; simpl; [reflexivity |].
  destruct (p x) eqn:Hp.
  - exists [], x, rows. repeat split.
  - destruct (update_first p f rows) as [[r' rows'] |].
    + destruct IH as (pre & r & post & -> & Hfind & -> & ->).
      exists (x :: pre), r, post. repeat split. exact Hfind.
    + exact IH.
Qed.

Lemma update_first_found {A} (p : A -> bool) (f : A -> A) rows r :
  List.find p rows = Some r ->
  exists rows', update_first p f rows = Some (f r, rows').
Proof.
  intros Hfind. pose proof (update_first_spec p f rows) as Hspec.
  destruct (update_first p f rows) as [[r' rows'] |].
  - destruct Hspec as (pre & r0 & post & _ & Hfind' & -> & _).
    rewrite Hfind in Hfind'. injection Hfind' as ->. exists rows'. reflexivity.
  - rewrite Hfind in Hspec. discriminate Hspec.
Qed.

Lemma update_first_Forall {A} (P : A -> Prop) (p : A -> bool) (f : A -> A)
    rows r r' rows' :
  update_first p f rows = Some (r', rows') ->
  List.find p rows = Some r ->
  Forall P rows -> P (f r) -> Forall P rows'.
Proof.
  intros Hupd Hfind Hall Hnew.
  pose proof (update_first_spec p f rows) as Hspec. rewrite Hupd in Hspec.
  destruct Hspec as (pre & r0 & post & -> & Hfind' & _ & ->).
  rewrite Hfind in Hfind'. injection Hfind' as <-.
  apply Forall_app in Hall as [Hpre Hpost]. apply Forall_app. split; [exact Hpre |].
  inversion Hpost; subst. constructor; assumption.
Qed.

Lemma update_first_map {A B} (g : A -> B) (p : A -> bool) (f : A -> A)
    rows r' rows' :
  (forall x, g (f x) = g x) ->
  update_first p f rows = Some (r', rows') ->
  List.map g rows' = List.map g rows.
Proof.
  intros Hg Hupd.
  pose proof (update_first_spec p f rows) as Hspec. rewrite Hupd in Hspec.
  destruct Hspec as (pre & r0 & post & -> & _ & _ & ->).
  rewrite !List.map_app. simpl. rewrite Hg. reflexivity.
Qed.

(** ** Pricing the lines of an order *)

Lemma applyModifiers_price menuItem requested itemPrice applied :
  fst (OrderRouter.applyModifiers (MenuItem.modifiers menuItem) requested itemPrice applied)
  = sumFrom itemPrice
      (List.map (adjustmentOf menuItem) (List.filter (existsOn menuItem) requested)).
Proof.
  revert itemPrice applied.
  induction requested as [| m rest IH]; intros itemPrice applied; simpl.
  - reflexivity.
  - assert (Hex : existsOn menuItem m
                  = match List.find (fun x => String.eqb (ItemModifier.id x)
                                                (OrderRouter.modifierId m))
                            (MenuItem.modifiers menuItem) with
                    | Some _ => true
                    | None => false
                    end) by apply existsb_find.
    assert (Hadj : adjustmentOf menuItem m
                   = match List.find (fun x => String.eqb (ItemModifier.id x)
                                                 (OrderRouter.modifierId m))
                             (MenuItem.modifiers menuItem) with
                     | Some x => ItemModifier.priceAdjustment x
                     | None => 0%float
                     end) by reflexivity.
    destruct (List.find _ (MenuItem.modifiers menuItem)) as [modifier |];
      rewrite Hex.
    + rewrite IH. simpl. rewrite Hadj. reflexivity.
    + apply IH.
Qed.

Lemma priceItem_unitPrice menuItem item :
  OrderItem.unitPrice (OrderRouter.priceItem menuItem item) = spec_unitPrice menuItem item.
Proof.
  unfold OrderRouter.priceItem, spec_unitPrice.
  destruct (OrderRouter.modifiers item) as [mods |]; simpl.
  - pose proof (applyModifiers_price menuItem mods (MenuItem.price menuItem) []) as Hp.
    destruct (OrderRouter.applyModifiers _ mods _ _) as [itemPrice applied].
    simpl in *. exact Hp.
  - reflexivity.
Qed.

Lemma priceItem_line s menuItem item :
  List.find (fun m => String.eqb (MenuItem.id m) (OrderRouter.menuItemId item))
    (menuItems s) = Some menuItem ->
  line_priced s item (OrderRouter.priceItem menuItem item).
Proof.
  intros Hfind. exists menuItem. split; [exact Hfind |].
  pose proof (priceItem_unitPrice menuItem item) as Hunit.
  unfold OrderRouter.priceItem in *.
  destruct (match OrderRouter.modifiers item with
            | Some mods => _
            | None => _
            end) as [itemPrice applied].
  simpl in *. repeat split. exact Hunit.
Qed.

(** The item loop only reads the store. *)
Lemma processItems_store orderItems subtotal processed s r s' :
  OrderRouter.processItems orderItems subtotal processed s = (r, s') -> s' = s.
Proof.
  revert subtotal processed.
  induction orderItems as [| item rest IH]; intros subtotal processed; simpl.
  - store_kept.
  - unfold bind, menuItem.findUnique, gets.
    destruct (List.find _ (menuItems s)) as [menuItem |]; [| store_kept].
    destruct (MenuItem.isAvailable menuItem); simpl; [apply IH | store_kept].
Qed.

Lemma processItems_lines orderItems subtotal processed s subtotal' processed' s' :
  OrderRouter.processItems orderItems subtotal processed s
  = (Ok (subtotal', processed'), s') ->
  exists lines,
    processed' = processed ++ lines
    /\ subtotal' = sumFrom subtotal (List.map OrderItem.totalPrice lines)
    /\ Forall2 (line_priced s) orderItems lines.
Proof.
  revert subtotal processed.
  induction orderItems as [| item rest IH]; intros subtotal processed; simpl.
  - unfold ret. intros E. injection E as <- <- _. exists []. rewrite app_nil_r.
    repeat split; constructor.
  - unfold bind, menuItem.findUnique, gets.
    destruct (List.find _ (menuItems s)) as [menuItem |] eqn:Hfind;
      [| unfold throw; discriminate].
    destruct (MenuItem.isAvailable menuItem); simpl; [| unfold throw; discriminate].
    intros E. apply IH in E as (lines & -> & -> & Hlines).
    exists (OrderRouter.priceItem menuItem item :: lines).
    rewrite <- app_assoc. simpl. repeat split.
    constructor; [apply priceItem_line; exact Hfind | exact Hlines].
Qed.

(** The loop fails only on a missing or unavailable menu item: whatever
    modifiers are requested, lines whose items are on offer are all priced. *)
Lemma processItems_succeeds orderItems subtotal processed s :
  Forall (fun item =>
            exists menuItem,
              List.find (fun m => String.eqb (MenuItem.id m) (OrderRouter.menuItemId item))
                (menuItems s) = Some menuItem
              /\ MenuItem.isAvailable menuItem = true) orderItems ->
  exists subtotal' lines,
    OrderRouter.processItems orderItems subtotal processed s
    = (Ok (subtotal', lines), s).
Proof.
  intros Hall. revert subtotal processed.
  induction Hall as [| item rest (menuItem & Hfind & Havailable) _ IH];
    intros subtotal processed; simpl.
  - eexists _, _. reflexivity.
  - unfold bind, menuItem.findUnique, gets. rewrite Hfind, Havailable. simpl.
    apply IH.
Qed.

(** ** Delivery fee, customer resolution and the shape of [create] *)

Lemma computeDeliveryFee_store orderType subtotal s r s' :
  OrderRouter.computeDeliveryFee orderType subtotal s = (r, s') -> s' = s.
Proof.
  unfold OrderRouter.computeDeliveryFee.
  destruct orderType; try store_kept.
  unfold bind, restaurantConfig.findFirstActive, gets.
  destruct (List.find _ _ ≫= _) as [dc |]; [| store_kept].
  destruct (Js.lt_amount _ _); [store_kept |].
  destruct (DeliveryConfig.is_free_over_amount dc) as [free_over |];
    [destruct (_ && _) |]; store_kept.
Qed.

Lemma find_phone_None p (rows : list Customer.t) :
  List.find (fun c => String.eqb (Customer.phone c) p) rows = None ->
  p ∉ List.map Customer.phone rows.
Proof.
  intros Hfind Hin. apply list_elem_of_In, in_map_iff in Hin as (c & Hc & Hin).
  apply (find_none _ _ Hfind) in Hin. rewrite Hc, String.eqb_refl in Hin.
  discriminate Hin.
Qed.

Lemma customer_update_found (existing : Customer.t) data s :
  List.find (fun c => String.eqb (Customer.phone c) (Customer.phone existing))
    (customers s) = Some existing ->
  exists row rows',
    update_first (fun c => String.eqb (Customer.id c) (Customer.id existing))
      (customer.applyUpdate data) (customers s) = Some (row, rows')
    /\ customer.update (Customer.id existing) data s
       = (Ok row, with_customers rows' s).
Proof.
  intros Hfind.
  destruct (List.find (fun c => String.eqb (Customer.id c) (Customer.id existing))
              (customers s)) as [first |] eqn:Hid.
  - destruct (update_first_found _ (customer.applyUpdate data) _ _ Hid) as [rows' Hupd].
    exists (customer.applyUpdate data first), rows'. split; [exact Hupd |].
    unfold customer.update, bind, gets. rewrite Hupd. reflexivity.
  - apply find_some in Hfind as [Hin _].
    apply (find_none _ _ Hid) in Hin. rewrite String.eqb_refl in Hin.
    discriminate Hin.
Qed.

Lemma customer_create_eq data s :
  customer.create data s
  = let row := Customer.mk ("c" +:+ Js.toString (Z.of_nat (nextId s)))
                 (customer.phone data) (customer.name data)
                 (customer.email data) (customer.addresses data) in
    (Ok row,
     with_customers (customers s ++ [row]) (with_nextId (S (nextId s)) s)).
Proof. reflexivity. Qed.

Lemma update_or_keep (existing : Customer.t) data s :
  List.find (fun c => String.eqb (Customer.phone c) (Customer.phone existing))
    (customers s) = Some existing ->
  exists c s1,
    match customer.u_name data, customer.u_email data with
    | None, None => ret existing
    | _, _ => customer.update (Customer.id existing) data
    end s = (Ok c, s1)
    /\ same_catalog s s1
    /\ orders s1 = orders s /\ reservations s1 = reservations s
    /\ List.map Customer.phone (customers s1) = List.map Customer.phone (customers s).
Proof.
  intros Hfind.
  destruct (customer_update_found existing data s Hfind) as (row & rows' & Hupd & Heq).
  assert (Hupdate : exists c s1,
             customer.update (Customer.id existing) data s = (Ok c, s1)
             /\ same_catalog s s1
             /\ orders s1 = orders s /\ reservations s1 = reservations s
             /\ List.map Customer.phone (customers s1)
                = List.map Customer.phone (customers s)).
  { exists row, (with_customers rows' s). split; [exact Heq |].
    repeat split. simpl.
    apply (update_first_map Customer.phone _ (customer.applyUpdate data) _ _ _
             (fun _ => eq_refl) Hupd). }
  destruct (customer.u_name data), (customer.u_email data); try exact Hupdate.
  exists existing, s. repeat split.
Qed.

(** Resolving the customer of an order always succeeds, touches only the
    customer table and the id counter, and adds a row only for a new phone. *)
Lemma order_resolveCustomer_spec info addr s :
  exists c s1,
    OrderRouter.resolveCustomer info addr s = (Ok c, s1)
    /\ same_catalog s s1
    /\ orders s1 = orders s /\ reservations s1 = reservations s
    /\ match List.find (fun c => String.eqb (Customer.phone c) (OrderRouter.phone info))
               (customers s) with
       | None => customers s1 = customers s ++ [c]
                 /\ Customer.phone c = OrderRouter.phone info
       | Some _ => List.map Customer.phone (customers s1)
                   = List.map Customer.phone (customers s)
       end.
Proof.
  unfold OrderRouter.resolveCustomer, bind, customer.findUniqueByPhone, gets.
  destruct (List.find _ (customers s)) as [existing |] eqn:Hfind.
  - cbv zeta.
    apply (update_or_keep existing (customer.mkUpdate _ _) s).
    pose proof (find_some _ _ Hfind) as [_ Heq].
    apply String.eqb_eq in Heq. rewrite Heq. exact Hfind.
  - rewrite customer_create_eq. cbv zeta.
    eexists _, _. split; [reflexivity |]. simpl. repeat split.
Qed.

Lemma reservation_resolveCustomer_spec p n s :
  exists c s1,
    ReservationRouter.resolveCustomer p n s = (Ok c, s1)
    /\ same_catalog s s1
    /\ orders s1 = orders s /\ reservations s1 = reservations s
    /\ match List.find (fun c => String.eqb (Customer.phone c) p) (customers s) with
       | None => customers s1 = customers s ++ [c] /\ Customer.phone c = p
       | Some _ => customers s1 = customers s
       end.
Proof.
  unfold ReservationRouter.resolveCustomer, bind, customer.findUniqueByPhone, gets.
  destruct (List.find _ (customers s)) as [existing |] eqn:Hfind.
  - exists existing, s. repeat split.
  - rewrite customer_create_eq. cbv zeta.
    eexists _, _. split; [reflexivity |]. simpl. repeat split.
Qed.

(** [create] step by step: the two read-only phases, then the customer,
    then the order row appended to the order table. *)
Lemma create_unfold input ctx s :
  OrderRouter.createHandler input ctx s
  = match OrderRouter.processItems (OrderRouter.items input) 0%float [] s with
    | (Ok (subtotal, lines), _) =>
        match OrderRouter.computeDeliveryFee (OrderRouter.orderType input) subtotal s with
        | (Ok deliveryFee, _) =>
            match OrderRouter.resolveCustomer (OrderRouter.customerInfo input)
                    (OrderRouter.deliveryAddress input) s with
            | (Ok customer, s1) =>
                let orderNumber := "ORD-" +:+ Js.toString (Z.of_nat (nextId s1)) in
                let id := "c" +:+ Js.toString (Z.of_nat (S (nextId s1))) in
                let row := order.row_of id
                             (createData input subtotal deliveryFee customer
                                orderNumber lines) in
                (Ok row,
                 with_orders (orders s1 ++ [row])
                   (with_nextId (S (S (nextId s1))) s1))
            | (Err c, s1) => (Err c, s1)
            end
        | (Err c, _) => (Err c, s)
        end
    | (Err c, _) => (Err c, s)
    end.
Proof.
  unfold OrderRouter.createHandler. unfold bind at 1.
  destruct (OrderRouter.processItems _ _ _ s) as [[[subtotal lines] | c] s0] eqn:Hitems;
    apply processItems_store in Hitems; subst s0; [| reflexivity].
  unfold bind at 1.
  destruct (OrderRouter.computeDeliveryFee _ _ s) as [[fee | c] s0] eqn:Hfee;
    apply computeDeliveryFee_store in Hfee; subst s0; [| reflexivity].
  unfold bind at 1.
  destruct (OrderRouter.resolveCustomer _ _ s) as [[customer | c] s1]; [| reflexivity].
  reflexivity.
Qed.

(** ** Comparisons on amounts *)

(** A number above 0 is truthy: it is neither a zero nor [NaN]. *)
Lemma truthy_amount_pos tip : PrimFloat.ltb 0 tip = true -> Js.truthy_amount tip = true.
Proof.
  intros Hpos. unfold Js.truthy_amount, PrimFloat.is_nan.
  rewrite FloatAxioms.ltb_spec in Hpos. rewrite !FloatAxioms.eqb_spec.
  change (FloatOps.Prim2SF 0) with (SpecFloat.S754_zero false) in *.
  destruct (FloatOps.Prim2SF tip) as [sign | sign | | sign m e];
    try destruct sign; try discriminate Hpos; try reflexivity.
  unfold SpecFloat.SFeqb, SpecFloat.SFcompare. simpl.
  rewrite Z.compare_refl, Pos.compare_cont_refl. reflexivity.
Qed.

(** ** Order mutations and the total *)

Lemma order_row_total_ok id input subtotal deliveryFee customer number lines :
  let row := order.row_of id
               (createData input subtotal deliveryFee customer number lines) in
  order_total_ok row
  /\ Order.tipAmount row = 0%float /\ Order.discountAmount row = 0%float
  /\ Order.subtotal row = subtotal /\ Order.deliveryFee row = deliveryFee
  /\ Order.taxAmount row = (subtotal * OrderRouter.taxRate)%float
  /\ Order.orderItems row = lines.
Proof. cbv zeta. unfold order_total_ok. simpl. repeat split. Qed.

(** What a successful [create] returns and leaves in the store. *)
Lemma create_Ok input ctx s o s' :
  OrderRouter.createHandler input ctx s = (Ok o, s') ->
  exists subtotal lines deliveryFee customer s1 id number,
    OrderRouter.processItems (OrderRouter.items input) 0%float [] s
    = (Ok (subtotal, lines), s)
    /\ OrderRouter.computeDeliveryFee (OrderRouter.orderType input) subtotal s
       = (Ok deliveryFee, s)
    /\ OrderRouter.resolveCustomer (OrderRouter.customerInfo input)
         (OrderRouter.deliveryAddress input) s = (Ok customer, s1)
    /\ o = order.row_of id (createData input subtotal deliveryFee customer number lines)
    /\ orders s' = orders s1 ++ [o]
    /\ customers s' = customers s1
    /\ reservations s' = reservations s1.
Proof.
  rewrite create_unfold.
  destruct (OrderRouter.processItems _ _ _ s) as [[[subtotal lines] | c] s0] eqn:Hitems;
    [| discriminate].
  pose proof (processItems_store _ _ _ _ _ _ Hitems); subst s0.
  destruct (OrderRouter.computeDeliveryFee _ _ s) as [[fee | c] s0] eqn:Hfee;
    [| discriminate].
  pose proof (computeDeliveryFee_store _ _ _ _ _ Hfee); subst s0.
  destruct (OrderRouter.resolveCustomer _ _ s) as [[customer | c] s1] eqn:Hcust;
    [| discriminate].
  cbv zeta. intros E. injection E as <- <-.
  exists subtotal, lines, fee, customer, s1. eexists _, _.
  repeat split; assumption.
Qed.

(** The procedure is its handler on the requests the schema accepts, and
    an error that writes nothing on the others. *)
Lemma create_accepted emailFormat input ctx s :
  OrderRouter.createOrderSchema emailFormat input = true ->
  OrderRouter.create emailFormat input ctx s = OrderRouter.createHandler input ctx s.
Proof. intros Hvalid. unfold OrderRouter.create. rewrite Hvalid. reflexivity. Qed.

Lemma create_refused emailFormat input ctx s :
  OrderRouter.createOrderSchema emailFormat input = false ->
  OrderRouter.create emailFormat input ctx s = (Err BAD_REQUEST, s).
Proof. intros Hvalid. unfold OrderRouter.create. rewrite Hvalid. reflexivity. Qed.

Lemma create_returned emailFormat input ctx s o s' :
  OrderRouter.create emailFormat input ctx s = (Ok o, s') ->
  OrderRouter.createOrderSchema emailFormat input = true
  /\ OrderRouter.createHandler input ctx s = (Ok o, s').
Proof.
  unfold OrderRouter.create.
  destruct (OrderRouter.createOrderSchema emailFormat input);
    [intros E; split; [reflexivity | exact E] | discriminate].
Qed.

(** Whatever [create] does, the orders already stored stay as they are and
    at most the new order row is appended. *)
Lemma create_orders input ctx s :
  let s' := snd (OrderRouter.createHandler input ctx s) in
  orders s' = orders s
  \/ exists o, fst (OrderRouter.createHandler input ctx s) = Ok o
               /\ orders s' = orders s ++ [o] /\ order_total_ok o.
Proof.
  cbv zeta. rewrite create_unfold.
  destruct (OrderRouter.processItems _ _ _ s) as [[[subtotal lines] | c] s0];
    [| left; reflexivity].
  destruct (OrderRouter.computeDeliveryFee _ _ s) as [[fee | c] s2];
    [| left; reflexivity].
  destruct (order_resolveCustomer_spec (OrderRouter.customerInfo input)
              (OrderRouter.deliveryAddress input) s)
    as (customer & s1 & -> & _ & Horders & _).
  right. eexists. cbv zeta. simpl. rewrite Horders.
  split; [reflexivity |]. split; [reflexivity |].
  apply order_row_total_ok.
Qed.

Lemma requireRole_cases roles {A} (next : Context -> H A) ctx s :
  requireRole roles next ctx s = next ctx s
  \/ exists c, requireRole roles next ctx s = (Err c, s).
Proof.
  unfold requireRole. destruct (user ctx) as [u |].
  - destruct (negb _); [right; eexists; reflexivity | left; reflexivity].
  - right. eexists. reflexivity.
Qed.

Lemma order_update_spec id data s :
  match update_first (fun o => String.eqb (Order.id o) id)
          (order.applyUpdate data) (orders s) with
  | Some (row, rows') => order.update id data s = (Ok row, with_orders rows' s)
  | None => order.update id data s = (Err INTERNAL_SERVER_ERROR, s)
  end.
Proof.
  unfold order.update, bind, gets.
  destruct (update_first _ _ (orders s)) as [[row rows'] |]; reflexivity.
Qed.

(** The tip block only reads; it yields a tip and a total exactly when the
    tip is positive and the order is found. *)
Lemma tipUpdate_spec id tipAmount s :
  exists part,
    OrderRouter.tipUpdate id tipAmount s = (Ok part, s)
    /\ (part = (None, None)
        \/ exists tip found,
             tipAmount = Some tip
             /\ Js.truthy_amount tip && Js.gt_amount tip 0%float = true
             /\ List.find (fun o => String.eqb (Order.id o) id) (orders s) = Some found
             /\ part = (Some tip,
                        Some (Order.subtotal found + Order.taxAmount found
                              + Order.deliveryFee found + tip
                              - Order.discountAmount found)%float)).
Proof.
  unfold OrderRouter.tipUpdate.
  destruct tipAmount as [tip |]; [| eexists; split; [reflexivity | left; reflexivity]].
  destruct (_ && _) eqn:Hpos; [| eexists; split; [reflexivity | left; reflexivity]].
  unfold bind, order.findUnique, gets.
  destruct (List.find _ (orders s)) as [found |] eqn:Hfind;
    [| eexists; split; [reflexivity | left; reflexivity]].
  eexists. split; [reflexivity |]. right. exists tip, found. repeat split; assumption.
Qed.

Lemma updateStatusHandler_totals now input ctx s :
  store_totals_ok s ->
  store_totals_ok (snd (OrderRouter.updateStatusHandler now input ctx s)).
Proof.
  intros Hok. unfold OrderRouter.updateStatusHandler.
  match goal with |- context [order.update ?id ?d s] =>
    pose proof (order_update_spec id d s) as Hspec;
    pose proof (update_first_spec (fun o => String.eqb (Order.id o) id)
                  (order.applyUpdate d) (orders s)) as Hrows
  end.
  destruct (update_first _ _ (orders s)) as [[row rows'] |] eqn:Hupd;
    rewrite Hspec; simpl; [| exact Hok].
  destruct Hrows as (pre & r & post & _ & Hfind & _ & _).
  unfold store_totals_ok. simpl.
  eapply update_first_Forall; [exact Hupd | exact Hfind | exact Hok |].
  apply find_some in Hfind as [Hin _].
  unfold store_totals_ok in Hok. rewrite Forall_forall in Hok.
  apply list_elem_of_In, Hok in Hin. exact Hin.
Qed.

Lemma confirmPaymentHandler_totals input ctx s :
  store_totals_ok s ->
  store_totals_ok (snd (OrderRouter.confirmPaymentHandler input ctx s)).
Proof.
  intros Hok. unfold OrderRouter.confirmPaymentHandler.
  destruct (tipUpdate_spec (OrderRouter.cp_id input) (OrderRouter.cp_tipAmount input) s)
    as (part & Htip & Hpart).
  rewrite (bind_eq _ _ _ _ _ Htip).
  match goal with |- context [order.update ?id ?d s] =>
    pose proof (order_update_spec id d s) as Hspec;
    pose proof (update_first_spec (fun o => String.eqb (Order.id o) id)
                  (order.applyUpdate d) (orders s)) as Hrows
  end.
  destruct (update_first _ _ (orders s)) as [[row rows'] |] eqn:Hupd;
    rewrite Hspec; simpl; [| exact Hok].
  destruct Hrows as (pre & r & post & _ & Hfind & _ & _).
  unfold store_totals_ok. simpl.
  eapply update_first_Forall; [exact Hupd | exact Hfind | exact Hok |].
  destruct Hpart as [-> | (tip & found & _ & _ & Hfound & ->)].
  - apply find_some in Hfind as [Hin _].
    unfold store_totals_ok in Hok. rewrite Forall_forall in Hok.
    apply list_elem_of_In, Hok in Hin. exact Hin.
  - rewrite Hfound in Hfind. injection Hfind as ->.
    unfold order_total_ok. reflexivity.
Qed.

(** ** The reservation handlers, step by step *)

Lemma reservation_create_row data s :
  reservation.create data s
  = match reservation.reservationDate data with
    | None => (Err INTERNAL_SERVER_ERROR, s)
    | Some date =>
        let row := Reservation.mk ("c" +:+ Js.toString (Z.of_nat (nextId s)))
                     (reservation.customerId data) (reservation.customerName data)
                     (reservation.customerPhone data) date
                     (reservation.reservationTime data) (reservation.partySize data)
                     ReservationStatus.PENDING
                     (reservation.tablePreferences data)
                     (reservation.specialRequests data) in
        (Ok row,
         with_reservations (reservations s ++ [row]) (with_nextId (S (nextId s)) s))
    end.
Proof. unfold reservation.create. destruct (reservation.reservationDate data); reflexivity. Qed.

Lemma reservation_create_unfold host input ctx s :
  ReservationRouter.createHandler host input ctx s
  = match List.find RestaurantConfig.isActive (restaurantConfigs s) with
    | None => (Err NOT_FOUND, s)
    | Some config =>
        if negb (Services.reservations (RestaurantConfig.services config))
        then (Err FORBIDDEN, s)
        else
          match ReservationRouter.daySchedule host config
                  (ReservationRouter.reservationDate input) with
          | None => (Err BAD_REQUEST, s)
          | Some schedule =>
              if DaySchedule.is_closed schedule then (Err BAD_REQUEST, s)
              else if ReservationRouter.outsideHours
                        (ReservationRouter.reservationTime input) schedule
              then (Err (ReservationRouter.outsideHoursError schedule), s)
              else
                match ReservationRouter.resolveCustomer
                        (ReservationRouter.customerPhone input)
                        (ReservationRouter.customerName input) s with
                | (Ok customer, s1) =>
                    reservation.create
                      (reservation.mkCreate (Customer.id customer)
                         (ReservationRouter.customerName input)
                         (ReservationRouter.customerPhone input)
                         (ReservationRouter.reservationDate input)
                         (ReservationRouter.reservationTime input +:+ ":00")
                         (ReservationRouter.partySize input)
                         (ReservationRouter.tablePreferences input)
                         (ReservationRouter.specialRequests input)) s1
                | (Err c, s1) => (Err c, s1)
                end
          end
    end.
Proof.
  unfold ReservationRouter.createHandler. unfold bind at 1.
  unfold restaurantConfig.findFirstActive, gets.
  destruct (List.find _ (restaurantConfigs s)) as [config |]; [| reflexivity].
  destruct (negb _); [reflexivity |].
  destruct (ReservationRouter.daySchedule _ _) as [schedule |]; [| reflexivity].
  destruct (DaySchedule.is_closed schedule); [reflexivity |].
  destruct (ReservationRouter.outsideHours _ _); reflexivity.
Qed.

(** A reservation request never touches the order table, and changes the
    customer table only through the customer resolution. *)
Lemma reservation_create_frame host input ctx s :
  let s' := snd (ReservationRouter.createHandler host input ctx s) in
  orders s' = orders s
  /\ (customers s' = customers s
      \/ exists c,
           List.find (fun c => String.eqb (Customer.phone c)
                                 (ReservationRouter.customerPhone input))
             (customers s) = None
           /\ customers s' = customers s ++ [c]
           /\ Customer.phone c = ReservationRouter.customerPhone input).
Proof.
  cbv zeta. rewrite reservation_create_unfold.
  destruct (List.find _ (restaurantConfigs s)) as [config |];
    [| split; [| left]; reflexivity].
  destruct (negb _); [split; [| left]; reflexivity |].
  destruct (ReservationRouter.daySchedule _ _) as [schedule |];
    [| split; [| left]; reflexivity].
  destruct (DaySchedule.is_closed schedule); [split; [| left]; reflexivity |].
  destruct (ReservationRouter.outsideHours _ _); [split; [| left]; reflexivity |].
  destruct (reservation_resolveCustomer_spec (ReservationRouter.customerPhone input)
              (ReservationRouter.customerName input) s)
    as (customer & s1 & -> & _ & Horders & _ & Hcust).
  rewrite reservation_create_row. simpl.
  assert (Hkeep : customers s1 = customers s
                  \/ exists c,
                       List.find (fun c => String.eqb (Customer.phone c)
                                             (ReservationRouter.customerPhone input))
                         (customers s) = None
                       /\ customers s1 = customers s ++ [c]
                       /\ Customer.phone c = ReservationRouter.customerPhone input).
  { destruct (List.find _ (customers s)) as [existing |].
    - left. exact Hcust.
    - right. exists customer. destruct Hcust. repeat split; assumption. }
  destruct (ReservationRouter.reservationDate input); simpl; split; assumption.
Qed.

Lemma cancelGuard_store input ctx s r s' :
  ReservationRouter.cancelGuard input ctx s = (r, s') -> s' = s.
Proof.
  unfold ReservationRouter.cancelGuard.
  destruct (_ && _); [| store_kept].
  unfold bind, reservation.findUnique, gets.
  destruct (List.find _ (reservations s)) as [found |];
    [destruct (negb _) |]; store_kept.
Qed.

Lemma reservation_updateStatus_spec id st s :
  match update_first (fun r => String.eqb (Reservation.id r) id)
          (reservation.setStatus st) (reservations s) with
  | Some (row, rows') =>
      reservation.updateStatus id st s = (Ok row, with_reservations rows' s)
  | None => reservation.updateStatus id st s = (Err INTERNAL_SERVER_ERROR, s)
  end.
Proof.
  unfold reservation.updateStatus, bind, gets.
  destruct (update_first _ _ (reservations s)) as [[row rows'] |]; reflexivity.
Qed.

Lemma cancel_frame input ctx s :
  let s' := snd (ReservationRouter.cancel input ctx s) in
  orders s' = orders s /\ customers s' = customers s.
Proof.
  cbv zeta. unfold ReservationRouter.cancel, bind.
  destruct (ReservationRouter.cancelGuard input ctx s) as [[[] | c] s0] eqn:Hguard;
    apply cancelGuard_store in Hguard; subst s0; [| split; reflexivity].
  pose proof (reservation_updateStatus_spec (ReservationRouter.id input)
                ReservationStatus.CANCELLED s) as Hspec.
  destruct (update_first _ _ (reservations s)) as [[row rows'] |];
    rewrite Hspec; split; reflexivity.
Qed.

(** ** One call at a time *)

Lemma exec_totals_ok call s : store_totals_ok s -> store_totals_ok (Api.exec call s).
Proof.
  intros Hok.
  destruct call as [input ctx | now input ctx | input ctx | host input ctx | input ctx];
    simpl.
  - destruct (create_orders input ctx s) as [Hsame | (o & _ & Happ & Ho)];
      unfold store_totals_ok.
    + rewrite Hsame. exact Hok.
    + rewrite Happ. apply Forall_app. split; [exact Hok | constructor; [exact Ho | constructor]].
  - unfold OrderRouter.updateStatus, staffProcedure.
    destruct (requireRole_cases ["ADMIN"; "KITCHEN"; "WAITER"; "CASHIER"]
                (OrderRouter.updateStatusHandler now input) ctx s) as [-> | [c ->]].
    + apply updateStatusHandler_totals. exact Hok.
    + exact Hok.
  - unfold OrderRouter.confirmPayment, staffProcedure.
    destruct (requireRole_cases ["ADMIN"; "KITCHEN"; "WAITER"; "CASHIER"]
                (OrderRouter.confirmPaymentChecked input) ctx s) as [-> | [c ->]].
    + unfold OrderRouter.confirmPaymentChecked.
      destruct (OrderRouter.confirmPaymentSchema input); [| exact Hok].
      apply confirmPaymentHandler_totals. exact Hok.
    + exact Hok.
  - destruct (reservation_create_frame host input ctx s) as [Horders _].
    unfold store_totals_ok. rewrite Horders. exact Hok.
  - destruct (cancel_frame input ctx s) as [Horders _].
    unfold store_totals_ok. rewrite Horders. exact Hok.
Qed.

(** ** The order total (C1) *)

Lemma tipUpdate_positive id tip found s :
  PrimFloat.ltb 0 tip = true ->
  List.find (fun o => String.eqb (Order.id o) id) (orders s) = Some found ->
  OrderRouter.tipUpdate id (Some tip) s
  = (Ok (Some tip,
         Some (Order.subtotal found + Order.taxAmount found
               + Order.deliveryFee found + tip - Order.discountAmount found)%float), s).
Proof.
  intros Hpos Hfind. unfold OrderRouter.tipUpdate.
  rewrite (truthy_amount_pos _ Hpos).
  unfold Js.gt_amount. rewrite Hpos. simpl.
  unfold bind, order.findUnique, gets. rewrite Hfind. reflexivity.
Qed.

Lemma execAll_totals_ok calls s :
  store_totals_ok s -> store_totals_ok (Api.execAll calls s).
Proof.
  revert s. induction calls as [| call calls IH]; intros s Hok; simpl.
  - exact Hok.
  - apply IH, exec_totals_ok, Hok.
Qed.

(** C1: the order [create] persists satisfies
    total = subtotal + taxAmount + deliveryFee + tipAmount - discountAmount
    with tip and discount 0; a successful [confirmPayment] with a positive
    tip stores that tip and the total recomputed from the stored subtotal,
    tax, delivery fee and discount; and the equation holds for every stored
    order after any sequence of calls from a store in which it holds (an
    empty order table in particular).  The amounts are JS numbers and the
    equation is between doubles: the stored total is the sum as JS
    evaluates it, left to right. *)
Theorem order_total_invariant :
  (forall emailFormat input ctx s o s',
      OrderRouter.create emailFormat input ctx s = (Ok o, s') ->
      o ∈ orders s' /\ order_total_ok o
      /\ Order.tipAmount o = 0%float /\ Order.discountAmount o = 0%float)
  /\ (forall input ctx s o s' tip stored,
      OrderRouter.confirmPayment input ctx s = (Ok o, s') ->
      OrderRouter.cp_tipAmount input = Some tip -> PrimFloat.ltb 0 tip = true ->
      List.find (fun x => String.eqb (Order.id x) (OrderRouter.cp_id input)) (orders s)
      = Some stored ->
      o ∈ orders s' /\ Order.tipAmount o = tip
      /\ Order.total o
         = (Order.subtotal stored + Order.taxAmount stored
            + Order.deliveryFee stored + tip - Order.discountAmount stored)%float
      /\ order_total_ok o)
  /\ (forall calls s, store_totals_ok s -> store_totals_ok (Api.execAll calls s)).
Proof.
  split; [| split].
  - intros emailFormat input ctx s o s' Hcreate.
    apply create_returned in Hcreate as [_ Hcreate].
    apply create_Ok in Hcreate
      as (subtotal & lines & fee & customer & s1 & id & number
          & _ & _ & _ & -> & Horders & _).
    split; [rewrite Horders; apply elem_of_app; right; apply list_elem_of_here |].
    pose proof (order_row_total_ok id input subtotal fee customer number lines) as Hrow.
    cbv zeta in Hrow. destruct Hrow as (Hok & Htip & Hdisc & _).
    repeat split; assumption.
  - intros input ctx s o s' tip stored Hcall Htip Hpos Hfind.
    unfold OrderRouter.confirmPayment, staffProcedure in Hcall.
    destruct (requireRole_cases ["ADMIN"; "KITCHEN"; "WAITER"; "CASHIER"]
                (OrderRouter.confirmPaymentChecked input) ctx s) as [Hrun | [c Hstop]];
      [| rewrite Hstop in Hcall; discriminate Hcall].
    rewrite Hrun in Hcall. unfold OrderRouter.confirmPaymentChecked in Hcall.
    destruct (OrderRouter.confirmPaymentSchema input); [| discriminate Hcall].
    unfold OrderRouter.confirmPaymentHandler in Hcall.
    rewrite Htip in Hcall.
    rewrite (bind_eq _ _ _ _ _ (tipUpdate_positive _ _ _ _ Hpos Hfind)) in Hcall.
    simpl in Hcall.
    match type of Hcall with order.update ?id ?d s = _ =>
      pose proof (order_update_spec id d s) as Hspec;
      destruct (update_first_found (fun x => String.eqb (Order.id x) id)
                  (order.applyUpdate d) _ _ Hfind) as [rows' Hupd];
      pose proof (update_first_spec (fun x => String.eqb (Order.id x) id)
                    (order.applyUpdate d) (orders s)) as Hrows
    end.
    rewrite Hupd in Hspec, Hrows. rewrite Hspec in Hcall.
    injection Hcall as <- <-.
    destruct Hrows as (pre & r & post & _ & Hfind' & _ & ->).
    rewrite Hfind in Hfind'. injection Hfind' as <-.
    split; [simpl; apply elem_of_app; right; apply list_elem_of_here |].
    unfold order_total_ok. simpl. repeat split.
  - exact execAll_totals_ok.
Qed.

Lemma order_total_invariant_witness :
  store_totals_ok (Api.execAll Sample.evening Sample.store)
  /\ exists o s',
       OrderRouter.create Sample.anyEmail Sample.takeout Sample.anonymous Sample.store
       = (Ok o, s')
       /\ o ∈ orders s' /\ order_total_ok o.
Proof.
  destruct order_total_invariant as (Hcreate & _ & Hall).
  split.
  - apply Hall. unfold store_totals_ok. simpl. constructor.
  - destruct (OrderRouter.create Sample.anyEmail Sample.takeout Sample.anonymous
                Sample.store) as [[o | c] s'] eqn:E; [| vm_compute in E; discriminate E].
    exists o, s'. destruct (Hcreate _ _ _ _ _ _ E) as (Hin & Hok & _).
    split; [reflexivity | split; assumption].
Defined.

(** The spec's example: two guacamoles at 85 to take away give subtotal 170,
    tax 27.2, no delivery fee and total 197.2, each the double JS prints
    that way. *)
Example takeout_totals :
  exists o s',
    OrderRouter.create Sample.anyEmail Sample.takeout Sample.anonymous Sample.store
    = (Ok o, s')
    /\ Order.subtotal o = 170%float /\ Order.taxAmount o = 27.2%float
    /\ Order.deliveryFee o = 0%float /\ Order.total o = 197.2%float.
Proof.
  destruct (OrderRouter.create Sample.anyEmail Sample.takeout Sample.anonymous
              Sample.store) as [[o | c] s'] eqn:E; vm_compute in E; [| discriminate E].
  injection E as <- <-. eexists _, _. split; [reflexivity |].
  vm_compute. repeat split.
Qed.

(** A tip of 0.1 on that order: the recomputed total is the double
    197.29999999999998, the sum as JS takes it, and not the double 197.3. *)
Example tip_total_is_a_double_sum :
  let paid :=
    OrderRouter.confirmPayment (OrderRouter.mkConfirmPaymentInput "c2" None (Some 0.1%float))
      (Sample.staff "CASHIER") Sample2.storeWithOrder in
  exists o s',
    paid = (Ok o, s')
    /\ Order.total o = 197.29999999999998%float
    /\ Order.total o <> 197.3%float
    /\ order_total_ok o.
Proof.
  cbv zeta. eexists _, _. split; [vm_compute; reflexivity |].
  split; [reflexivity |]. split; [| reflexivity].
  simpl. intros Heq. apply (f_equal (PrimFloat.eqb 197.3)) in Heq.
  vm_compute in Heq. discriminate Heq.
Qed.

(** After the sample evening the first order is paid and ready, carries the
    tip of 20 and totals 217.2. *)
Example evening_first_order :
  match orders (Api.execAll Sample.evening Sample.store) with
  | o :: _ =>
      Order.status o = OrderStatus.READY /\ Order.paymentStatus o = PAID
      /\ Order.tipAmount o = 20%float /\ Order.total o = 217.2%float
  | [] => False
  end.
Proof. vm_compute. repeat split. Qed.

(** ** Line prices (C2) *)

(** A requested modifier the item does not have leaves price and snapshot
    as they were. *)
Lemma applyModifiers_unknown available m rest itemPrice applied :
  List.find (fun x => String.eqb (ItemModifier.id x) (OrderRouter.modifierId m))
    available = None ->
  OrderRouter.applyModifiers available (m :: rest) itemPrice applied
  = OrderRouter.applyModifiers available rest itemPrice applied.
Proof. intros Hfind. simpl. rewrite Hfind. reflexivity. Qed.

(** C2: in an order [create] persists, every line carries the unit price
    base price + adjustments of exactly the requested modifiers found on the
    menu item (the others contribute nothing and raise no error), its total
    is unit price times quantity, and the subtotal the item loop computes,
    which is the one stored on the order, is the sum of the line totals.
    Sums and products are those of JS numbers: the adjustments are added
    to the base price one after the other, the line totals to 0 one after
    the other. *)
Theorem create_prices_lines :
  forall emailFormat input ctx s o s',
    OrderRouter.create emailFormat input ctx s = (Ok o, s') ->
    exists subtotal,
      OrderRouter.processItems (OrderRouter.items input) 0%float [] s
      = (Ok (subtotal, Order.orderItems o), s)
      /\ Forall2 (line_priced s) (OrderRouter.items input) (Order.orderItems o)
      /\ subtotal = sumFrom 0 (List.map OrderItem.totalPrice (Order.orderItems o))
      /\ Order.subtotal o = subtotal.
Proof.
  intros emailFormat input ctx s o s' Hcreate.
  apply create_returned in Hcreate as [_ Hcreate].
  apply create_Ok in Hcreate
    as (subtotal & lines & fee & customer & s1 & id & number
        & Hitems & _ & _ & -> & _).
  exists subtotal. simpl. split; [exact Hitems |].
  apply processItems_lines in Hitems as (lines' & Hlines & Hsub & Hall).
  simpl in Hlines. subst lines'. split; [exact Hall |].
  split; [exact Hsub | reflexivity].
Qed.

Lemma create_prices_lines_witness :
  exists o s',
    OrderRouter.create Sample.anyEmail Sample.tacosToGo Sample.anonymous Sample.store
    = (Ok o, s')
    /\ Forall2 (line_priced Sample.store) (OrderRouter.items Sample.tacosToGo)
         (Order.orderItems o)
    /\ Order.subtotal o = sumFrom 0 (List.map OrderItem.totalPrice (Order.orderItems o)).
Proof.
  destruct (OrderRouter.create Sample.anyEmail Sample.tacosToGo Sample.anonymous
              Sample.store) as [[o | c] s'] eqn:E; [| vm_compute in E; discriminate E].
  exists o, s'. split; [reflexivity |].
  destruct (create_prices_lines _ _ _ _ _ _ E) as (subtotal & _ & Hlines & Hsum & Hsub).
  split; [exact Hlines |]. rewrite Hsub. exact Hsum.
Defined.

(** Two plates of tacos (95) with extra cheese (15) and an unknown modifier,
    plus one guacamole (85): lines of 220 and 85, subtotal 305. *)
Example tacosToGo_lines :
  exists o s',
    OrderRouter.create Sample.anyEmail Sample.tacosToGo Sample.anonymous Sample.store
    = (Ok o, s')
    /\ List.map OrderItem.unitPrice (Order.orderItems o) = [110; 85]%float
    /\ List.map OrderItem.totalPrice (Order.orderItems o) = [220; 85]%float
    /\ List.map (fun l => List.map AppliedModifier.id <$> OrderItem.modifiers l)
         (Order.orderItems o) = [Some ["mod-1"]; None]
    /\ Order.subtotal o = 305%float.
Proof.
  destruct (OrderRouter.create Sample.anyEmail Sample.tacosToGo Sample.anonymous
              Sample.store) as [[o | c] s'] eqn:E; vm_compute in E; [| discriminate E].
  injection E as <- <-. eexists _, _. split; [reflexivity |].
  vm_compute. repeat split.
Qed.

(** Prices with cents round as doubles do: three portions at 8.6 make
    25.799999999999997, and 129.23 + 8.6 + 12.17 adds up to
    149.99999999999997, which is below a minimum order of 150. *)
Example cents_round_as_doubles :
  let menu := [MenuItem.mk "a" "Agua" 8.6 true []; MenuItem.mk "b" "Barbacoa" 129.23 true [];
               MenuItem.mk "c" "Cafe" 12.17 true []] in
  let s := mkStore menu [Sample.config] [] [] [] 0 in
  let line id quantity := OrderRouter.mkOrderItemInput id quantity None None in
  fst (OrderRouter.processItems [line "a" 3%float] 0%float [] s)
  = Ok (25.799999999999997%float,
        [OrderItem.mk "a" 3 8.6 25.799999999999997 None None])
  /\ (exists lines,
        fst (OrderRouter.processItems [line "b" 1%float; line "a" 1%float; line "c" 1%float]
               0%float [] s)
        = Ok (149.99999999999997%float, lines))
  /\ OrderRouter.create Sample.anyEmail
       (OrderRouter.mkCreateOrderInput DELIVERY
          [line "b" 1%float; line "a" 1%float; line "c" 1%float]
          Sample.ana None None None cash) Sample.anonymous s
     = (Err PRECONDITION_FAILED, s).
Proof.
  cbv zeta. split; [vm_compute; reflexivity |].
  split; [eexists; vm_compute; reflexivity | vm_compute; reflexivity].
Qed.

(** ** Delivery orders (C3, C10) *)

(** C3: a DELIVERY order whose computed subtotal is below the configured
    minimum order fails with PRECONDITION_FAILED and leaves the store as it
    was: so does the handler of [create], which computes the subtotal, and
    so does the procedure on every request its input schema lets through
    to the handler. *)
Theorem delivery_below_minimum_rejected :
  forall input ctx s subtotal lines s0 config deliveryConfig,
    OrderRouter.orderType input = DELIVERY ->
    OrderRouter.processItems (OrderRouter.items input) 0%float [] s
    = (Ok (subtotal, lines), s0) ->
    List.find RestaurantConfig.isActive (restaurantConfigs s) = Some config ->
    RestaurantConfig.deliveryConfig config = Some deliveryConfig ->
    PrimFloat.ltb subtotal (DeliveryConfig.minimum_order deliveryConfig) = true ->
    OrderRouter.createHandler input ctx s = (Err PRECONDITION_FAILED, s)
    /\ (forall emailFormat,
           OrderRouter.createOrderSchema emailFormat input = true ->
           OrderRouter.create emailFormat input ctx s = (Err PRECONDITION_FAILED, s)).
Proof.
  intros input ctx s subtotal lines s0 config dc Htype Hitems Hconfig Hdc Hlt.
  assert (Hhandler : OrderRouter.createHandler input ctx s = (Err PRECONDITION_FAILED, s)).
  { rewrite create_unfold, Hitems, Htype.
    unfold OrderRouter.computeDeliveryFee, bind, restaurantConfig.findFirstActive, gets.
    rewrite Hconfig. simpl. rewrite Hdc.
    unfold Js.lt_amount. rewrite Hlt. reflexivity. }
  split; [exact Hhandler |].
  intros emailFormat Hschema. rewrite (create_accepted _ _ _ _ Hschema). exact Hhandler.
Qed.

Lemma delivery_below_minimum_rejected_witness :
  OrderRouter.create Sample.anyEmail Sample.smallDelivery Sample.anonymous Sample.store
  = (Err PRECONDITION_FAILED, Sample.store).
Proof.
  destruct (OrderRouter.processItems (OrderRouter.items Sample.smallDelivery)
              0%float [] Sample.store) as [[[subtotal lines] | c] s0] eqn:E;
    [| vm_compute in E; discriminate E].
  apply (delivery_below_minimum_rejected Sample.smallDelivery Sample.anonymous
           Sample.store subtotal lines s0 Sample.config Sample.delivery);
    try reflexivity; [exact E |].
  vm_compute in E. injection E as <- _ _. vm_compute. reflexivity.
Defined.

(** C10: a DELIVERY order placed when there is no active configuration, or
    when the active one has no delivery configuration, is created whatever
    its subtotal, with delivery fee 0: by the handler of [create], and so
    by the procedure on every request its input schema lets through. *)
Theorem delivery_without_config_created :
  forall input ctx s subtotal lines s0,
    OrderRouter.orderType input = DELIVERY ->
    OrderRouter.processItems (OrderRouter.items input) 0%float [] s
    = (Ok (subtotal, lines), s0) ->
    (List.find RestaurantConfig.isActive (restaurantConfigs s) = None
     \/ exists config,
          List.find RestaurantConfig.isActive (restaurantConfigs s) = Some config
          /\ RestaurantConfig.deliveryConfig config = None) ->
    OrderRouter.computeDeliveryFee (OrderRouter.orderType input) subtotal s
    = (Ok 0%float, s)
    /\ exists o s',
        OrderRouter.createHandler input ctx s = (Ok o, s')
        /\ (forall emailFormat,
               OrderRouter.createOrderSchema emailFormat input = true ->
               OrderRouter.create emailFormat input ctx s = (Ok o, s'))
        /\ orders s' = orders s ++ [o]
        /\ Order.deliveryFee o = 0%float
        /\ Order.subtotal o = subtotal.
Proof.
  intros input ctx s subtotal lines s0 Htype Hitems Hconfig.
  assert (Hfee : OrderRouter.computeDeliveryFee DELIVERY subtotal s = (Ok 0%float, s)).
  { unfold OrderRouter.computeDeliveryFee, bind, restaurantConfig.findFirstActive, gets.
    destruct Hconfig as [-> | (config & -> & Hdc)]; simpl; [| rewrite Hdc]; reflexivity. }
  rewrite Htype. split; [exact Hfee |].
  rewrite create_unfold, Hitems, Htype, Hfee.
  destruct (order_resolveCustomer_spec (OrderRouter.customerInfo input)
              (OrderRouter.deliveryAddress input) s)
    as (customer & s1 & Hres & _ & Horders & _).
  rewrite Hres.
  cbv zeta. eexists _, _. split; [reflexivity |].
  split; [intros emailFormat Hschema; rewrite (create_accepted _ _ _ _ Hschema),
            create_unfold, Hitems, Htype, Hfee, Hres; reflexivity |].
  simpl. rewrite Horders. repeat split.
Qed.

Lemma delivery_without_config_created_witness :
  (exists o s',
     OrderRouter.create Sample.anyEmail Sample.smallDelivery Sample.anonymous
       Sample.storeNoConfig = (Ok o, s')
     /\ Order.deliveryFee o = 0%float)
  /\ (exists o s',
     OrderRouter.create Sample.anyEmail Sample.smallDelivery Sample.anonymous
       Sample.storeNoDelivery = (Ok o, s')
     /\ Order.deliveryFee o = 0%float).
Proof.
  split.
  - destruct (OrderRouter.processItems (OrderRouter.items Sample.smallDelivery)
                0%float [] Sample.storeNoConfig) as [[[subtotal lines] | c] s0] eqn:E;
      [| vm_compute in E; discriminate E].
    destruct (delivery_without_config_created Sample.smallDelivery Sample.anonymous
                Sample.storeNoConfig subtotal lines s0 eq_refl E)
      as (_ & o & s' & _ & Hcreate & _ & Hfee & _).
    + left. reflexivity.
    + exists o, s'. split; [apply Hcreate; vm_compute; reflexivity | exact Hfee].
  - destruct (OrderRouter.processItems (OrderRouter.items Sample.smallDelivery)
                0%float [] Sample.storeNoDelivery) as [[[subtotal lines] | c] s0] eqn:E;
      [| vm_compute in E; discriminate E].
    destruct (delivery_without_config_created Sample.smallDelivery Sample.anonymous
                Sample.storeNoDelivery subtotal lines s0 eq_refl E)
      as (_ & o & s' & _ & Hcreate & _ & Hfee & _).
    + right. exists Sample.configNoDelivery. split; reflexivity.
    + exists o, s'. split; [apply Hcreate; vm_compute; reflexivity | exact Hfee].
Defined.

(** ** One customer per phone (C7) *)

Lemma order_update_customers id data s :
  customers (snd (order.update id data s)) = customers s.
Proof.
  pose proof (order_update_spec id data s) as Hspec.
  destruct (update_first _ _ (orders s)) as [[row rows'] |]; rewrite Hspec; reflexivity.
Qed.

Lemma updateStatus_customers now input ctx s :
  customers (snd (OrderRouter.updateStatus now input ctx s)) = customers s.
Proof.
  unfold OrderRouter.updateStatus, staffProcedure.
  destruct (requireRole_cases ["ADMIN"; "KITCHEN"; "WAITER"; "CASHIER"]
              (OrderRouter.updateStatusHandler now input) ctx s) as [-> | [c ->]];
    [| reflexivity].
  apply order_update_customers.
Qed.

Lemma confirmPayment_customers input ctx s :
  customers (snd (OrderRouter.confirmPayment input ctx s)) = customers s.
Proof.
  unfold OrderRouter.confirmPayment, staffProcedure.
  destruct (requireRole_cases ["ADMIN"; "KITCHEN"; "WAITER"; "CASHIER"]
              (OrderRouter.confirmPaymentChecked input) ctx s) as [-> | [c ->]];
    [| reflexivity].
  unfold OrderRouter.confirmPaymentChecked.
  destruct (OrderRouter.confirmPaymentSchema input); [| reflexivity].
  unfold OrderRouter.confirmPaymentHandler.
  destruct (tipUpdate_spec (OrderRouter.cp_id input) (OrderRouter.cp_tipAmount input) s)
    as (part & Htip & _).
  rewrite (bind_eq _ _ _ _ _ Htip). apply order_update_customers.
Qed.

(** The customer table after [create]: untouched when the call stops
    early, otherwise what the customer resolution left. *)
Lemma create_customers input ctx s :
  customers (snd (OrderRouter.createHandler input ctx s)) = customers s
  \/ exists c s1,
       OrderRouter.resolveCustomer (OrderRouter.customerInfo input)
         (OrderRouter.deliveryAddress input) s = (Ok c, s1)
       /\ customers (snd (OrderRouter.createHandler input ctx s)) = customers s1.
Proof.
  rewrite create_unfold.
  destruct (OrderRouter.processItems _ _ _ s) as [[[subtotal lines] | c] s0];
    [| left; reflexivity].
  destruct (OrderRouter.computeDeliveryFee _ _ s) as [[fee | c] s2];
    [| left; reflexivity].
  destruct (order_resolveCustomer_spec (OrderRouter.customerInfo input)
              (OrderRouter.deliveryAddress input) s) as (customer & s1 & Hres & _).
  right. exists customer, s1. rewrite Hres. split; reflexivity.
Qed.

Lemma unique_phones_append (rows : list Customer.t) c :
  NoDup (List.map Customer.phone rows) ->
  List.find (fun x => String.eqb (Customer.phone x) (Customer.phone c)) rows = None ->
  NoDup (List.map Customer.phone (rows ++ [c])).
Proof.
  intros Hnodup Hfind. rewrite List.map_app. simpl.
  apply NoDup_app. split; [exact Hnodup |]. split.
  - intros p Hin Hlast. apply list_elem_of_singleton in Hlast. subst p.
    exact (find_phone_None _ _ Hfind Hin).
  - apply NoDup_singleton.
Qed.

Lemma exec_unique_phones call s : unique_phones s -> unique_phones (Api.exec call s).
Proof.
  unfold unique_phones. intros Hok.
  destruct call as [input ctx | now input ctx | input ctx | host input ctx | input ctx]; simpl.
  - destruct (create_customers input ctx s) as [-> | (c & s1 & Hres & ->)];
      [exact Hok |].
    destruct (order_resolveCustomer_spec (OrderRouter.customerInfo input)
                (OrderRouter.deliveryAddress input) s)
      as (c' & s1' & Hres' & _ & _ & _ & Hcust).
    rewrite Hres in Hres'. injection Hres' as <- <-.
    destruct (List.find _ (customers s)) as [existing |] eqn:Hfind.
    + rewrite Hcust. exact Hok.
    + destruct Hcust as [-> Hphone]. apply unique_phones_append; [exact Hok |].
      rewrite Hphone. exact Hfind.
  - rewrite updateStatus_customers. exact Hok.
  - rewrite confirmPayment_customers. exact Hok.
  - destruct (reservation_create_frame host input ctx s)
      as [_ [-> | (c & Hfind & -> & Hphone)]]; [exact Hok |].
    apply unique_phones_append; [exact Hok |]. rewrite Hphone. exact Hfind.
  - destruct (cancel_frame input ctx s) as [_ ->]. exact Hok.
Qed.

(** No call adds more than one customer row. *)
Lemma exec_customers_length call s :
  (List.length (customers (Api.exec call s)) <= S (List.length (customers s)))%nat.
Proof.
  destruct call as [input ctx | now input ctx | input ctx | host input ctx | input ctx]; simpl.
  - destruct (create_customers input ctx s) as [-> | (c & s1 & Hres & ->)]; [lia |].
    destruct (order_resolveCustomer_spec (OrderRouter.customerInfo input)
                (OrderRouter.deliveryAddress input) s)
      as (c' & s1' & Hres' & _ & _ & _ & Hcust).
    rewrite Hres in Hres'. injection Hres' as <- <-.
    destruct (List.find _ (customers s)) as [existing |].
    + apply (f_equal (@List.length string)) in Hcust.
      rewrite !List.length_map in Hcust. lia.
    + destruct Hcust as [-> _]. rewrite List.length_app. simpl. lia.
  - rewrite updateStatus_customers. lia.
  - rewrite confirmPayment_customers. lia.
  - destruct (reservation_create_frame host input ctx s)
      as [_ [-> | (c & _ & -> & _)]]; [lia |].
    rewrite List.length_app. simpl. lia.
  - destruct (cancel_frame input ctx s) as [_ ->]. lia.
Qed.

Lemma execAll_unique_phones calls s :
  unique_phones s -> unique_phones (Api.execAll calls s).
Proof.
  revert s. induction calls as [| call calls IH]; intros s Hok; simpl.
  - exact Hok.
  - apply IH, exec_unique_phones, Hok.
Qed.

Lemma backfilled_refl rows : Forall2 backfilled rows rows.
Proof.
  induction rows as [| c rows IH]; constructor; [| exact IH].
  repeat split; intros; reflexivity.
Qed.

Lemma unique_id_row (rows : list Customer.t) a b :
  NoDup (List.map Customer.id rows) ->
  a ∈ rows -> b ∈ rows -> Customer.id a = Customer.id b -> a = b.
Proof.
  induction rows as [| x rows IH]; intros Hnodup Ha Hb Hid; [inversion Ha |].
  simpl in Hnodup. apply NoDup_cons in Hnodup as [Hx Hnodup].
  apply elem_of_cons in Ha as [-> | Ha]; apply elem_of_cons in Hb as [-> | Hb].
  - reflexivity.
  - destruct Hx. rewrite Hid. apply list_elem_of_fmap_2. exact Hb.
  - destruct Hx. rewrite <- Hid. apply list_elem_of_fmap_2. exact Ha.
  - apply IH; assumption.
Qed.

(** With customer ids a key, the update of [create] reaches the row found
    by phone and fills in only what that row lacks. *)
Lemma order_resolveCustomer_backfill info addr s existing :
  List.find (fun c => String.eqb (Customer.phone c) (OrderRouter.phone info))
    (customers s) = Some existing ->
  NoDup (List.map Customer.id (customers s)) ->
  Forall2 backfilled (customers s)
    (customers (snd (OrderRouter.resolveCustomer info addr s))).
Proof.
  intros Hfind Hnodup.
  unfold OrderRouter.resolveCustomer, bind, customer.findUniqueByPhone, gets.
  rewrite Hfind. cbv zeta.
  set (data := customer.mkUpdate _ _).
  assert (Hfill : backfilled existing (customer.applyUpdate data existing)).
  { unfold backfilled, customer.applyUpdate, data. simpl. repeat split.
    - intros Hname. rewrite Hname. reflexivity.
    - intros Hemail. rewrite Hemail. reflexivity. }
  assert (Hupdate : Forall2 backfilled (customers s)
                      (customers (snd (customer.update (Customer.id existing) data s)))).
  { unfold customer.update, bind, gets.
    pose proof (update_first_spec (fun c => String.eqb (Customer.id c) (Customer.id existing))
                  (customer.applyUpdate data) (customers s)) as Hspec.
    destruct (update_first _ _ (customers s)) as [[row rows'] |]; simpl;
      [| apply backfilled_refl].
    destruct Hspec as (pre & r & post & Hrows & Hid & _ & ->).
    assert (r = existing) as ->.
    { apply (unique_id_row (customers s)); [exact Hnodup | | |].
      - apply list_elem_of_In. exact (proj1 (find_some _ _ Hid)).
      - apply list_elem_of_In. exact (proj1 (find_some _ _ Hfind)).
      - apply String.eqb_eq. exact (proj2 (find_some _ _ Hid)). }
    rewrite Hrows. apply Forall2_app; [apply backfilled_refl |].
    constructor; [exact Hfill | apply backfilled_refl]. }
  destruct (customer.u_name data), (customer.u_email data); try exact Hupdate.
  simpl. apply backfilled_refl.
Qed.

Lemma reservation_create_Ok host input ctx s r s' :
  ReservationRouter.createHandler host input ctx s = (Ok r, s') ->
  exists customer s1,
    ReservationRouter.resolveCustomer (ReservationRouter.customerPhone input)
      (ReservationRouter.customerName input) s = (Ok customer, s1)
    /\ customers s' = customers s1
    /\ reservations s' = reservations s1 ++ [r]
    /\ Reservation.status r = ReservationStatus.PENDING.
Proof.
  rewrite reservation_create_unfold.
  destruct (List.find _ (restaurantConfigs s)) as [config |]; [| discriminate].
  destruct (negb _); [discriminate |].
  destruct (ReservationRouter.daySchedule _ _) as [schedule |]; [| discriminate].
  destruct (DaySchedule.is_closed schedule); [discriminate |].
  destruct (ReservationRouter.outsideHours _ _); [discriminate |].
  destruct (ReservationRouter.resolveCustomer _ _ s) as [[customer | c] s1];
    [| discriminate].
  rewrite reservation_create_row. simpl.
  destruct (ReservationRouter.reservationDate input); [| discriminate].
  cbv zeta. intros E. injection E as <- <-.
  exists customer, s1. repeat split.
Qed.

(** C7: along any sequence of calls the customer table keeps at most one
    row per phone.  An order or reservation for a phone already on file adds
    no row (the order at most fills in a missing name or email of the
    existing rows, keeping every value that was there); one for a new phone
    that goes through adds exactly one row, with that phone; and no call,
    whatever its outcome, adds more than one row.  The two [create] calls
    are taken at their handlers, for any request and any server clock: a
    request the input schema turns away runs no handler and writes
    nothing. *)
Theorem one_customer_per_phone :
  (forall calls s, unique_phones s -> unique_phones (Api.execAll calls s))
  /\ (forall input ctx s existing,
      List.find (fun c => String.eqb (Customer.phone c)
                            (OrderRouter.phone (OrderRouter.customerInfo input)))
        (customers s) = Some existing ->
      let s' := snd (OrderRouter.createHandler input ctx s) in
      List.map Customer.phone (customers s') = List.map Customer.phone (customers s)
      /\ (NoDup (List.map Customer.id (customers s)) ->
          Forall2 backfilled (customers s) (customers s')))
  /\ (forall host input ctx s existing,
      List.find (fun c => String.eqb (Customer.phone c)
                            (ReservationRouter.customerPhone input))
        (customers s) = Some existing ->
      customers (snd (ReservationRouter.createHandler host input ctx s)) = customers s)
  /\ (forall input ctx s o s',
      List.find (fun c => String.eqb (Customer.phone c)
                            (OrderRouter.phone (OrderRouter.customerInfo input)))
        (customers s) = None ->
      OrderRouter.createHandler input ctx s = (Ok o, s') ->
      exists c, customers s' = customers s ++ [c]
                /\ Customer.phone c = OrderRouter.phone (OrderRouter.customerInfo input))
  /\ (forall host input ctx s r s',
      List.find (fun c => String.eqb (Customer.phone c)
                            (ReservationRouter.customerPhone input))
        (customers s) = None ->
      ReservationRouter.createHandler host input ctx s = (Ok r, s') ->
      exists c, customers s' = customers s ++ [c]
                /\ Customer.phone c = ReservationRouter.customerPhone input)
  /\ (forall call s,
      List.length (customers (Api.exec call s)) <= S (List.length (customers s)))%nat.
Proof.
  split; [exact execAll_unique_phones |]. split; [| split; [| split; [| split]]];
    [| | | | exact exec_customers_length].
  - intros input ctx s existing Hfind. cbv zeta.
    destruct (create_customers input ctx s) as [Hsame | (c & s1 & Hres & Hcust)].
    + rewrite Hsame. split; [reflexivity | intros _; apply backfilled_refl].
    + rewrite Hcust. split.
      * destruct (order_resolveCustomer_spec (OrderRouter.customerInfo input)
                    (OrderRouter.deliveryAddress input) s)
          as (c' & s1' & Hres' & _ & _ & _ & Hphones).
        rewrite Hres in Hres'. injection Hres' as <- <-.
        rewrite Hfind in Hphones. exact Hphones.
      * intros Hnodup.
        pose proof (order_resolveCustomer_backfill _ (OrderRouter.deliveryAddress input)
                      _ _ Hfind Hnodup) as Hfill.
        rewrite Hres in Hfill. exact Hfill.
  - intros host input ctx s existing Hfind.
    destruct (reservation_create_frame host input ctx s)
      as [_ [Hsame | (c & Hnone & _)]]; [exact Hsame |].
    rewrite Hfind in Hnone. discriminate Hnone.
  - intros input ctx s o s' Hfind Hcreate.
    apply create_Ok in Hcreate
      as (subtotal & lines & fee & customer & s1 & id & number
          & _ & _ & Hres & _ & _ & Hcust & _).
    destruct (order_resolveCustomer_spec (OrderRouter.customerInfo input)
                (OrderRouter.deliveryAddress input) s)
      as (c' & s1' & Hres' & _ & _ & _ & Hnew).
    rewrite Hres in Hres'. injection Hres' as <- <-.
    rewrite Hfind in Hnew. exists customer. rewrite Hcust. exact Hnew.
  - intros host input ctx s r s' Hfind Hcreate.
    apply reservation_create_Ok in Hcreate as (customer & s1 & Hres & Hcust & _).
    destruct (reservation_resolveCustomer_spec (ReservationRouter.customerPhone input)
                (ReservationRouter.customerName input) s)
      as (c' & s1' & Hres' & _ & _ & _ & Hnew).
    rewrite Hres in Hres'. injection Hres' as <- <-.
    rewrite Hfind in Hnew. exists customer. rewrite Hcust. exact Hnew.
Qed.

Lemma one_customer_per_phone_witness :
  unique_phones (Api.execAll Sample.evening Sample.store)
  /\ (let s' := snd (OrderRouter.createHandler Sample.anaWithEmail Sample.anonymous
                       Sample.storeWithAna) in
      List.map Customer.phone (customers s')
      = List.map Customer.phone (customers Sample.storeWithAna)
      /\ Forall2 backfilled (customers Sample.storeWithAna) (customers s'))
  /\ (exists c,
        customers (snd (OrderRouter.createHandler Sample.takeout Sample.anonymous Sample.store))
        = customers Sample.store ++ [c]
        /\ Customer.phone c = "5551234567").
Proof.
  destruct one_customer_per_phone as (Hall & Hexisting & _ & Hnew & _ & _).
  split; [| split].
  - apply Hall. unfold unique_phones. simpl. constructor.
  - destruct (Hexisting Sample.anaWithEmail Sample.anonymous Sample.storeWithAna
                (Customer.mk "c0" "5551234567" "Ana" None []) eq_refl)
      as [Hphones Hfill].
    split; [exact Hphones |]. apply Hfill.
    simpl. apply NoDup_singleton.
  - destruct (OrderRouter.createHandler Sample.takeout Sample.anonymous Sample.store)
      as [[o | c] s'] eqn:E; [| vm_compute in E; discriminate E].
    simpl. apply (Hnew Sample.takeout Sample.anonymous Sample.store o s'); [| exact E].
    reflexivity.
Defined.

(** The sample evening (two orders and a reservation, all for the same
    phone) leaves one customer; an order from a returning customer keeps her
    name and fills in her email. *)
Example evening_customers :
  List.map Customer.phone (customers (Api.execAll Sample.evening Sample.store))
  = ["5551234567"]
  /\ List.map (fun c => (Customer.name c, Customer.email c))
       (customers (snd (OrderRouter.createHandler Sample.anaWithEmail Sample.anonymous
                          Sample.storeWithAna)))
     = [("Ana", Some "ana@ordo.test")].
Proof. vm_compute. split; reflexivity. Qed.

(** ** Reservations: closed days (C9) *)

(** The procedure is its handler on a request the schema accepts, and
    BAD_REQUEST, with nothing run, on any other. *)
Lemma reservation_accepted host input ctx s :
  ReservationRouter.createReservationSchema host input = true ->
  ReservationRouter.create host input ctx s
  = ReservationRouter.createHandler host input ctx s.
Proof. intros Hschema. unfold ReservationRouter.create. rewrite Hschema. reflexivity. Qed.





(** The weekday is read with [getDay()], in the server's time zone, from a
    date parsed as midnight UTC.  On a server west of Greenwich that moment
    is still the evening before: the same booking for the closed Tuesday is
    looked up under Monday's hours there and goes through. *)
Example closed_tuesday_booked_west_of_utc :
  Js.getDay Sample.host Sample.tuesday = Some 2%Z
  /\ Js.getDay Sample.hostMexico Sample.tuesday = Some 1%Z
  /\ ReservationRouter.daySchedule Sample.hostMexico Sample.config Sample.tuesday
     = Some Sample.weekday
  /\ match ReservationRouter.create Sample.hostMexico
             (Sample.reservationAt Sample.tuesday "12:00")
             Sample.anonymous Sample.store with
     | (Ok r, _) => Some (Reservation.reservationTime r, Reservation.status r)
     | _ => None
     end = Some ("12:00:00", ReservationStatus.PENDING).
Proof. vm_compute. repeat split; reflexivity. Qed.

(** ** Reservations: the opening-hours window (C8) *)

Lemma digit_of_not_colon c d : Js.digit_of c = Some d -> Ascii.eqb c ":" = false.
Proof.
  destruct c as [[] [] [] [] [] [] [] []]; vm_compute; intros E;
    first [reflexivity | discriminate E].
Qed.

(** [HH:MM] read as minutes since midnight. *)
Lemma minutesOf_HH_MM h1 h2 m1 m2 a b c d :
  Js.digit_of h1 = Some a -> Js.digit_of h2 = Some b ->
  Js.digit_of m1 = Some c -> Js.digit_of m2 = Some d ->
  ReservationRouter.minutesOf
    (String h1 (String h2 (String ":" (String m1 (String m2 EmptyString)))))
  = Some ((a * 10 + b) * 60 + (c * 10 + d))%Z.
Proof.
  intros Ha Hb Hc Hd.
  unfold ReservationRouter.minutesOf, Js.split. cbn [Js.split_go].
  rewrite (digit_of_not_colon _ _ Ha), (digit_of_not_colon _ _ Hb),
    (digit_of_not_colon _ _ Hc), (digit_of_not_colon _ _ Hd).
  cbn. unfold Js.Number_. simpl.
  rewrite Ha, Hb, Hc, Hd. simpl. apply f_equal. lia.
Qed.

Lemma outsideHours_spec time schedule r o c :
  ReservationRouter.minutesOf time = Some r ->
  ReservationRouter.minutesOf (DaySchedule.open schedule) = Some o ->
  ReservationRouter.minutesOf (DaySchedule.close schedule) = Some c ->
  ReservationRouter.outsideHours time schedule = true <-> (r < o \/ r > c - 120)%Z.
Proof.
  intros Hr Ho Hc. unfold ReservationRouter.outsideHours.
  rewrite Hr, Ho, Hc. simpl. rewrite orb_true_iff, !Z.ltb_lt. lia.
Qed.

(** A closing time that reads as a number of minutes has its [':'], so the
    message of the check can be built and the error is the BAD_REQUEST. *)
Lemma outsideHoursError_parsed schedule c :
  ReservationRouter.minutesOf (DaySchedule.close schedule) = Some c ->
  ReservationRouter.outsideHoursError schedule = BAD_REQUEST.
Proof.
  unfold ReservationRouter.minutesOf, ReservationRouter.outsideHoursError,
    Js.destructure2.
  destruct (Js.split ":" (DaySchedule.close schedule)) as [| h [| m parts]]; simpl.
  - discriminate.
  - destruct (Js.Number_ h); discriminate.
  - reflexivity.
Qed.

(** Past the opening-hours check nothing answers BAD_REQUEST. *)
Lemma reservation_tail_not_bad_request data p n s :
  fst (match ReservationRouter.resolveCustomer p n s with
       | (Ok customer, s1) => reservation.create (data customer) s1
       | (Err c, s1) => (Err c, s1)
       end) <> Err BAD_REQUEST.
Proof.
  destruct (reservation_resolveCustomer_spec p n s) as (customer & s1 & -> & _).
  rewrite reservation_create_row.
  destruct (reservation.reservationDate (data customer)); simpl; discriminate.
Qed.

(** C8: the check compares minutes since midnight and its condition holds
    exactly when the requested time is before the opening time or after the
    closing time minus 120 minutes.  A request the input schema accepts and
    that reaches the check (the restaurant takes reservations and is open
    on the day the date has in the server's time zone), against opening
    and closing times that read as numbers, is answered BAD_REQUEST exactly
    when the condition holds, and then nothing is written.  With hours 09:00
    to 22:00 the check rejects 20:30 and accepts 19:30. *)
Theorem reservation_window :
  (forall time schedule r o c,
      ReservationRouter.timeFormat time = true ->
      ReservationRouter.minutesOf time = Some r ->
      ReservationRouter.minutesOf (DaySchedule.open schedule) = Some o ->
      ReservationRouter.minutesOf (DaySchedule.close schedule) = Some c ->
      ReservationRouter.outsideHours time schedule = true
      <-> (r < o \/ r > c - 120)%Z)
  /\ (forall host input ctx s config schedule r o c,
      ReservationRouter.createReservationSchema host input = true ->
      List.find RestaurantConfig.isActive (restaurantConfigs s) = Some config ->
      Services.reservations (RestaurantConfig.services config) = true ->
      ReservationRouter.daySchedule host config (ReservationRouter.reservationDate input)
      = Some schedule ->
      DaySchedule.is_closed schedule = false ->
      ReservationRouter.minutesOf (ReservationRouter.reservationTime input) = Some r ->
      ReservationRouter.minutesOf (DaySchedule.open schedule) = Some o ->
      ReservationRouter.minutesOf (DaySchedule.close schedule) = Some c ->
      (fst (ReservationRouter.create host input ctx s) = Err BAD_REQUEST
       <-> (r < o \/ r > c - 120)%Z)
      /\ ((r < o \/ r > c - 120)%Z
          -> ReservationRouter.create host input ctx s = (Err BAD_REQUEST, s)))
  /\ ReservationRouter.minutesOf "09:00" = Some 540%Z
  /\ ReservationRouter.minutesOf "22:00" = Some 1320%Z
  /\ ReservationRouter.minutesOf "20:30" = Some 1230%Z
  /\ ReservationRouter.minutesOf "19:30" = Some 1170%Z
  /\ ReservationRouter.outsideHours "20:30" (DaySchedule.mk "09:00" "22:00" false) = true
  /\ ReservationRouter.outsideHours "19:30" (DaySchedule.mk "09:00" "22:00" false) = false.
Proof.
  split; [intros time schedule r o c _; apply outsideHours_spec |].
  split; [| repeat split; reflexivity].
  intros host input ctx s config schedule r o c Hschema Hconfig Hserv Hday Hopen Hr Ho Hc.
  rewrite (reservation_accepted _ _ _ _ Hschema).
  rewrite <- (outsideHours_spec _ schedule r o c Hr Ho Hc).
  rewrite reservation_create_unfold, Hconfig, Hserv, Hday, Hopen. simpl.
  rewrite (outsideHoursError_parsed _ _ Hc).
  destruct (ReservationRouter.outsideHours _ schedule) eqn:Hout.
  - split; [| reflexivity]. split; reflexivity.
  - split; [| discriminate]. split; [| discriminate].
    intros Hbad. exfalso. revert Hbad. apply reservation_tail_not_bad_request.
Qed.

Lemma reservation_window_witness :
  ReservationRouter.create Sample.host (Sample.reservationAt Sample.monday "20:30")
    Sample.anonymous Sample.store = (Err BAD_REQUEST, Sample.store)
  /\ fst (ReservationRouter.create Sample.host (Sample.reservationAt Sample.monday "19:30")
            Sample.anonymous Sample.store) <> Err BAD_REQUEST
  /\ (ReservationRouter.outsideHours "20:30" Sample.weekday = true
      <-> (1230 < 540 \/ 1230 > 1320 - 120)%Z).
Proof.
  destruct reservation_window as (Hcheck & Hcreate & _).
  assert (Hreach : forall time r,
             ReservationRouter.timeFormat time = true ->
             ReservationRouter.minutesOf time = Some r ->
             (fst (ReservationRouter.create Sample.host
                     (Sample.reservationAt Sample.monday time)
                     Sample.anonymous Sample.store) = Err BAD_REQUEST
              <-> (r < 540 \/ r > 1320 - 120)%Z)
             /\ ((r < 540 \/ r > 1320 - 120)%Z
                 -> ReservationRouter.create Sample.host
                      (Sample.reservationAt Sample.monday time)
                      Sample.anonymous Sample.store
                    = (Err BAD_REQUEST, Sample.store))).
  { intros time r Hformat Hr.
    apply (Hcreate Sample.host (Sample.reservationAt Sample.monday time)
             Sample.anonymous Sample.store Sample.config Sample.weekday r 540 1320)%Z;
      [| vm_compute; reflexivity .. | exact Hr | vm_compute; reflexivity
       | vm_compute; reflexivity].
    unfold ReservationRouter.createReservationSchema. simpl.
    rewrite Hformat. vm_compute. reflexivity. }
  split; [| split].
  - apply (Hreach "20:30" 1230%Z); [vm_compute; reflexivity .. | lia].
  - intros Hbad.
    apply (Hreach "19:30" 1170%Z) in Hbad; [lia | vm_compute; reflexivity ..].
  - apply (Hcheck "20:30" Sample.weekday 1230 540 1320)%Z; vm_compute; reflexivity.
Defined.

(** The message of the rejection is built from the minutes of the closing
    time.  When the stored closing time has no [':'] there are none: a
    request before opening time then ends as an internal error, not as
    BAD_REQUEST. *)
Example closing_time_without_minutes :
  ReservationRouter.createReservationSchema Sample.host
    (Sample.reservationAt Sample.monday "08:30") = true
  /\ ReservationRouter.daySchedule Sample.host Sample.configClosesAtTen Sample.monday
     = Some Sample.closesAtTen
  /\ ReservationRouter.outsideHours "08:30" Sample.closesAtTen = true
  /\ ReservationRouter.create Sample.host (Sample.reservationAt Sample.monday "08:30")
       Sample.anonymous Sample.storeClosesAtTen
     = (Err INTERNAL_SERVER_ERROR, Sample.storeClosesAtTen).
Proof. vm_compute. repeat split; reflexivity. Qed.

(** On the seeded Monday a table at 19:30 is booked, at 20:00 too (the last
    slot), at 20:30 and at 08:30 not. *)
Example monday_requests :
  List.map (fun time =>
              fst (ReservationRouter.createHandler Sample.host (Sample.reservationAt Sample.monday time)
                     Sample.anonymous Sample.store))
    ["08:30"; "20:30"]
  = [Err BAD_REQUEST; Err BAD_REQUEST]
  /\ List.map (fun time =>
       match ReservationRouter.createHandler Sample.host (Sample.reservationAt Sample.monday time)
               Sample.anonymous Sample.store with
       | (Ok r, _) => Some (Reservation.reservationTime r, Reservation.status r)
       | _ => None
       end) ["09:00"; "19:30"; "20:00"]
     = [Some ("09:00:00", ReservationStatus.PENDING);
        Some ("19:30:00", ReservationStatus.PENDING);
        Some ("20:00:00", ReservationStatus.PENDING)].
Proof. vm_compute. split; reflexivity. Qed.

(** ** Available times (C4) *)

(** The slot loop stops on its own condition: fuel beyond [slotsFuel]
    changes nothing. *)
Lemma slotsLoop_fuel n :
  forall fuel cur close slots,
    ReservationRouter.slotsFuel cur close = n -> (n <= fuel)%nat ->
    ReservationRouter.slotsLoop fuel cur close slots
    = ReservationRouter.slotsLoop n cur close slots.
Proof.
  unfold ReservationRouter.slotsFuel.
  induction n as [| n IH]; intros fuel cur close slots Hn Hfuel.
  - assert (Hpast : (cur <=? close)%Z = false).
    { apply Z.leb_gt. destruct (Z.lt_ge_cases close cur) as [Hlt | Hge]; [exact Hlt |].
      assert (0 <= (close - cur) / 30)%Z by (apply Z.div_pos; lia). lia. }
    destruct fuel as [| fuel]; simpl; [reflexivity |]. rewrite Hpast. reflexivity.
  - destruct fuel as [| fuel]; [lia |]. simpl.
    destruct (cur <=? close)%Z eqn:Hle; [| reflexivity].
    apply IH; [| lia].
    replace (close - (cur + 30))%Z with ((close - cur) + (-1) * 30)%Z by lia.
    rewrite Z.div_add by lia. lia.
Qed.

(** The count the [reduce] leaves under a key is the number of rows with
    that key. *)
Lemma reservationCounts_fold (rows : list Reservation.t) (acc : gmap string nat) key :
  default 0%nat
    (fold_left
       (fun (acc : gmap string nat) res =>
          let timeKey := Js.slice05 (Reservation.reservationTime res) in
          <[timeKey := (default 0 (acc !! timeKey) + 1)%nat]> acc)
       rows acc !! key)
  = (default 0%nat (acc !! key)
     + List.length
         (List.filter
            (fun r => String.eqb (Js.slice05 (Reservation.reservationTime r)) key)
            rows))%nat.
Proof.
  revert acc. induction rows as [| r rows IH]; intros acc; simpl; [lia |].
  rewrite IH. cbv zeta.
  destruct (String.eqb_spec (Js.slice05 (Reservation.reservationTime r)) key) as [-> | Hne].
  - rewrite lookup_insert_eq. simpl. lia.
  - rewrite lookup_insert_ne by exact Hne. reflexivity.
Qed.

Lemma reservationCounts_spec rows key :
  default 0%nat (ReservationRouter.reservationCounts rows !! key)
  = List.length
      (List.filter
         (fun r => String.eqb (Js.slice05 (Reservation.reservationTime r)) key) rows).
Proof.
  unfold ReservationRouter.reservationCounts.
  rewrite reservationCounts_fold, lookup_empty. reflexivity.
Qed.

Lemma filter_filter_length {A} (p q : A -> bool) (l : list A) :
  List.length (List.filter q (List.filter p l))
  = List.length (List.filter (fun x => p x && q x) l).
Proof.
  induction l as [| x l IH]; simpl; [reflexivity |].
  destruct (p x); simpl; [destruct (q x); simpl; rewrite IH; reflexivity | exact IH].
Qed.

(** What [getAvailableTimes] answers: nothing without an open schedule for
    the day, otherwise the generated slots with fewer than three active
    reservations under their key; it only reads the store. *)
Lemma getAvailableTimes_spec host date partySize ctx s r s' :
  ReservationRouter.getAvailableTimesHandler host date partySize ctx s = (Ok r, s') ->
  s' = s
  /\ (ReservationRouter.availableTimes r = []
      \/ exists d config schedule,
           date = Some d
           /\ List.find RestaurantConfig.isActive (restaurantConfigs s) = Some config
           /\ ReservationRouter.daySchedule host config date = Some schedule
           /\ ReservationRouter.availableTimes r
              = List.filter
                  (fun time =>
                     (countAt ReservationRouter.activeStatuses s d time <? 3)%nat)
                  (ReservationRouter.generateSlots schedule)).
Proof.
  unfold ReservationRouter.getAvailableTimesHandler, bind at 1.
  unfold restaurantConfig.findFirstActive, gets.
  assert (Hnothing : forall message (P : Prop),
             ret (ReservationRouter.mkAvailableTimes [] message) s = (Ok r, s') ->
             s' = s /\ (ReservationRouter.availableTimes r = [] \/ P)).
  { intros message P E. injection E as <- <-. split; [| left]; reflexivity. }
  destruct (List.find _ (restaurantConfigs s)) as [config |] eqn:Hconfig;
    [| apply Hnothing].
  destruct (negb _); [apply Hnothing |].
  destruct (ReservationRouter.daySchedule host config date) as [schedule |] eqn:Hday;
    [| apply Hnothing].
  destruct (DaySchedule.is_closed schedule); [apply Hnothing |].
  clear Hnothing.
  destruct date as [d |]; unfold bind, reservation.findManyOn, gets, clientError, throw, ret;
    [| discriminate].
  intros E. injection E as <- <-. split; [reflexivity |].
  right. exists d, config, schedule. repeat split; [exact Hday |]. simpl.
  apply filter_ext. intros time.
  rewrite reservationCounts_spec, filter_filter_length. reflexivity.
Qed.

(** C4 as stated does not hold: reservations that are COMPLETED or NO_SHOW
    are not cancelled, yet they are left out of the count, so a slot with
    three of them is still offered.  This is so for times stored the way
    [create] writes them ([HH:MM:00], keyed by their first five characters)
    and for times stored as the bare slot string. *)
Lemma completed_reservations_not_counted :
  (exists r,
     ReservationRouter.getAvailableTimesHandler Sample.host Sample.monday 2 Sample.anonymous
       Sample.storeCompleted = (Ok r, Sample.storeCompleted)
     /\ "10:00" ∈ ReservationRouter.availableTimes r
     /\ countAt nonCancelled Sample.storeCompleted Sample.mondayValue "10:00" = 3%nat
     /\ ~ (countAt nonCancelled Sample.storeCompleted Sample.mondayValue "10:00" < 3)%nat)
  /\ (exists r,
     ReservationRouter.getAvailableTimesHandler Sample.host Sample.monday 2 Sample.anonymous
       Sample.storeCompletedBare = (Ok r, Sample.storeCompletedBare)
     /\ "10:00" ∈ ReservationRouter.availableTimes r
     /\ countExact nonCancelled Sample.storeCompletedBare Sample.mondayValue "10:00" = 3%nat
     /\ ~ (countExact nonCancelled Sample.storeCompletedBare Sample.mondayValue "10:00" < 3)%nat).
Proof.
  split; eexists; (split; [vm_compute; reflexivity |]);
    (split; [| split; [reflexivity | vm_compute; lia]]);
    simpl; apply list_elem_of_In; vm_compute; tauto.
Qed.

(** C4, amended: no slot [getAvailableTimes] returns has three or more
    reservations on that date with status PENDING, CONFIRMED or SEATED whose
    time starts with the slot's [HH:MM].  This holds of the handler for any
    date, party size and server time zone, hence of every answer of the
    procedure. *)
Theorem available_slots_below_capacity :
  forall host date partySize ctx s r s' time,
    ReservationRouter.getAvailableTimesHandler host date partySize ctx s = (Ok r, s') ->
    time ∈ ReservationRouter.availableTimes r ->
    exists d, date = Some d
              /\ (countAt ReservationRouter.activeStatuses s d time < 3)%nat.
Proof.
  intros host date partySize ctx s r s' time Hcall Hin.
  apply getAvailableTimes_spec in Hcall
    as [_ [Hnone | (d & config & schedule & -> & _ & _ & Hslots)]].
  - rewrite Hnone in Hin. inversion Hin.
  - exists d. split; [reflexivity |].
    rewrite Hslots in Hin. apply list_elem_of_In, filter_In in Hin as [_ Hlt].
    apply Nat.ltb_lt. exact Hlt.
Qed.

Lemma available_slots_below_capacity_witness :
  exists r,
    ReservationRouter.getAvailableTimesHandler Sample.host Sample.monday 2 Sample.anonymous
      Sample.storeBooked = (Ok r, Sample.storeBooked)
    /\ "10:00" ∈ ReservationRouter.availableTimes r
    /\ (countAt ReservationRouter.activeStatuses Sample.storeBooked Sample.mondayValue "10:00" < 3)%nat.
Proof.
  destruct (ReservationRouter.getAvailableTimesHandler Sample.host Sample.monday 2 Sample.anonymous
              Sample.storeBooked) as [[r | c] s'] eqn:E;
    [| vm_compute in E; discriminate E].
  assert (Hin : "10:00" ∈ ReservationRouter.availableTimes r).
  { vm_compute in E. injection E as <- _. apply list_elem_of_In. vm_compute. tauto. }
  destruct (available_slots_below_capacity _ _ _ _ _ _ _ _ E Hin) as (d & Hd & Hlt).
  injection Hd as <-.
  exists r. split; [| split; assumption].
  vm_compute in E. injection E as <- <-. vm_compute. reflexivity.
Defined.

Lemma generateSlots_enough_fuel schedule cur close extra :
  ReservationRouter.minutesOf (DaySchedule.open schedule) = Some cur ->
  Js.sub (ReservationRouter.minutesOf (DaySchedule.close schedule)) (Some 120%Z)
  = Some close ->
  ReservationRouter.slotsLoop (ReservationRouter.slotsFuel cur close + extra) cur close []
  = ReservationRouter.generateSlots schedule.
Proof.
  intros Hopen Hclose. unfold ReservationRouter.generateSlots.
  rewrite Hopen, Hclose. apply (slotsLoop_fuel _ _ _ _ _ eq_refl). lia.
Qed.

(** The seeded weekday offers 23 half-hour slots, 09:00 to 20:00. *)
Example weekday_slots :
  ReservationRouter.generateSlots Sample.weekday
  = ["09:00"; "09:30"; "10:00"; "10:30"; "11:00"; "11:30"; "12:00"; "12:30";
     "13:00"; "13:30"; "14:00"; "14:30"; "15:00"; "15:30"; "16:00"; "16:30";
     "17:00"; "17:30"; "18:00"; "18:30"; "19:00"; "19:30"; "20:00"].
Proof. vm_compute. reflexivity. Qed.

(** ** Cancelling a reservation (C5) *)

Lemma cancel_after_guard input ctx s found :
  ReservationRouter.cancelGuard input ctx s = (Ok tt, s) ->
  List.find (fun r => String.eqb (Reservation.id r) (ReservationRouter.id input))
    (reservations s) = Some found ->
  exists rows',
    ReservationRouter.cancel input ctx s
    = (Ok (reservation.setStatus ReservationStatus.CANCELLED found),
       with_reservations rows' s).
Proof.
  intros Hguard Hfind. unfold ReservationRouter.cancel.
  rewrite (bind_eq _ _ _ _ _ Hguard).
  destruct (update_first_found _ (reservation.setStatus ReservationStatus.CANCELLED)
              _ _ Hfind) as [rows' Hupd].
  pose proof (reservation_updateStatus_spec (ReservationRouter.id input)
                ReservationStatus.CANCELLED s) as Hspec.
  rewrite Hupd in Hspec. exists rows'. exact Hspec.
Qed.

(** A caller without a session who names a phone other than the one on the
    reservation is refused, and nothing changes. *)
Lemma cancel_phone_mismatch input ctx s found p :
  user ctx = None ->
  ReservationRouter.phone input = Some p -> p <> "" ->
  List.find (fun r => String.eqb (Reservation.id r) (ReservationRouter.id input))
    (reservations s) = Some found ->
  Reservation.customerPhone found <> p ->
  ReservationRouter.cancel input ctx s = (Err FORBIDDEN, s).
Proof.
  intros Huser Hphone Hp Hfind Hne.
  unfold ReservationRouter.cancel. apply bind_throws.
  unfold ReservationRouter.cancelGuard. rewrite Huser, Hphone. simpl.
  unfold Js.truthy_string. rewrite (proj2 (String.eqb_neq p "") Hp). simpl.
  unfold bind, reservation.findUnique, gets. rewrite Hfind.
  rewrite bool_decide_eq_false_2; [reflexivity |].
  intros E. injection E as E. contradiction.
Qed.

(** With the matching phone the anonymous caller cancels. *)
Lemma cancel_phone_match input ctx s found :
  user ctx = None ->
  ReservationRouter.phone input = Some (Reservation.customerPhone found) ->
  List.find (fun r => String.eqb (Reservation.id r) (ReservationRouter.id input))
    (reservations s) = Some found ->
  exists rows',
    ReservationRouter.cancel input ctx s
    = (Ok (reservation.setStatus ReservationStatus.CANCELLED found),
       with_reservations rows' s).
Proof.
  intros Huser Hphone Hfind. apply cancel_after_guard; [| exact Hfind].
  unfold ReservationRouter.cancelGuard. rewrite Huser, Hphone. simpl.
  destruct (Js.truthy_string _); [| reflexivity].
  unfold bind, reservation.findUnique, gets. rewrite Hfind.
  rewrite bool_decide_eq_true_2; reflexivity.
Qed.

(** Any signed-in staff member cancels, whatever phone is sent along. *)
Lemma cancel_by_staff input ctx s found u :
  user ctx = Some u ->
  List.find (fun r => String.eqb (Reservation.id r) (ReservationRouter.id input))
    (reservations s) = Some found ->
  exists rows',
    ReservationRouter.cancel input ctx s
    = (Ok (reservation.setStatus ReservationStatus.CANCELLED found),
       with_reservations rows' s).
Proof.
  intros Huser Hfind. apply cancel_after_guard; [| exact Hfind].
  unfold ReservationRouter.cancelGuard. rewrite Huser. reflexivity.
Qed.

(** The guard is skipped altogether when the anonymous caller sends no
    phone, or an empty one. *)
Lemma cancel_anonymous_without_phone input ctx s found :
  user ctx = None ->
  Js.truthy_opt_string (ReservationRouter.phone input) = false ->
  List.find (fun r => String.eqb (Reservation.id r) (ReservationRouter.id input))
    (reservations s) = Some found ->
  exists rows',
    ReservationRouter.cancel input ctx s
    = (Ok (reservation.setStatus ReservationStatus.CANCELLED found),
       with_reservations rows' s).
Proof.
  intros Huser Hphone Hfind. apply cancel_after_guard; [| exact Hfind].
  unfold ReservationRouter.cancelGuard. rewrite Huser, Hphone. reflexivity.
Qed.

(** C5, where the code departs from it: an anonymous caller who sends only
    the reservation id, and no phone at all, cancels Ana's confirmed
    reservation. *)
Theorem cancel_without_phone_goes_through :
  exists row s',
    ReservationRouter.cancel (ReservationRouter.mkCancelInput "r1" None)
      Sample.anonymous Sample.storeBooked = (Ok row, s')
    /\ Reservation.customerPhone row = "5551234567"
    /\ List.map Reservation.status (reservations Sample.storeBooked)
       = [ReservationStatus.CONFIRMED]
    /\ List.map Reservation.status (reservations s') = [ReservationStatus.CANCELLED].
Proof. eexists _, _. split; [vm_compute; reflexivity |]. repeat split. Qed.

(** The same caller with a wrong phone is refused. *)
Example cancel_wrong_phone :
  ReservationRouter.cancel (ReservationRouter.mkCancelInput "r1" (Some "5550000000"))
    Sample.anonymous Sample.storeBooked
  = (Err FORBIDDEN, Sample.storeBooked).
Proof. vm_compute. reflexivity. Qed.

(** * Further properties of the routers *)

Import Behaviour.

(** ** Orders: which requests are accepted *)

(** A number that is at most another is not [NaN]. *)
Lemma leb_not_nan x y : PrimFloat.leb x y = true -> PrimFloat.is_nan x = false.
Proof.
  intros Hle. unfold PrimFloat.is_nan.
  rewrite FloatAxioms.leb_spec in Hle. rewrite FloatAxioms.eqb_spec.
  destruct (FloatOps.Prim2SF x) as [sign | sign | | sign m e];
    try destruct sign; try discriminate Hle; try reflexivity;
    unfold SpecFloat.SFeqb, SpecFloat.SFcompare; simpl;
    rewrite Z.compare_refl, ?Pos.compare_cont_refl; reflexivity.
Qed.

(** The condition of the free-delivery rule, [free_over && subtotal >=
    free_over]: a threshold other than 0 that the subtotal reaches. *)
Lemma free_over_reached threshold subtotal :
  Js.truthy_amount threshold && Js.ge_amount subtotal threshold = true
  <-> PrimFloat.eqb threshold 0 = false /\ PrimFloat.leb threshold subtotal = true.
Proof.
  unfold Js.truthy_amount, Js.ge_amount.
  rewrite andb_true_iff, negb_true_iff, orb_false_iff. split.
  - intros [[Hnz _] Hle]. split; assumption.
  - intros [Hnz Hle]. split; [split |]; [exact Hnz | | exact Hle].
    apply (leb_not_nan _ _ Hle).
Qed.

(** X1: the delivery fee of an order that meets the minimum: nothing when a
    free-delivery threshold other than 0 is configured and reached, the
    configured fee otherwise (no threshold, a threshold of 0, or a subtotal
    below it).  The configured fee is read as [fee || 0]; the comparisons
    are those of JS numbers. *)
Theorem delivery_fee_rule :
  forall subtotal s config deliveryConfig,
    List.find RestaurantConfig.isActive (restaurantConfigs s) = Some config ->
    RestaurantConfig.deliveryConfig config = Some deliveryConfig ->
    PrimFloat.ltb subtotal (DeliveryConfig.minimum_order deliveryConfig) = false ->
    OrderRouter.computeDeliveryFee DELIVERY subtotal s
    = (Ok (match DeliveryConfig.is_free_over_amount deliveryConfig with
           | Some threshold =>
               if decide (PrimFloat.eqb threshold 0 = false
                          /\ PrimFloat.leb threshold subtotal = true)
               then 0%float
               else Js.or_zero (DeliveryConfig.fee deliveryConfig)
           | None => Js.or_zero (DeliveryConfig.fee deliveryConfig)
           end), s).
Proof.
  intros subtotal s config dc Hconfig Hdc Hmin.
  unfold OrderRouter.computeDeliveryFee, bind, restaurantConfig.findFirstActive, gets.
  rewrite Hconfig. simpl. rewrite Hdc.
  unfold Js.lt_amount. rewrite Hmin.
  destruct (DeliveryConfig.is_free_over_amount dc) as [threshold |]; [| reflexivity].
  destruct (decide _) as [Hyes | Hno].
  - rewrite (proj2 (free_over_reached _ _) Hyes). reflexivity.
  - destruct (Js.truthy_amount threshold && Js.ge_amount subtotal threshold) eqn:Hcond;
      [| reflexivity].
    destruct Hno. apply free_over_reached, Hcond.
Qed.

Lemma delivery_fee_rule_witness :
  OrderRouter.computeDeliveryFee DELIVERY 320%float Sample2.storeFreeOver
  = (Ok 0%float, Sample2.storeFreeOver)
  /\ OrderRouter.computeDeliveryFee DELIVERY 200%float Sample2.storeFreeOver
     = (Ok 25%float, Sample2.storeFreeOver).
Proof.
  split.
  - etransitivity;
      [apply (delivery_fee_rule 320%float Sample2.storeFreeOver
                Sample2.configFreeOver Sample2.deliveryFreeOver);
       vm_compute; reflexivity |].
    vm_compute. reflexivity.
  - etransitivity;
      [apply (delivery_fee_rule 200%float Sample2.storeFreeOver
                Sample2.configFreeOver Sample2.deliveryFreeOver);
       vm_compute; reflexivity |].
    vm_compute. reflexivity.
Defined.

(** The item loop either prices every line or stops at a line that is not
    on offer, with NOT_FOUND. *)
Lemma processItems_cases orderItems subtotal processed s :
  (forallb (onOffer s) orderItems = true
   /\ exists subtotal' lines,
        OrderRouter.processItems orderItems subtotal processed s
        = (Ok (subtotal', lines), s))
  \/ (forallb (onOffer s) orderItems = false
      /\ OrderRouter.processItems orderItems subtotal processed s
         = (Err NOT_FOUND, s)).
Proof.
  revert subtotal processed.
  induction orderItems as [| item rest IH]; intros subtotal processed; simpl.
  - left. split; [reflexivity |]. eexists _, _. reflexivity.
  - unfold bind, menuItem.findUnique, gets, onOffer at 1 3.
    destruct (List.find _ (menuItems s)) as [menuItem |]; [| right; split; reflexivity].
    destruct (MenuItem.isAvailable menuItem); simpl; [| right; split; reflexivity].
    apply IH.
Qed.

Lemma create_not_NOT_FOUND_later input s subtotal lines :
  fst (match OrderRouter.computeDeliveryFee (OrderRouter.orderType input) subtotal s with
       | (Ok deliveryFee, _) =>
           match OrderRouter.resolveCustomer (OrderRouter.customerInfo input)
                   (OrderRouter.deliveryAddress input) s with
           | (Ok customer, s1) =>
               let orderNumber := "ORD-" +:+ Js.toString (Z.of_nat (nextId s1)) in
               let id := "c" +:+ Js.toString (Z.of_nat (S (nextId s1))) in
               let row := order.row_of id
                            (createData input subtotal deliveryFee customer
                               orderNumber lines) in
               (Ok row,
                with_orders (orders s1 ++ [row])
                  (with_nextId (S (S (nextId s1))) s1))
           | (Err c, s1) => (Err c, s1)
           end
       | (Err c, _) => (Err c, s)
       end) <> Err NOT_FOUND.
Proof.
  destruct (order_resolveCustomer_spec (OrderRouter.customerInfo input)
              (OrderRouter.deliveryAddress input) s) as (customer & s1 & Hres & _).
  rewrite Hres.
  unfold OrderRouter.computeDeliveryFee, bind, restaurantConfig.findFirstActive, gets.
  destruct (OrderRouter.orderType input); simpl; try discriminate.
  destruct (List.find _ _ ≫= _) as [dc |]; simpl; [| discriminate].
  destruct (Js.lt_amount _ _); simpl; [discriminate |].
  destruct (DeliveryConfig.is_free_over_amount dc) as [t |];
    [destruct (_ && _) |]; simpl; discriminate.
Qed.

(** X2: the handler of [order.create], which runs on the requests the input
    schema accepts, answers NOT_FOUND exactly when some line names a menu
    item that is missing or unavailable, and then nothing is written. *)
Theorem create_not_found_iff :
  forall input ctx s,
    (fst (OrderRouter.createHandler input ctx s) = Err NOT_FOUND
     <-> forallb (onOffer s) (OrderRouter.items input) = false)
    /\ (forallb (onOffer s) (OrderRouter.items input) = false
        -> OrderRouter.createHandler input ctx s = (Err NOT_FOUND, s)).
Proof.
  intros input ctx s. rewrite create_unfold.
  destruct (processItems_cases (OrderRouter.items input) 0%float [] s)
    as [(Hall & subtotal & lines & ->) | (Hbad & ->)].
  - rewrite Hall. split; [| discriminate]. split; [| discriminate].
    intros Hnf. exfalso. revert Hnf. apply create_not_NOT_FOUND_later.
  - rewrite Hbad. split; [| reflexivity]. split; reflexivity.
Qed.

Lemma create_not_found_iff_witness :
  OrderRouter.createHandler Sample2.unknownDish Sample.anonymous Sample.store
  = (Err NOT_FOUND, Sample.store).
Proof.
  apply (create_not_found_iff Sample2.unknownDish Sample.anonymous Sample.store).
  vm_compute. reflexivity.
Defined.

(** X3: a DINE_IN or TAKEOUT order is created exactly when the request
    passes the input schema (at least one line, every quantity a whole
    number from 1 up, a name of two and a phone of ten characters or more,
    an email of the right format if one is sent) and every line is on offer;
    the delivery checks do not run for it and it pays no delivery fee. *)
Theorem create_without_delivery :
  forall emailFormat input ctx s,
    OrderRouter.orderType input <> DELIVERY ->
    ((exists o s', OrderRouter.create emailFormat input ctx s = (Ok o, s'))
     <-> OrderRouter.createOrderSchema emailFormat input = true
         /\ forallb (onOffer s) (OrderRouter.items input) = true)
    /\ forall subtotal,
         OrderRouter.computeDeliveryFee (OrderRouter.orderType input) subtotal s
         = (Ok 0%float, s).
Proof.
  intros emailFormat input ctx s Htype.
  assert (Hfee : forall subtotal,
             OrderRouter.computeDeliveryFee (OrderRouter.orderType input) subtotal s
             = (Ok 0%float, s)).
  { intros subtotal. destruct (OrderRouter.orderType input); try reflexivity.
    destruct (Htype eq_refl). }
  split; [| exact Hfee].
  destruct (OrderRouter.createOrderSchema emailFormat input) eqn:Hschema.
  - rewrite (create_accepted _ _ _ _ Hschema), create_unfold.
    destruct (processItems_cases (OrderRouter.items input) 0%float [] s)
      as [(Hall & subtotal & lines & ->) | (Hbad & ->)].
    + rewrite Hall, Hfee.
      destruct (order_resolveCustomer_spec (OrderRouter.customerInfo input)
                  (OrderRouter.deliveryAddress input) s) as (customer & s1 & -> & _).
      split; [intros _; split; reflexivity |]. intros _. eexists _, _. reflexivity.
    + rewrite Hbad. split; [| intros [_ E]; discriminate E].
      intros (o & s' & E). discriminate E.
  - rewrite (create_refused _ _ _ _ Hschema).
    split; [| intros [E _]; discriminate E]. intros (o & s' & E). discriminate E.
Qed.

Lemma create_without_delivery_witness :
  exists o s',
    OrderRouter.create Sample.anyEmail Sample.tacosToGo Sample.anonymous Sample.store
    = (Ok o, s').
Proof.
  apply (create_without_delivery Sample.anyEmail Sample.tacosToGo Sample.anonymous
           Sample.store).
  - discriminate.
  - split; vm_compute; reflexivity.
Defined.

(** An order without lines, or for a quantity that is not a whole number
    from 1 up, is refused before the handler runs. *)
Example malformed_orders_refused :
  List.map (fun items =>
              OrderRouter.create Sample.anyEmail
                (OrderRouter.mkCreateOrderInput TAKEOUT items
                   (OrderRouter.mkCustomerInfo "Ana" "5551234567" None)
                   None None None cash)
                Sample.anonymous Sample.store)
    [[]; [OrderRouter.mkOrderItemInput "item-1" (-1) None None];
     [OrderRouter.mkOrderItemInput "item-1" 1.5 None None];
     [OrderRouter.mkOrderItemInput "item-1" 0 None None]]
  = [(Err BAD_REQUEST, Sample.store); (Err BAD_REQUEST, Sample.store);
     (Err BAD_REQUEST, Sample.store); (Err BAD_REQUEST, Sample.store)].
Proof. vm_compute. reflexivity. Qed.

(** ** Orders: status and payment *)

Lemma requireRole_admits roles {A} (next : Context -> H A) ctx u s :
  user ctx = Some u -> role u ∈ roles ->
  requireRole roles next ctx s = next ctx s.
Proof.
  intros Hu Hin. unfold requireRole. rewrite Hu.
  apply includes_elem_of in Hin. rewrite Hin. reflexivity.
Qed.

Lemma order_update_found id data s found :
  List.find (fun o => String.eqb (Order.id o) id) (orders s) = Some found ->
  exists rows',
    order.update id data s = (Ok (order.applyUpdate data found), with_orders rows' s)
    /\ order.applyUpdate data found ∈ rows'
    /\ List.length rows' = List.length (orders s).
Proof.
  intros Hfind.
  destruct (update_first_found _ (order.applyUpdate data) _ _ Hfind) as [rows' Hupd].
  pose proof (order_update_spec id data s) as Hspec.
  pose proof (update_first_spec (fun o => String.eqb (Order.id o) id)
                (order.applyUpdate data) (orders s)) as Hrows.
  rewrite Hupd in Hspec, Hrows.
  destruct Hrows as (pre & r & post & Hsplit & Hfind' & _ & ->).
  rewrite Hfind in Hfind'. injection Hfind' as <-.
  exists (pre ++ order.applyUpdate data found :: post). split; [exact Hspec |]. split.
  - apply elem_of_app. right. apply list_elem_of_here.
  - rewrite Hsplit, !List.length_app. reflexivity.
Qed.

(** X4: staff can move an existing order to any status from any status: the
    call succeeds, sets the status, stamps [readyAt] for READY and
    [deliveredAt] for DELIVERED only, and leaves amounts, payment and lines
    alone. *)
Theorem updateStatus_any_transition :
  forall now input ctx s u found,
    user ctx = Some u -> role u ∈ staffRoles ->
    List.find (fun o => String.eqb (Order.id o) (OrderRouter.us_id input)) (orders s)
    = Some found ->
    exists row rows',
      OrderRouter.updateStatus now input ctx s = (Ok row, with_orders rows' s)
      /\ row ∈ rows' /\ List.length rows' = List.length (orders s)
      /\ Order.status row = OrderRouter.us_status input
      /\ Order.readyAt row
         = match OrderRouter.us_status input with
           | OrderStatus.READY => Some now
           | _ => Order.readyAt found
           end
      /\ Order.deliveredAt row
         = match OrderRouter.us_status input with
           | OrderStatus.DELIVERED => Some now
           | _ => Order.deliveredAt found
           end
      /\ money row = money found
      /\ Order.paymentStatus row = Order.paymentStatus found
      /\ Order.orderItems row = Order.orderItems found
      /\ Order.orderNumber row = Order.orderNumber found.
Proof.
  intros now input ctx s u found Hu Hrole Hfind.
  unfold OrderRouter.updateStatus, staffProcedure.
  rewrite (requireRole_admits _ _ _ _ _ Hu Hrole).
  unfold OrderRouter.updateStatusHandler.
  match goal with |- context [order.update ?id ?d s] =>
    destruct (order_update_found id d s found Hfind) as (rows' & -> & Hin & Hlen)
  end.
  eexists _, rows'. split; [reflexivity |].
  split; [exact Hin |]. split; [exact Hlen |].
  destruct (OrderRouter.us_status input); repeat split.
Qed.

Lemma updateStatus_any_transition_witness :
  exists row s',
    OrderRouter.updateStatus 7
      (OrderRouter.mkUpdateStatusInput "c2" OrderStatus.DELIVERED None)
      (Sample.staff "WAITER") Sample2.storeWithOrder = (Ok row, s')
    /\ Order.status row = OrderStatus.DELIVERED
    /\ Order.deliveredAt row = Some 7%Z.
Proof.
  destruct (List.find (fun o => String.eqb (Order.id o) "c2")
              (orders Sample2.storeWithOrder)) as [found |] eqn:Hfind;
    [| vm_compute in Hfind; discriminate Hfind].
  destruct (updateStatus_any_transition 7
              (OrderRouter.mkUpdateStatusInput "c2" OrderStatus.DELIVERED None)
              (Sample.staff "WAITER") Sample2.storeWithOrder
              (mkUser "staff-1" "staff@ordo.test" "WAITER") found eq_refl)
    as (row & rows' & Hcall & _ & _ & Hstatus & _ & Hdelivered & _).
  - apply includes_elem_of. reflexivity.
  - exact Hfind.
  - exists row, (with_orders rows' Sample2.storeWithOrder).
    split; [exact Hcall |]. split; assumption.
Defined.

(** X5: status and payment calls for an order id that is not stored fail and
    leave the store as it was (a payment call whose tip is [NaN] fails all
    the same, as a bad request). *)
Theorem order_mutation_missing_id :
  forall ctx s u id,
    user ctx = Some u -> role u ∈ staffRoles ->
    List.find (fun o => String.eqb (Order.id o) id) (orders s) = None ->
    (forall now status estimated,
        OrderRouter.updateStatus now
          (OrderRouter.mkUpdateStatusInput id status estimated) ctx s
        = (Err INTERNAL_SERVER_ERROR, s))
    /\ (forall reference tip,
        OrderRouter.confirmPayment
          (OrderRouter.mkConfirmPaymentInput id reference tip) ctx s
        = (Err (if OrderRouter.confirmPaymentSchema
                     (OrderRouter.mkConfirmPaymentInput id reference tip)
                then INTERNAL_SERVER_ERROR else BAD_REQUEST), s)).
Proof.
  intros ctx s u id Hu Hrole Hfind.
  assert (Hmissing : forall data, order.update id data s = (Err INTERNAL_SERVER_ERROR, s)).
  { intros data. pose proof (order_update_spec id data s) as Hspec.
    pose proof (update_first_spec (fun o => String.eqb (Order.id o) id)
                  (order.applyUpdate data) (orders s)) as Hrows.
    destruct (update_first _ _ (orders s)) as [[row rows'] |]; [| exact Hspec].
    destruct Hrows as (pre & r & post & _ & Hfind' & _).
    rewrite Hfind in Hfind'. discriminate Hfind'. }
  split.
  - intros now status estimated.
    unfold OrderRouter.updateStatus, staffProcedure.
    rewrite (requireRole_admits _ _ _ _ _ Hu Hrole). apply Hmissing.
  - intros reference tip.
    unfold OrderRouter.confirmPayment, staffProcedure.
    rewrite (requireRole_admits _ _ _ _ _ Hu Hrole).
    unfold OrderRouter.confirmPaymentChecked.
    destruct (OrderRouter.confirmPaymentSchema _); [| reflexivity].
    unfold OrderRouter.confirmPaymentHandler.
    destruct (tipUpdate_spec id tip s) as (part & Htip & _). simpl.
    rewrite (bind_eq _ _ _ _ _ Htip). apply Hmissing.
Qed.

Lemma order_mutation_missing_id_witness :
  OrderRouter.confirmPayment
    (OrderRouter.mkConfirmPaymentInput "c9" None (Some 20%float))
    (Sample.staff "CASHIER") Sample2.storeWithOrder
  = (Err INTERNAL_SERVER_ERROR, Sample2.storeWithOrder).
Proof.
  apply (order_mutation_missing_id (Sample.staff "CASHIER") Sample2.storeWithOrder
           (mkUser "staff-1" "staff@ordo.test" "CASHIER") "c9" eq_refl).
  - apply includes_elem_of. reflexivity.
  - vm_compute. reflexivity.
Defined.

(** A number that is at most 0 is not above 0. *)
Lemma leb_zero_not_pos tip : PrimFloat.leb tip 0 = true -> PrimFloat.ltb 0 tip = false.
Proof.
  rewrite FloatAxioms.leb_spec, FloatAxioms.ltb_spec.
  change (FloatOps.Prim2SF 0) with (SpecFloat.S754_zero false).
  destruct (FloatOps.Prim2SF tip) as [sign | sign | | sign m e];
    try destruct sign; intros Hle; try discriminate Hle; reflexivity.
Qed.

Lemma tip_ignored tip :
  PrimFloat.leb tip 0 = true -> Js.truthy_amount tip && Js.gt_amount tip 0%float = false.
Proof.
  intros Hle. unfold Js.gt_amount. rewrite (leb_zero_not_pos _ Hle).
  apply andb_false_r.
Qed.

(** What the tip block yields for a stored order. *)
Lemma tipUpdate_found id tipAmount s found :
  List.find (fun o => String.eqb (Order.id o) id) (orders s) = Some found ->
  OrderRouter.tipUpdate id tipAmount s
  = (Ok (match tipAmount with
         | Some tip =>
             if Js.truthy_amount tip && Js.gt_amount tip 0%float
             then (Some tip,
                   Some (Order.subtotal found + Order.taxAmount found
                         + Order.deliveryFee found + tip
                         - Order.discountAmount found)%float)
             else (None, None)
         | None => (None, None)
         end), s).
Proof.
  intros Hfind. unfold OrderRouter.tipUpdate.
  destruct tipAmount as [tip |]; [| reflexivity].
  destruct (_ && _); [| reflexivity].
  unfold bind, order.findUnique, gets. rewrite Hfind. reflexivity.
Qed.

(** X6: confirming a payment without a tip, or with a tip that is not positive,
    marks the order PAID, records a non-empty reference, and leaves every
    amount, the total included, as stored. *)
Theorem confirmPayment_without_tip :
  forall input ctx s u found,
    user ctx = Some u -> role u ∈ staffRoles ->
    List.find (fun o => String.eqb (Order.id o) (OrderRouter.cp_id input)) (orders s)
    = Some found ->
    (OrderRouter.cp_tipAmount input = None
     \/ exists tip, OrderRouter.cp_tipAmount input = Some tip
                    /\ PrimFloat.leb tip 0 = true) ->
    exists row rows',
      OrderRouter.confirmPayment input ctx s = (Ok row, with_orders rows' s)
      /\ row ∈ rows'
      /\ Order.paymentStatus row = PAID
      /\ money row = money found
      /\ Order.status row = Order.status found
      /\ Order.paymentReference row
         = if Js.truthy_opt_string (OrderRouter.cp_paymentReference input)
           then OrderRouter.cp_paymentReference input
           else Order.paymentReference found.
Proof.
  intros input ctx s u found Hu Hrole Hfind Htip.
  unfold OrderRouter.confirmPayment, staffProcedure.
  rewrite (requireRole_admits _ _ _ _ _ Hu Hrole).
  assert (Hschema : OrderRouter.confirmPaymentSchema input = true).
  { unfold OrderRouter.confirmPaymentSchema.
    destruct Htip as [-> | (tip & -> & Hle)]; [reflexivity |].
    rewrite (leb_not_nan _ _ Hle). reflexivity. }
  unfold OrderRouter.confirmPaymentChecked. rewrite Hschema.
  unfold OrderRouter.confirmPaymentHandler.
  rewrite (bind_eq _ _ _ _ _ (tipUpdate_found _ _ _ _ Hfind)).
  assert (Hpart : match OrderRouter.cp_tipAmount input with
                  | Some tip =>
                      if Js.truthy_amount tip && Js.gt_amount tip 0%float
                      then (Some tip,
                            Some (Order.subtotal found + Order.taxAmount found
                                  + Order.deliveryFee found + tip
                                  - Order.discountAmount found)%float)
                      else (None, None)
                  | None => (None, None)
                  end = (None, None)).
  { destruct Htip as [-> | (tip & -> & Hle)]; [reflexivity |].
    rewrite (tip_ignored _ Hle). reflexivity. }
  rewrite Hpart. cbv zeta.
  match goal with |- context [order.update ?id ?d s] =>
    destruct (order_update_found id d s found Hfind) as (rows' & -> & Hin & _)
  end.
  eexists _, rows'. split; [reflexivity |]. split; [exact Hin |].
  simpl. repeat split.
  destruct (Js.truthy_opt_string _) eqn:Href; [| reflexivity].
  destruct (OrderRouter.cp_paymentReference input); [reflexivity | discriminate Href].
Qed.

Lemma confirmPayment_without_tip_witness :
  exists row s',
    OrderRouter.confirmPayment
      (OrderRouter.mkConfirmPaymentInput "c2" None (Some (-5)%float))
      (Sample.staff "CASHIER") Sample2.storeWithOrder = (Ok row, s')
    /\ Order.paymentStatus row = PAID
    /\ Order.total row = 197.2%float.
Proof.
  destruct (List.find (fun o => String.eqb (Order.id o) "c2")
              (orders Sample2.storeWithOrder)) as [found |] eqn:Hfind;
    [| vm_compute in Hfind; discriminate Hfind].
  destruct (confirmPayment_without_tip
              (OrderRouter.mkConfirmPaymentInput "c2" None (Some (-5)%float))
              (Sample.staff "CASHIER") Sample2.storeWithOrder
              (mkUser "staff-1" "staff@ordo.test" "CASHIER") found eq_refl)
    as (row & rows' & Hcall & _ & Hpaid & Hmoney & _).
  - apply includes_elem_of. reflexivity.
  - exact Hfind.
  - right. exists (-5)%float. split; reflexivity.
  - exists row, (with_orders rows' Sample2.storeWithOrder).
    split; [exact Hcall |]. split; [exact Hpaid |].
    apply (f_equal snd) in Hmoney. simpl in Hmoney.
    rewrite Hmoney. vm_compute in Hfind. injection Hfind as <-. reflexivity.
Defined.

Lemma update_first_again {A} (p : A -> bool) (f : A -> A) rows r' rows' :
  (forall x, p (f x) = p x) ->
  update_first p f rows = Some (r', rows') ->
  List.find p rows' = Some r'
  /\ forall g, g r' = r' -> update_first p g rows' = Some (r', rows').
Proof.
  intros Hp. revert r' rows'.
  induction rows as [| x rows IH]; intros r' rows'; simpl; [discriminate |].
  destruct (p x) eqn:Hx.
  - intros E. injection E as <- <-. simpl. rewrite Hp, Hx.
    split; [reflexivity |]. intros g Hg. rewrite Hg. reflexivity.
  - destruct (update_first p f rows) as [[r0 rows0] |]; [| discriminate].
    intros E. injection E as <- <-. simpl. rewrite Hx.
    destruct (IH _ _ eq_refl) as [Hfind Hagain].
    split; [exact Hfind |]. intros g Hg. rewrite (Hagain g Hg). reflexivity.
Qed.

Lemma order_applyUpdate_again data o :
  order.applyUpdate data (order.applyUpdate data o) = order.applyUpdate data o.
Proof.
  destruct data as [st ra da er ps pr tip tot].
  unfold order.applyUpdate, order.keep. simpl.
  destruct st, ra, da, er, ps, pr, tip, tot; reflexivity.
Qed.

Lemma confirmPaymentHandler_again input ctx s :
  OrderRouter.confirmPaymentHandler input ctx
    (snd (OrderRouter.confirmPaymentHandler input ctx s))
  = OrderRouter.confirmPaymentHandler input ctx s.
Proof.
  unfold OrderRouter.confirmPaymentHandler.
  destruct (List.find (fun o => String.eqb (Order.id o) (OrderRouter.cp_id input))
              (orders s)) as [found |] eqn:Hfind.
  - rewrite (bind_eq _ _ _ _ _ (tipUpdate_found _ _ _ _ Hfind)). cbv zeta.
    match goal with |- context [order.update ?id ?d s] =>
      set (data := d);
      pose proof (order_update_spec id data s) as Hspec;
      destruct (update_first_found (fun o => String.eqb (Order.id o) id)
                  (order.applyUpdate data) _ _ Hfind) as [rows' Hupd]
    end.
    rewrite Hupd in Hspec. rewrite Hspec. simpl.
    destruct (update_first_again
                (fun o => String.eqb (Order.id o) (OrderRouter.cp_id input))
                (order.applyUpdate data) (orders s) _ _ (fun x => eq_refl) Hupd)
      as [Hfind' Hagain].
    assert (Hfind1 : List.find (fun o => String.eqb (Order.id o) (OrderRouter.cp_id input))
                       (orders (with_orders rows' s))
                     = Some (order.applyUpdate data found)) by exact Hfind'.
    rewrite (bind_eq _ _ _ _ _ (tipUpdate_found _ _ _ _ Hfind1)). cbv zeta.
    change (Order.subtotal (order.applyUpdate data found)) with (Order.subtotal found).
    change (Order.taxAmount (order.applyUpdate data found)) with (Order.taxAmount found).
    change (Order.deliveryFee (order.applyUpdate data found)) with (Order.deliveryFee found).
    change (Order.discountAmount (order.applyUpdate data found))
      with (Order.discountAmount found).
    fold data.
    pose proof (order_update_spec (OrderRouter.cp_id input) data (with_orders rows' s))
      as Hspec'.
    simpl in Hspec'.
    rewrite (Hagain (order.applyUpdate data) (order_applyUpdate_again data found)) in Hspec'.
    exact Hspec'.
  - destruct (tipUpdate_spec (OrderRouter.cp_id input) (OrderRouter.cp_tipAmount input) s)
      as (part & Htip & _).
    rewrite (bind_eq _ _ _ _ _ Htip).
    match goal with |- context [order.update ?id ?d s] =>
      pose proof (order_update_spec id d s) as Hspec;
      pose proof (update_first_spec (fun o => String.eqb (Order.id o) id)
                    (order.applyUpdate d) (orders s)) as Hrows
    end.
    destruct (update_first _ _ (orders s)) as [[row rows'] |].
    + destruct Hrows as (pre & r & post & _ & Hfind' & _).
      rewrite Hfind in Hfind'. discriminate Hfind'.
    + rewrite Hspec. simpl. rewrite (bind_eq _ _ _ _ _ Htip). exact Hspec.
Qed.

(** X7: confirming the same payment again changes nothing: the second call
    returns what the first returned and leaves the store the first left. *)
Theorem confirmPayment_idempotent :
  forall input ctx s,
    OrderRouter.confirmPayment input ctx (snd (OrderRouter.confirmPayment input ctx s))
    = OrderRouter.confirmPayment input ctx s.
Proof.
  intros input ctx s.
  unfold OrderRouter.confirmPayment, staffProcedure, requireRole.
  destruct (user ctx) as [u |]; [| reflexivity].
  destruct (negb _); [reflexivity |].
  unfold OrderRouter.confirmPaymentChecked.
  destruct (OrderRouter.confirmPaymentSchema input); [| reflexivity].
  apply confirmPaymentHandler_again.
Qed.

(** ** Reservations: booking and capacity *)

Lemma reservation_resolveCustomer_with_reservations p n rs s :
  ReservationRouter.resolveCustomer p n (with_reservations rs s)
  = let '(r, s1) := ReservationRouter.resolveCustomer p n s in
    (r, with_reservations rs s1).
Proof.
  unfold ReservationRouter.resolveCustomer, bind, customer.findUniqueByPhone, gets.
  simpl. destruct (List.find _ (customers s)); reflexivity.
Qed.

(** X8: a booking is accepted or refused without a look at the reservations
    already stored: the answer of the handler of [create] is the same
    whatever they are, so a slot that is full can still be booked. *)
Theorem reservation_create_ignores_bookings :
  forall host input ctx s bookings,
    fst (ReservationRouter.createHandler host input ctx (with_reservations bookings s))
    = fst (ReservationRouter.createHandler host input ctx s).
Proof.
  intros host input ctx s bookings. rewrite !reservation_create_unfold. simpl.
  destruct (List.find _ (restaurantConfigs s)) as [config |]; [| reflexivity].
  destruct (negb _); [reflexivity |].
  destruct (ReservationRouter.daySchedule _ _) as [schedule |]; [| reflexivity].
  destruct (DaySchedule.is_closed schedule); [reflexivity |].
  destruct (ReservationRouter.outsideHours _ _); [reflexivity |].
  rewrite reservation_resolveCustomer_with_reservations.
  destruct (reservation_resolveCustomer_spec (ReservationRouter.customerPhone input)
              (ReservationRouter.customerName input) s) as (customer & s1 & -> & _).
  rewrite !reservation_create_row. simpl.
  destruct (ReservationRouter.reservationDate input); reflexivity.
Qed.

(** A fourth party is booked on the full Monday 10:00. *)
Example full_slot_still_booked :
  countAt ReservationRouter.activeStatuses Sample2.storeFull Sample.mondayValue "10:00"
  = 3%nat
  /\ exists r s',
       ReservationRouter.createHandler Sample.host (Sample.reservationAt Sample.monday "10:00")
         Sample.anonymous Sample2.storeFull = (Ok r, s')
       /\ countAt ReservationRouter.activeStatuses s' Sample.mondayValue "10:00" = 4%nat.
Proof.
  split; [reflexivity |].
  destruct (ReservationRouter.createHandler Sample.host (Sample.reservationAt Sample.monday "10:00")
              Sample.anonymous Sample2.storeFull) as [[r | c] s'] eqn:E;
    vm_compute in E; [| discriminate E].
  injection E as <- <-. eexists _, _. split; reflexivity.
Qed.

Lemma countAt_occupies s d key :
  countAt ReservationRouter.activeStatuses s d key
  = List.length (List.filter (occupies d key) (reservations s)).
Proof. reflexivity. Qed.

Lemma reservation_create_Ok_row host input ctx s r s' :
  ReservationRouter.createHandler host input ctx s = (Ok r, s') ->
  reservations s' = reservations s ++ [r]
  /\ ReservationRouter.reservationDate input = Some (Reservation.reservationDate r)
  /\ Reservation.reservationTime r = ReservationRouter.reservationTime input +:+ ":00"
  /\ Reservation.status r = ReservationStatus.PENDING
  /\ Reservation.customerPhone r = ReservationRouter.customerPhone input
  /\ Reservation.partySize r = ReservationRouter.partySize input.
Proof.
  rewrite reservation_create_unfold.
  destruct (List.find _ (restaurantConfigs s)) as [config |]; [| discriminate].
  destruct (negb _); [discriminate |].
  destruct (ReservationRouter.daySchedule _ _) as [schedule |]; [| discriminate].
  destruct (DaySchedule.is_closed schedule); [discriminate |].
  destruct (ReservationRouter.outsideHours _ _); [discriminate |].
  destruct (reservation_resolveCustomer_spec (ReservationRouter.customerPhone input)
              (ReservationRouter.customerName input) s)
    as (customer & s1 & -> & _ & _ & Hres & _).
  rewrite reservation_create_row. simpl.
  destruct (ReservationRouter.reservationDate input) as [d |]; [| discriminate].
  cbv zeta. intros E. injection E as <- <-. simpl. rewrite Hres. repeat split.
Qed.

Lemma slice05_stored time :
  (String.length time = 5%nat -> Js.slice05 (time +:+ ":00") = time)
  /\ (String.length time < 5 -> Js.slice05 (time +:+ ":00") <> time)%nat.
Proof.
  unfold Js.slice05.
  destruct time as [| c1 [| c2 [| c3 [| c4 [| c5 [| c6 rest]]]]]]; simpl;
    split; intros H; try lia; try discriminate; try reflexivity.
Qed.

(** X9: a booking that goes through (the handler of [create] returns it) is
    stored PENDING and counts at once, on its date, under the first five
    characters of its time followed by [":00"]: for a five-character time
    [HH:MM] that is the requested slot, whose count goes up by one; a
    shorter time such as [9:30] is counted under another key, and the count
    of the requested time stays put. *)
Theorem booking_counts_toward_slot :
  forall host input ctx s r s',
    ReservationRouter.createHandler host input ctx s = (Ok r, s') ->
    let d := Reservation.reservationDate r in
    let time := ReservationRouter.reservationTime input in
    (forall key,
        countAt ReservationRouter.activeStatuses s' d key
        = (countAt ReservationRouter.activeStatuses s d key
           + if String.eqb (Js.slice05 (time +:+ ":00")) key then 1 else 0)%nat)
    /\ (String.length time = 5%nat ->
        countAt ReservationRouter.activeStatuses s' d time
        = S (countAt ReservationRouter.activeStatuses s d time))
    /\ (String.length time < 5 ->
        countAt ReservationRouter.activeStatuses s' d time
        = countAt ReservationRouter.activeStatuses s d time)%nat.
Proof.
  intros host input ctx s r s' Hcreate. cbv zeta.
  apply reservation_create_Ok_row in Hcreate
    as (Hrows & _ & Htime & Hstatus & _).
  assert (Hkey : forall key,
             countAt ReservationRouter.activeStatuses s' (Reservation.reservationDate r) key
             = (countAt ReservationRouter.activeStatuses s (Reservation.reservationDate r) key
                + if String.eqb (Js.slice05 (ReservationRouter.reservationTime input
                                               +:+ ":00")) key
                  then 1 else 0)%nat).
  { intros key. rewrite !countAt_occupies, Hrows, List.filter_app, List.length_app.
    f_equal. simpl. unfold occupies. rewrite Z.eqb_refl, Hstatus, Htime. simpl.
    destruct (String.eqb _ key); reflexivity. }
  split; [exact Hkey |]. split; intros Hlen; rewrite Hkey.
  - rewrite (proj1 (slice05_stored _) Hlen), String.eqb_refl. lia.
  - rewrite (proj2 (String.eqb_neq _ _) (proj2 (slice05_stored _) Hlen)). lia.
Qed.

Lemma booking_counts_toward_slot_witness :
  exists r s',
    ReservationRouter.createHandler Sample.host (Sample.reservationAt Sample.monday "9:30")
      Sample.anonymous Sample.store = (Ok r, s')
    /\ countAt ReservationRouter.activeStatuses s' Sample.mondayValue "9:30"
       = countAt ReservationRouter.activeStatuses Sample.store Sample.mondayValue "9:30".
Proof.
  destruct (ReservationRouter.createHandler Sample.host (Sample.reservationAt Sample.monday "9:30")
              Sample.anonymous Sample.store) as [[r | c] s'] eqn:E;
    [| vm_compute in E; discriminate E].
  exists r, s'. split; [reflexivity |].
  destruct (booking_counts_toward_slot _ _ _ _ _ _ E) as (_ & _ & Hshort).
  assert (Hd : Reservation.reservationDate r = Sample.mondayValue)
    by (vm_compute in E; injection E as <- _; reflexivity).
  rewrite Hd in Hshort. apply Hshort. simpl. lia.
Defined.

(** ** Reservations: the slots on offer *)








Lemma roundTrips_day :
  forallb roundTrips (List.map Z.of_nat (seq 0 1440)) = true.
Proof. vm_compute. reflexivity. Qed.

(** Within a day, a slot string reads back as the minute it was made from. *)
Lemma minutesOf_timeString m :
  (0 <= m < 1440)%Z ->
  ReservationRouter.minutesOf (ReservationRouter.timeString m) = Some m.
Proof.
  intros Hm. pose proof roundTrips_day as Hall. rewrite forallb_forall in Hall.
  specialize (Hall m). unfold roundTrips in Hall.
  destruct (ReservationRouter.minutesOf (ReservationRouter.timeString m)) as [m' |].
  - f_equal. apply Z.eqb_eq, Hall, in_map_iff. exists (Z.to_nat m).
    split; [lia | apply in_seq; lia].
  - assert (false = true); [| discriminate].
    apply Hall, in_map_iff. exists (Z.to_nat m). split; [lia | apply in_seq; lia].
Qed.











(** The schema turns away what the handler would have booked: a party of
    25, and a date before today. *)
Example booking_schema_refuses :
  ReservationRouter.create Sample.host
    (ReservationRouter.mkCreateReservationInput "Ana" "5551234567" Sample.monday
       "20:00" 25 None None) Sample.anonymous Sample.store
  = (Err BAD_REQUEST, Sample.store)
  /\ ReservationRouter.create Sample.host
       (Sample.reservationAt (Some (Js.dateOnly 2026 11 2)) "12:00")
       Sample.anonymous Sample.store
     = (Err BAD_REQUEST, Sample.store)
  /\ (exists row s',
        ReservationRouter.createHandler Sample.host
          (Sample.reservationAt (Some (Js.dateOnly 2026 11 2)) "12:00")
          Sample.anonymous Sample.store = (Ok row, s')).
Proof.
  split; [vm_compute; reflexivity |]. split; [vm_compute; reflexivity |].
  eexists _, _. vm_compute. reflexivity.
Qed.

(** ** Reservations: cancelling frees the slot *)




(** The full Monday 10:00 is not offered; after one cancellation it is. *)
Example cancelled_slot_offered_again :
  (forall r s', ReservationRouter.getAvailableTimesHandler Sample.host Sample.monday 2 Sample.anonymous
                  Sample2.storeFull = (Ok r, s') ->
                "10:00" ∉ ReservationRouter.availableTimes r)
  /\ (forall r s',
        ReservationRouter.getAvailableTimesHandler Sample.host Sample.monday 2 Sample.anonymous
          (snd (ReservationRouter.cancel
                  (ReservationRouter.mkCancelInput "r2" (Some "5551234567"))
                  Sample.anonymous Sample2.storeFull)) = (Ok r, s') ->
        "10:00" ∈ ReservationRouter.availableTimes r).
Proof.
  split; intros r s' E; vm_compute in E; injection E as <- _; simpl.
  - intros Hin. apply list_elem_of_In in Hin. vm_compute in Hin.
    repeat (destruct Hin as [Hin | Hin]; [discriminate Hin |]). exact Hin.
  - apply list_elem_of_In. vm_compute. tauto.
Qed.

(** ** The request context *)

Lemma replaceFirst_bearer token :
  ContextBuilder.replaceFirst "Bearer " "" ("Bearer " +:+ token) = token.
Proof. destruct token; vm_compute; reflexivity. Qed.

Lemma truthy_opt_string_Some o :
  Js.truthy_opt_string o = true <-> exists s, o = Some s /\ s <> "".
Proof.
  destruct o as [s |]; simpl.
  - unfold Js.truthy_string. rewrite negb_true_iff, String.eqb_neq.
    split; [intros H; exists s; split; [reflexivity | exact H] |].
    intros (s' & E & H). injection E as <-. exact H.
  - split; [discriminate | intros (s & E & _); discriminate E].
Qed.

(** X13: the identity in a request context is always that of an active row of
    the staff table, found by the [userId] of a token that verifies: id,
    email and role are the row's, whatever the token claims.  Conversely a
    bearer token that verifies for an active row gives that identity. *)
Theorem createContext_identity :
  forall (verify : string -> option ContextBuilder.Payload) staffUsers,
    (forall authorization u,
        user (ContextBuilder.createContext verify staffUsers authorization) = Some u ->
        exists header payload row,
          authorization = Some header
          /\ verify (ContextBuilder.replaceFirst "Bearer " "" header) = Some payload
          /\ ContextBuilder.userId payload = Some (ContextBuilder.id row)
          /\ row ∈ staffUsers
          /\ ContextBuilder.isActive row = true
          /\ u = mkUser (ContextBuilder.id row) (ContextBuilder.email row)
                   (ContextBuilder.role row))
    /\ (forall token payload uid row,
        token <> "" -> verify token = Some payload ->
        ContextBuilder.userId payload = Some uid -> uid <> "" ->
        List.find (fun u => bool_decide (Some (ContextBuilder.id u) = Some uid)) staffUsers
        = Some row ->
        ContextBuilder.isActive row = true ->
        user (ContextBuilder.createContext verify staffUsers (Some ("Bearer " +:+ token)))
        = Some (mkUser (ContextBuilder.id row) (ContextBuilder.email row)
                  (ContextBuilder.role row))).
Proof.
  intros verify staffUsers. split.
  - intros authorization u. unfold ContextBuilder.createContext. simpl.
    destruct authorization as [header |]; simpl; [| discriminate].
    destruct (Js.truthy_string _); [| discriminate].
    destruct (verify _) as [payload |] eqn:Hverify; [| discriminate].
    destruct (Js.truthy_opt_string _); [| discriminate].
    destruct (List.find _ staffUsers) as [row |] eqn:Hfind; [| discriminate].
    destruct (ContextBuilder.isActive row) eqn:Hactive; [| discriminate].
    intros E. injection E as <-.
    apply find_some in Hfind as [Hin Hid]. apply bool_decide_eq_true in Hid.
    exists header, payload, row. repeat split; try assumption.
    + symmetry. exact Hid.
    + apply list_elem_of_In. exact Hin.
  - intros token payload uid row Htoken Hverify Huid Hne Hfind Hactive.
    unfold ContextBuilder.createContext.
    cbv [fmap option_fmap option_map]. rewrite replaceFirst_bearer. simpl.
    unfold Js.truthy_string. rewrite (proj2 (String.eqb_neq _ _) Htoken). simpl.
    rewrite Hverify, Huid. simpl.
    unfold Js.truthy_string. rewrite (proj2 (String.eqb_neq _ _) Hne). simpl.
    rewrite Hfind, Hactive. reflexivity.
Qed.

Lemma createContext_identity_witness :
  user (ContextBuilder.createContext Sample2.verifyDemo Sample2.staffTable
          (Some "Bearer cook-token"))
  = Some (mkUser "u1" "cook@ordo.test" "KITCHEN").
Proof.
  destruct (createContext_identity Sample2.verifyDemo Sample2.staffTable) as [_ Hgives].
  apply (Hgives "cook-token"
           (ContextBuilder.mkPayload (Some "u1") (Some "cook@ordo.test") (Some "ADMIN"))
           "u1" (ContextBuilder.mkStaffUser "u1" "cook@ordo.test" "KITCHEN" true));
    try reflexivity; discriminate.
Defined.

(** X14: a token that does not verify, or whose staff row is missing or has been
    deactivated, opens no role-gated procedure: the call is answered
    UNAUTHORIZED, whatever roles the gate admits, and the handler does not
    run. *)
Theorem stale_token_is_unauthorized :
  forall (verify : string -> option ContextBuilder.Payload) staffUsers header
         roles (A : Type) (next : Context -> H A) s,
    (forall payload row,
        verify (ContextBuilder.replaceFirst "Bearer " "" header) = Some payload ->
        List.find (fun u => bool_decide (Some (ContextBuilder.id u)
                                         = ContextBuilder.userId payload)) staffUsers
        = Some row ->
        ContextBuilder.isActive row = false) ->
    requireRole roles next
      (ContextBuilder.createContext verify staffUsers (Some header)) s
    = (Err UNAUTHORIZED, s).
Proof.
  intros verify staffUsers header roles A next s Hstale.
  assert (Huser : user (ContextBuilder.createContext verify staffUsers (Some header)) = None).
  { unfold ContextBuilder.createContext. simpl.
    destruct (Js.truthy_string _); [| reflexivity].
    destruct (verify _) as [payload |] eqn:Hverify; [| reflexivity].
    destruct (Js.truthy_opt_string _); [| reflexivity].
    destruct (List.find _ staffUsers) as [row |] eqn:Hfind; [| reflexivity].
    rewrite (Hstale payload row eq_refl Hfind). reflexivity. }
  unfold requireRole. rewrite Huser. reflexivity.
Qed.

Lemma stale_token_is_unauthorized_witness :
  OrderRouter.updateStatus 0
    (OrderRouter.mkUpdateStatusInput "c2" OrderStatus.CANCELLED None)
    (ContextBuilder.createContext Sample2.verifyDemo Sample2.staffTable
       (Some "Bearer waiter-token")) Sample2.storeWithOrder
  = (Err UNAUTHORIZED, Sample2.storeWithOrder).
Proof.
  apply (stale_token_is_unauthorized Sample2.verifyDemo Sample2.staffTable
           "Bearer waiter-token").
  intros payload row Hverify Hfind.
  vm_compute in Hverify. injection Hverify as <-.
  vm_compute in Hfind. injection Hfind as <-. reflexivity.
Defined.

(** The cook's token claims ADMIN, but the staff table says KITCHEN: the
    admin gate answers FORBIDDEN, the kitchen gate lets the call through. *)
Example token_role_is_not_trusted :
  let ctx := ContextBuilder.createContext Sample2.verifyDemo Sample2.staffTable
               (Some "Bearer cook-token") in
  adminProcedure (RestaurantRouter.getConfig) ctx Sample.store
  = (Err FORBIDDEN, Sample.store)
  /\ kitchenProcedure (RestaurantRouter.getConfig) ctx Sample.store
     = (Ok Sample.config, Sample.store).
Proof. split; reflexivity. Qed.

(** ** Opening hours as [isOpen] reads them *)

Lemma digit_is_plain c d :
  Js.digit_of c = Some d ->
  RestaurantRouter.isWhiteSpace c = false /\ Ascii.eqb c "-" = false
  /\ Ascii.eqb c "+" = false /\ RestaurantRouter.isX c = false.
Proof.
  destruct c as [[] [] [] [] [] [] [] []]; vm_compute; intros E;
    first [discriminate E | repeat split].
Qed.

Lemma digitsPrefix_digits s : forall acc seen v,
  Js.digits_value acc s = Some v -> s <> "" \/ seen = true ->
  RestaurantRouter.digitsPrefix Js.digit_of 10 acc seen s = Some v.
Proof.
  induction s as [| c s IH]; intros acc seen v; simpl.
  - intros E [H | ->]; [destruct (H eq_refl) | exact E].
  - destruct (Js.digit_of c) as [d |]; [| discriminate].
    intros E _. apply IH; [exact E | right; reflexivity].
Qed.

(** On a non-empty string of digits [parseInt] and [Number] agree. *)
Lemma parseIntString_digits s v :
  Js.Number_ s = Some v -> s <> "" -> RestaurantRouter.parseIntString s = Some v.
Proof.
  unfold Js.Number_. intros Hnum Hne.
  destruct s as [| c0 rest]; [destruct (Hne eq_refl) |].
  assert (Hd0 : exists d, Js.digit_of c0 = Some d).
  { simpl in Hnum. destruct (Js.digit_of c0) as [d |]; [exists d; reflexivity | discriminate]. }
  destruct Hd0 as [d0 Hd0].
  destruct (digit_is_plain _ _ Hd0) as (Hw & Hminus & Hplus & _).
  unfold RestaurantRouter.parseIntString.
  cbn [RestaurantRouter.skipWhiteSpace]. rewrite Hw, Hminus, Hplus.
  assert (Hdec : RestaurantRouter.digitsPrefix Js.digit_of 10 0 false (String c0 rest)
                 = Some v)
    by (apply digitsPrefix_digits; [exact Hnum | left; discriminate]).
  destruct rest as [| c1 rest]; [rewrite Hdec; reflexivity |].
  assert (Hx : RestaurantRouter.isX c1 = false).
  { simpl in Hnum. rewrite Hd0 in Hnum.
    destruct (Js.digit_of c1) as [d1 |] eqn:Hd1; [| discriminate].
    apply (digit_is_plain _ _ Hd1). }
  rewrite Hx, andb_false_r, Hdec. reflexivity.
Qed.

Lemma minutesOf_parts t :
  ReservationRouter.minutesOf t
  = Js.add (Js.mul (Js.split ":" t !! 0%nat ≫= Js.Number_) (Some 60%Z))
      (Js.split ":" t !! 1%nat ≫= Js.Number_).
Proof.
  unfold ReservationRouter.minutesOf, Js.destructure2.
  rewrite !list_lookup_fmap.
  destruct (Js.split ":" t !! 0%nat), (Js.split ":" t !! 1%nat); reflexivity.
Qed.

Lemma digits_value_total s :
  forallb (fun c => bool_decide (is_Some (Js.digit_of c))) (list_ascii_of_string s) = true ->
  forall acc, exists v, Js.digits_value acc s = Some v.
Proof.
  induction s as [| c s IH]; simpl; intros Hall acc.
  - exists acc. reflexivity.
  - apply andb_true_iff in Hall as [Hc Hs].
    apply bool_decide_eq_true in Hc as [d Hd]. rewrite Hd. apply IH, Hs.
Qed.

Lemma plainNumber_read s :
  plainNumber s = true ->
  exists v, Js.Number_ s = Some v /\ RestaurantRouter.parseIntString s = Some v.
Proof.
  unfold plainNumber. rewrite !andb_true_iff, Nat.leb_le. intros [[Hlen _] Hall].
  destruct (digits_value_total s Hall 0%Z) as [v Hv]. exists v.
  split; [exact Hv |]. apply parseIntString_digits; [exact Hv |].
  intros ->. simpl in Hlen. lia.
Qed.

(** X15: the reservation code reads a schedule time with [Number], [isOpen]
    reads it with [parseInt]: on a time whose hours and minutes are written
    as plain decimal numbers (one to nine digits each, as in [HH:MM]) both
    obtain a number of minutes, and it is the same number.  (Outside such
    times the two readers part: [parseInt] stops at the first character
    that is no digit, [Number] reads the whole string or nothing.) *)
Theorem clock_readers_agree :
  forall t h m,
    Js.split ":" t !! 0%nat = Some h ->
    Js.split ":" t !! 1%nat = Some m ->
    plainNumber h = true -> plainNumber m = true ->
    exists hours minutes,
      Js.Number_ h = Some hours /\ Js.Number_ m = Some minutes
      /\ ReservationRouter.minutesOf t = Some (hours * 60 + minutes)%Z
      /\ RestaurantRouter.clockMinutes t = Some (hours * 60 + minutes)%Z.
Proof.
  intros t h m Hh Hm Hplain_h Hplain_m.
  destruct (plainNumber_read h Hplain_h) as (hours & Hnum_h & Hint_h).
  destruct (plainNumber_read m Hplain_m) as (minutes & Hnum_m & Hint_m).
  exists hours, minutes. split; [exact Hnum_h |]. split; [exact Hnum_m |].
  rewrite minutesOf_parts. unfold RestaurantRouter.clockMinutes.
  rewrite Hh, Hm. simpl. rewrite Hnum_h, Hnum_m, Hint_h, Hint_m. split; reflexivity.
Qed.

Lemma clock_readers_agree_witness :
  ReservationRouter.minutesOf "09:00" = Some 540%Z
  /\ RestaurantRouter.clockMinutes "09:00" = Some 540%Z.
Proof.
  destruct (clock_readers_agree "09:00" "09" "00" eq_refl eq_refl eq_refl eq_refl)
    as (hours & minutes & Hh & Hm & Hnumber & Hparse).
  vm_compute in Hh. injection Hh as <-.
  vm_compute in Hm. injection Hm as <-.
  split; [exact Hnumber | exact Hparse].
Defined.

(** Where the two readings part: one of them has no number.  ["9:"] is
    09:00 for the reservation code and unreadable for [isOpen]; ["21:30h"]
    is the other way round. *)
Example clock_readers_differ :
  ReservationRouter.minutesOf "9:" = Some 540%Z
  /\ RestaurantRouter.clockMinutes "9:" = None
  /\ ReservationRouter.minutesOf "21:30h" = None
  /\ RestaurantRouter.clockMinutes "21:30h" = Some 1290%Z.
Proof. repeat split. Qed.

(** X16: on a day with a schedule that is not closed and reads as [o] to [c]
    minutes, [isOpen] says open exactly from [o] to [c], both included; it
    gives a reason exactly when it says closed; and hours that run past
    midnight ([c] before [o]) are never open. *)
Theorem isOpen_hours :
  forall now ctx s config schedule o c,
    List.find RestaurantConfig.isActive (restaurantConfigs s) = Some config ->
    RestaurantConfig.openingHours config
      !! default "undefined" (ReservationRouter.dayNames !! Z.to_nat (RestaurantRouter.day now))
    = Some schedule ->
    DaySchedule.is_closed schedule = false ->
    RestaurantRouter.clockMinutes (DaySchedule.open schedule) = Some o ->
    RestaurantRouter.clockMinutes (DaySchedule.close schedule) = Some c ->
    exists answer,
      RestaurantRouter.isOpen now ctx s = (Ok answer, s)
      /\ (RestaurantRouter.open answer = true
          <-> (o <= RestaurantRouter.hours now * 60 + RestaurantRouter.minutes now <= c)%Z)
      /\ (RestaurantRouter.reason answer = None <-> RestaurantRouter.open answer = true)
      /\ ((c < o)%Z -> RestaurantRouter.open answer = false).
Proof.
  intros now ctx s config schedule o c Hconfig Hday Hopen Ho Hc.
  unfold RestaurantRouter.isOpen, bind, restaurantConfig.findFirstActive, gets.
  rewrite Hconfig, Hday, Hopen, Ho, Hc. cbv zeta. eexists. split; [reflexivity |].
  simpl.
  set (t := (RestaurantRouter.hours now * 60 + RestaurantRouter.minutes now)%Z).
  assert (Hiff : (o <=? t)%Z && (t <=? c)%Z = true <-> (o <= t <= c)%Z)
    by (rewrite andb_true_iff, !Z.leb_le; reflexivity).
  split; [exact Hiff |]. split.
  - destruct ((o <=? t)%Z && (t <=? c)%Z); split; intros E;
      try reflexivity; discriminate E.
  - intros Hnight. destruct ((o <=? t)%Z && (t <=? c)%Z); [| reflexivity].
    pose proof (proj1 Hiff eq_refl). lia.
Qed.

Lemma isOpen_hours_witness :
  exists answer,
    RestaurantRouter.isOpen (RestaurantRouter.mkNow 1 22 0) Sample.anonymous Sample.store
    = (Ok answer, Sample.store)
    /\ RestaurantRouter.open answer = true.
Proof.
  destruct (isOpen_hours (RestaurantRouter.mkNow 1 22 0) Sample.anonymous Sample.store
              Sample.config Sample.weekday 540 1320)
    as (answer & Hcall & Hopen & _); try (vm_compute; reflexivity).
  exists answer. split; [exact Hcall |]. apply Hopen. simpl. lia.
Defined.

(** ** The menu: availability and categories *)

Lemma find_update_first_other {A} (p q : A -> bool) (f : A -> A) rows r' rows' :
  (forall x, q (f x) = q x) ->
  (forall x, q x = true -> p x = false) ->
  update_first p f rows = Some (r', rows') ->
  List.find q rows' = List.find q rows.
Proof.
  intros Hq Hdisjoint. revert r' rows'.
  induction rows as [| x rows IH]; intros r' rows'; simpl; [discriminate |].
  destruct (p x) eqn:Hp.
  - intros E. injection E as <- <-. simpl. rewrite Hq.
    destruct (q x) eqn:Hqx; [| reflexivity].
    rewrite (Hdisjoint _ Hqx) in Hp. discriminate Hp.
  - destruct (update_first p f rows) as [[r0 rows0] |]; [| discriminate].
    intros E. injection E as <- <-. simpl.
    destruct (q x); [reflexivity | apply (IH _ _ eq_refl)].
Qed.

Lemma create_rejects_off_offer input ctx s :
  forallb (onOffer s) (OrderRouter.items input) = false ->
  OrderRouter.createHandler input ctx s = (Err NOT_FOUND, s).
Proof.
  intros Hbad. rewrite create_unfold.
  destruct (processItems_cases (OrderRouter.items input) 0%float [] s)
    as [(Hall & _) | (_ & ->)]; [| reflexivity].
  rewrite Hall in Hbad. discriminate Hbad.
Qed.

Lemma menu_requireRole_admits roles {A} (next : Context -> MenuRouter.H A) ctx u t :
  user ctx = Some u -> role u ∈ roles ->
  MenuRouter.requireRole roles next ctx t = next ctx t.
Proof.
  intros Hu Hin. unfold MenuRouter.requireRole. rewrite Hu.
  apply includes_elem_of in Hin. rewrite Hin. reflexivity.
Qed.

(** X17: switching a menu item off or on decides whether it can be ordered: once
    staff have switched an existing item, a line naming it is on offer
    exactly when the item was switched on, other lines are judged as
    before, an order with a line for a switched-off item is answered
    NOT_FOUND by the handler of [order.create], and switching again the same
    way changes nothing. *)
Theorem toggleAvailability_decides_ordering :
  forall input ctx t u found,
    user ctx = Some u -> role u ∈ staffRoles ->
    List.find (fun m => String.eqb (MenuItem.id m) (MenuRouter.id input))
      (menuItems (MenuRouter.store t)) = Some found ->
    exists rows',
      let t' := MenuRouter.with_menuItems rows' t in
      MenuRouter.toggleAvailability input ctx t
      = (Ok (MenuRouter.mkItemSummary (MenuItem.id found) (MenuItem.name found)
               (MenuRouter.isAvailable input)), t')
      /\ (forall line,
             onOffer (MenuRouter.store t') line
             = if String.eqb (OrderRouter.menuItemId line) (MenuRouter.id input)
               then MenuRouter.isAvailable input
               else onOffer (MenuRouter.store t) line)
      /\ (MenuRouter.isAvailable input = false ->
          forall order ctx' line,
            line ∈ OrderRouter.items order ->
            OrderRouter.menuItemId line = MenuRouter.id input ->
            OrderRouter.createHandler order ctx' (MenuRouter.store t')
            = (Err NOT_FOUND, MenuRouter.store t'))
      /\ MenuRouter.toggleAvailability input ctx t'
         = (Ok (MenuRouter.mkItemSummary (MenuItem.id found) (MenuItem.name found)
                  (MenuRouter.isAvailable input)), t').
Proof.
  intros input ctx t u found Hu Hrole Hfind.
  destruct (update_first_found _ (MenuRouter.setAvailable (MenuRouter.isAvailable input))
              _ _ Hfind) as [rows' Hupd].
  destruct (update_first_again
              (fun m => String.eqb (MenuItem.id m) (MenuRouter.id input))
              (MenuRouter.setAvailable (MenuRouter.isAvailable input))
              (menuItems (MenuRouter.store t)) _ _ (fun x => eq_refl) Hupd)
    as [Hfind' Hagain].
  exists rows'. cbv zeta.
  assert (Hoffer : forall line,
             onOffer (MenuRouter.store (MenuRouter.with_menuItems rows' t)) line
             = if String.eqb (OrderRouter.menuItemId line) (MenuRouter.id input)
               then MenuRouter.isAvailable input
               else onOffer (MenuRouter.store t) line).
  { intros line. unfold onOffer. simpl.
    destruct (String.eqb_spec (OrderRouter.menuItemId line) (MenuRouter.id input))
      as [-> | Hne].
    - rewrite Hfind'. reflexivity.
    - assert (Hdisjoint : forall x : MenuItem.t,
                 String.eqb (MenuItem.id x) (OrderRouter.menuItemId line) = true ->
                 String.eqb (MenuItem.id x) (MenuRouter.id input) = false).
      { intros x Hx. apply String.eqb_eq in Hx. apply String.eqb_neq. congruence. }
      rewrite (find_update_first_other
                 (fun m => String.eqb (MenuItem.id m) (MenuRouter.id input))
                 (fun m => String.eqb (MenuItem.id m) (OrderRouter.menuItemId line))
                 (MenuRouter.setAvailable (MenuRouter.isAvailable input))
                 _ _ _ (fun x => eq_refl) Hdisjoint Hupd).
      reflexivity. }
  split; [| split; [exact Hoffer | split]].
  - unfold MenuRouter.toggleAvailability, MenuRouter.staffProcedure.
    rewrite (menu_requireRole_admits _ _ _ _ _ Hu Hrole).
    unfold MenuRouter.toggleAvailabilityHandler, bind, gets. rewrite Hupd. reflexivity.
  - intros Hoff order ctx' line Hin Hid. apply create_rejects_off_offer.
    apply not_true_is_false. intros Hall. rewrite forallb_forall in Hall.
    apply list_elem_of_In, Hall in Hin. rewrite Hoffer, Hid, String.eqb_refl, Hoff in Hin.
    discriminate Hin.
  - unfold MenuRouter.toggleAvailability, MenuRouter.staffProcedure.
    rewrite (menu_requireRole_admits _ _ _ _ _ Hu Hrole).
    unfold MenuRouter.toggleAvailabilityHandler, bind, gets. simpl.
    rewrite (Hagain (MenuRouter.setAvailable (MenuRouter.isAvailable input)) eq_refl).
    reflexivity.
Qed.

Lemma toggleAvailability_decides_ordering_witness :
  exists answer t',
    MenuRouter.toggleAvailability (MenuRouter.mkToggleInput "item-1" false)
      (Sample.staff "KITCHEN") Sample2.menuTables = (Ok answer, t')
    /\ OrderRouter.createHandler Sample.takeout Sample.anonymous (MenuRouter.store t')
       = (Err NOT_FOUND, MenuRouter.store t').
Proof.
  destruct (toggleAvailability_decides_ordering
              (MenuRouter.mkToggleInput "item-1" false) (Sample.staff "KITCHEN")
              Sample2.menuTables (mkUser "staff-1" "staff@ordo.test" "KITCHEN")
              Sample.guacamole eq_refl)
    as (rows' & Hcall & _ & Hcreate & _).
  - apply includes_elem_of. reflexivity.
  - reflexivity.
  - eexists _, _. split; [exact Hcall |].
    apply (Hcreate eq_refl Sample.takeout Sample.anonymous
             (OrderRouter.mkOrderItemInput "item-1" 2 None None));
      [apply list_elem_of_here | reflexivity].
Defined.

Lemma deleteCategory_found categoryId t found :
  List.find (fun c => String.eqb (MenuRouter.MenuCategory.id c) categoryId)
    (MenuRouter.categories t) = Some found ->
  exists rows',
    update_first (fun c => String.eqb (MenuRouter.MenuCategory.id c) categoryId)
      MenuRouter.deactivate (MenuRouter.categories t)
    = Some (MenuRouter.deactivate found, rows')
    /\ List.length rows' = List.length (MenuRouter.categories t)
    /\ List.find (fun c => String.eqb (MenuRouter.MenuCategory.id c) categoryId) rows'
       = Some (MenuRouter.deactivate found).
Proof.
  intros Hfind.
  destruct (update_first_found _ MenuRouter.deactivate _ _ Hfind) as [rows' Hupd].
  exists rows'. split; [exact Hupd |].
  destruct (update_first_again
              (fun c => String.eqb (MenuRouter.MenuCategory.id c) categoryId)
              MenuRouter.deactivate (MenuRouter.categories t) _ _ (fun x => eq_refl) Hupd)
    as [Hfind' _].
  split; [| exact Hfind'].
  pose proof (update_first_spec
                (fun c => String.eqb (MenuRouter.MenuCategory.id c) categoryId)
                MenuRouter.deactivate (MenuRouter.categories t)) as Hspec.
  rewrite Hupd in Hspec. destruct Hspec as (pre & r & post & -> & _ & _ & ->).
  rewrite !List.length_app. reflexivity.
Qed.

(** X18: deleting a category is refused with PRECONDITION_FAILED, and nothing
    changes, as long as one of its items is available; otherwise the
    category row stays in the table and is only marked inactive, menu
    items and their category links untouched; an unknown category without
    available items is an error. *)
Theorem deleteCategory_soft_and_guarded :
  forall categoryId ctx t u,
    user ctx = Some u -> role u ∈ staffRoles ->
    ((0 < MenuRouter.availableItemsIn categoryId t)%nat ->
     MenuRouter.deleteCategory categoryId ctx t = (Err PRECONDITION_FAILED, t))
    /\ (MenuRouter.availableItemsIn categoryId t = 0%nat ->
        forall found,
          List.find (fun c => String.eqb (MenuRouter.MenuCategory.id c) categoryId)
            (MenuRouter.categories t) = Some found ->
          exists rows',
            MenuRouter.deleteCategory categoryId ctx t
            = (Ok (MenuRouter.mkDeleted true), MenuRouter.with_categories rows' t)
            /\ List.length rows' = List.length (MenuRouter.categories t)
            /\ List.find (fun c => String.eqb (MenuRouter.MenuCategory.id c) categoryId)
                 rows'
               = Some (MenuRouter.MenuCategory.mk (MenuRouter.MenuCategory.id found)
                         (MenuRouter.MenuCategory.name found)
                         (MenuRouter.MenuCategory.sortOrder found) false))
    /\ (MenuRouter.availableItemsIn categoryId t = 0%nat ->
        List.find (fun c => String.eqb (MenuRouter.MenuCategory.id c) categoryId)
          (MenuRouter.categories t) = None ->
        MenuRouter.deleteCategory categoryId ctx t = (Err INTERNAL_SERVER_ERROR, t)).
Proof.
  intros categoryId ctx t u Hu Hrole.
  unfold MenuRouter.deleteCategory, MenuRouter.staffProcedure.
  rewrite (menu_requireRole_admits _ _ _ _ _ Hu Hrole).
  unfold MenuRouter.deleteCategoryHandler, bind, gets.
  split; [| split].
  - intros Hsome. rewrite (proj2 (Nat.ltb_lt _ _) Hsome). reflexivity.
  - intros Hnone found Hfind. rewrite Hnone. simpl.
    destruct (deleteCategory_found categoryId t found Hfind) as (rows' & Hupd & Hlen & Hfind').
    exists rows'. rewrite Hupd. repeat split; assumption.
  - intros Hnone Hfind. rewrite Hnone. simpl.
    pose proof (update_first_spec
                  (fun c => String.eqb (MenuRouter.MenuCategory.id c) categoryId)
                  MenuRouter.deactivate (MenuRouter.categories t)) as Hspec.
    destruct (update_first _ _ (MenuRouter.categories t)) as [[row rows'] |];
      [| reflexivity].
    destruct Hspec as (pre & r & post & _ & Hfind' & _).
    rewrite Hfind in Hfind'. discriminate Hfind'.
Qed.

Lemma deleteCategory_soft_and_guarded_witness :
  MenuRouter.deleteCategory "category-1" (Sample.staff "ADMIN") Sample2.menuTables
  = (Err PRECONDITION_FAILED, Sample2.menuTables).
Proof.
  apply (deleteCategory_soft_and_guarded "category-1" (Sample.staff "ADMIN")
           Sample2.menuTables (mkUser "staff-1" "staff@ordo.test" "ADMIN") eq_refl).
  - apply includes_elem_of. reflexivity.
  - vm_compute. lia.
Defined.

(** The starters cannot be deleted while the guacamole is on; once it has
    been switched off they can, and the category is still there,
    inactive. *)
Example category_deleted_after_items_off :
  let off := snd (MenuRouter.toggleAvailability (MenuRouter.mkToggleInput "item-1" false)
                    (Sample.staff "KITCHEN") Sample2.menuTables) in
  exists t',
    MenuRouter.deleteCategory "category-1" (Sample.staff "ADMIN") off
    = (Ok (MenuRouter.mkDeleted true), t')
    /\ List.map (fun c => (MenuRouter.MenuCategory.id c, MenuRouter.MenuCategory.isActive c))
         (MenuRouter.categories t')
       = [("category-1", false); ("category-2", true)].
Proof. cbv zeta. eexists. split; vm_compute; reflexivity. Qed.

(** ** Reservations: what staff do to them *)

Lemma reservation_updateStatus_found id st s found :
  List.find (fun r => String.eqb (Reservation.id r) id) (reservations s) = Some found ->
  exists rows',
    reservation.updateStatus id st s
    = (Ok (reservation.setStatus st found), with_reservations rows' s)
    /\ List.length rows' = List.length (reservations s)
    /\ forall d key,
         (List.length (List.filter (occupies d key) rows')
          + (if occupies d key found then 1 else 0)
          = List.length (List.filter (occupies d key) (reservations s))
            + (if occupies d key (reservation.setStatus st found) then 1 else 0))%nat.
Proof.
  intros Hfind.
  pose proof (reservation_updateStatus_spec id st s) as Hspec.
  pose proof (update_first_spec (fun r => String.eqb (Reservation.id r) id)
                (reservation.setStatus st) (reservations s)) as Hrows.
  destruct (update_first _ _ (reservations s)) as [[row0 rows'] |].
  - destruct Hrows as (pre & r & post & Hsplit & Hfind' & -> & ->).
    rewrite Hfind in Hfind'. injection Hfind' as <-.
    eexists. split; [exact Hspec |]. split.
    + rewrite Hsplit, !List.length_app. reflexivity.
    + intros d key. rewrite Hsplit, !List.filter_app, !List.length_app. simpl.
      destruct (occupies d key found), (occupies d key (reservation.setStatus st found));
        simpl; lia.
  - rewrite Hfind in Hrows. discriminate Hrows.
Qed.

(** X19: confirming and seating look at no status: staff can confirm or seat
    any stored reservation, a cancelled or completed one too; only its
    status changes, and from then on it takes up a place in its slot. *)
Theorem confirm_and_seat_take_any_status :
  forall id ctx s u found,
    user ctx = Some u -> role u ∈ staffRoles ->
    List.find (fun r => String.eqb (Reservation.id r) id) (reservations s) = Some found ->
    let guest := List.find (fun c => String.eqb (Customer.id c)
                                       (Reservation.customerId found)) (customers s) in
    let day := Reservation.reservationDate found in
    let key := Js.slice05 (Reservation.reservationTime found) in
    let before := countAt ReservationRouter.activeStatuses s day key in
    (exists s',
        ReservationStaff.confirm id ctx s
        = (Ok (ReservationStaff.mkWithCustomer
                 (reservation.setStatus ReservationStatus.CONFIRMED found) guest), s')
        /\ List.length (reservations s') = List.length (reservations s)
        /\ countAt ReservationRouter.activeStatuses s' day key
           = if occupies day key found then before else S before)
    /\ (exists s',
           ReservationStaff.markSeated id ctx s
           = (Ok (ReservationStaff.mkWithCustomer
                    (reservation.setStatus ReservationStatus.SEATED found) guest), s')
           /\ List.length (reservations s') = List.length (reservations s)
           /\ countAt ReservationRouter.activeStatuses s' day key
              = if occupies day key found then before else S before).
Proof.
  intros id ctx s u found Hu Hrole Hfind. cbv zeta.
  split.
  - destruct (reservation_updateStatus_found id ReservationStatus.CONFIRMED s found Hfind)
      as (rows' & Hupd & Hlen & Hcount).
    exists (with_reservations rows' s).
    split; [| split; [exact Hlen |]].
    + unfold ReservationStaff.confirm, staffProcedure.
      rewrite (requireRole_admits _ _ _ _ _ Hu Hrole).
      unfold ReservationStaff.confirmHandler, bind. rewrite Hupd. reflexivity.
    + rewrite !countAt_occupies.
      specialize (Hcount (Reservation.reservationDate found)
                    (Js.slice05 (Reservation.reservationTime found))).
      simpl in Hcount |- *.
      assert (Hnow : occupies (Reservation.reservationDate found)
                       (Js.slice05 (Reservation.reservationTime found))
                       (reservation.setStatus ReservationStatus.CONFIRMED found) = true).
      { unfold occupies. simpl. rewrite Z.eqb_refl, String.eqb_refl. reflexivity. }
      rewrite Hnow in Hcount.
      destruct (occupies _ _ found); lia.
  - destruct (reservation_updateStatus_found id ReservationStatus.SEATED s found Hfind)
      as (rows' & Hupd & Hlen & Hcount).
    exists (with_reservations rows' s).
    split; [| split; [exact Hlen |]].
    + unfold ReservationStaff.markSeated, staffProcedure.
      rewrite (requireRole_admits _ _ _ _ _ Hu Hrole).
      unfold ReservationStaff.markSeatedHandler, bind. rewrite Hupd. reflexivity.
    + rewrite !countAt_occupies.
      specialize (Hcount (Reservation.reservationDate found)
                    (Js.slice05 (Reservation.reservationTime found))).
      simpl in Hcount |- *.
      assert (Hnow : occupies (Reservation.reservationDate found)
                       (Js.slice05 (Reservation.reservationTime found))
                       (reservation.setStatus ReservationStatus.SEATED found) = true).
      { unfold occupies. simpl. rewrite Z.eqb_refl, String.eqb_refl. reflexivity. }
      rewrite Hnow in Hcount.
      destruct (occupies _ _ found); lia.
Qed.

Lemma confirm_and_seat_take_any_status_witness :
  let cancelled := snd (ReservationRouter.cancel
                          (ReservationRouter.mkCancelInput "r2" (Some "5551234567"))
                          Sample.anonymous Sample2.storeFull) in
  countAt ReservationRouter.activeStatuses cancelled Sample.mondayValue "10:00" = 2%nat
  /\ exists answer s',
       ReservationStaff.confirm "r2" (Sample.staff "WAITER") cancelled = (Ok answer, s')
       /\ countAt ReservationRouter.activeStatuses s' Sample.mondayValue "10:00" = 3%nat.
Proof.
  cbv zeta. split; [reflexivity |].
  destruct (confirm_and_seat_take_any_status "r2" (Sample.staff "WAITER")
              (snd (ReservationRouter.cancel
                      (ReservationRouter.mkCancelInput "r2" (Some "5551234567"))
                      Sample.anonymous Sample2.storeFull))
              (mkUser "staff-1" "staff@ordo.test" "WAITER")
              (Sample.booking "r2" ReservationStatus.CANCELLED) eq_refl)
    as [(s' & Hcall & _ & Hcount) _].
  - apply includes_elem_of. reflexivity.
  - reflexivity.
  - eexists _, s'. split; [exact Hcall |]. exact Hcount.
Defined.

(** ** Reservations: statistics *)

Lemma increment_sum st b :
  statusSum (ReservationStaff.increment st b) = (statusSum b + 1)%Z.
Proof. destruct b, st; unfold statusSum; simpl; lia. Qed.

Lemma mapSet_sum k m :
  sumZ (List.map snd
          (ReservationStaff.mapSet k
             (default 0%Z (ReservationStaff.mapGet k m) + 1)%Z m))
  = (sumZ (List.map snd m) + 1)%Z.
Proof.
  induction m as [| [k' v'] rest IH]; simpl; [lia |].
  destruct (String.eqb k' k); simpl; [lia |]. rewrite IH. lia.
Qed.

Lemma mapSet_keys k v m :
  NoDup (List.map fst m) -> NoDup (List.map fst (ReservationStaff.mapSet k v m)).
Proof.
  assert (Hkeys : forall m,
             (k ∈ List.map fst m
              /\ List.map fst (ReservationStaff.mapSet k v m) = List.map fst m)
             \/ ((k ∉ List.map fst m)
                 /\ List.map fst (ReservationStaff.mapSet k v m) = List.map fst m ++ [k])).
  { clear m. induction m as [| [k' v'] rest IH]; simpl.
    - right. split; [apply not_elem_of_nil | reflexivity].
    - destruct (String.eqb_spec k' k) as [-> | Hne]; simpl.
      + left. split; [apply list_elem_of_here | reflexivity].
      + destruct IH as [[Hin ->] | [Hout ->]].
        * left. split; [apply list_elem_of_further; exact Hin | reflexivity].
        * right. split; [| reflexivity].
          intros Hin. apply elem_of_cons in Hin as [-> | Hin].
          -- destruct Hne. reflexivity.
          -- exact (Hout Hin). }
  intros Hnodup. destruct (Hkeys m) as [[_ ->] | [Hout ->]]; [exact Hnodup |].
  apply NoDup_app. split; [exact Hnodup |]. split.
  - intros x Hx Hk. apply list_elem_of_singleton in Hk. subst x. exact (Hout Hx).
  - apply NoDup_singleton.
Qed.

Lemma tally_fold l : forall acc,
  let acc' := List.fold_left ReservationStaff.tally l acc in
  statusSum (ReservationStaff.t_byStatus acc')
  = (statusSum (ReservationStaff.t_byStatus acc) + Z.of_nat (List.length l))%Z
  /\ ReservationStaff.t_totalGuests acc'
     = sumFrom (ReservationStaff.t_totalGuests acc)
         (List.map (fun r => Js.of_Z (Reservation.partySize r)) l)
  /\ sumZ (List.map snd (ReservationStaff.t_peakTimes acc'))
     = (sumZ (List.map snd (ReservationStaff.t_peakTimes acc))
        + Z.of_nat (List.length l))%Z
  /\ (NoDup (List.map fst (ReservationStaff.t_peakTimes acc)) ->
      NoDup (List.map fst (ReservationStaff.t_peakTimes acc'))).
Proof.
  induction l as [| r l IH]; intros acc; cbv zeta.
  - simpl. repeat split; try lia. intros Hnodup. exact Hnodup.
  - cbn [List.fold_left List.length List.map sumZ].
    destruct (IH (ReservationStaff.tally acc r)) as (Hstatus & Hguests & Hpeak & Hkeys).
    rewrite Hstatus, Hguests, Hpeak. unfold ReservationStaff.tally at 1 2 3.
    cbn [ReservationStaff.t_byStatus ReservationStaff.t_totalGuests
         ReservationStaff.t_peakTimes].
    rewrite increment_sum, mapSet_sum.
    split; [lia |]. split; [reflexivity |]. split; [lia |].
    intros Hnodup. apply Hkeys. unfold ReservationStaff.tally.
    cbn [ReservationStaff.t_peakTimes]. apply mapSet_keys. exact Hnodup.
Qed.

Lemma insertPeak_perm x l : ReservationStaff.insertPeak x l ≡ₚ x :: l.
Proof.
  induction l as [| y rest IH]; simpl; [reflexivity |].
  destruct (ReservationStaff.count x <? ReservationStaff.count y)%Z; [| reflexivity].
  rewrite IH. apply Permutation_swap.
Qed.

Lemma sortPeaks_perm l : ReservationStaff.sortPeaks l ≡ₚ l.
Proof.
  induction l as [| x rest IH]; simpl; [reflexivity |].
  rewrite insertPeak_perm, IH. reflexivity.
Qed.

Lemma insertPeak_decreasing x l :
  decreasing l -> decreasing (ReservationStaff.insertPeak x l).
Proof.
  induction l as [| y rest IH]; simpl.
  - intros _. split; [constructor | exact I].
  - intros [Hy Hrest].
    destruct (ReservationStaff.count x <? ReservationStaff.count y)%Z eqn:Hlt; simpl.
    + apply Z.ltb_lt in Hlt. split; [| apply IH; exact Hrest].
      rewrite insertPeak_perm. constructor; [lia | exact Hy].
    + apply Z.ltb_ge in Hlt. split; [| split; assumption].
      constructor; [exact Hlt |].
      eapply Forall_impl; [exact Hy |]. simpl. intros z Hz. lia.
Qed.

Lemma sortPeaks_decreasing l : decreasing (ReservationStaff.sortPeaks l).
Proof.
  induction l as [| x rest IH]; simpl; [exact I |].
  apply insertPeak_decreasing. exact IH.
Qed.

Lemma sumZ_perm l l' : l ≡ₚ l' -> sumZ l = sumZ l'.
Proof. induction 1; simpl; lia. Qed.

Lemma peak_entries m :
  List.map ReservationStaff.count
    (List.map (fun '(time, count) => ReservationStaff.mkPeakTime time count) m)
  = List.map snd m
  /\ List.map ReservationStaff.time
       (List.map (fun '(time, count) => ReservationStaff.mkPeakTime time count) m)
     = List.map fst m.
Proof.
  induction m as [| [k v] rest [IHc IHt]]; simpl; [split; reflexivity |].
  rewrite IHc, IHt. split; reflexivity.
Qed.

(** X20: the statistics of a period add up: the six status counters and the
    hourly counters both sum to the number of reservations dated in the
    period; the average party size is the quotient, as JS numbers, of the
    guests added up in the order of the rows by that number, and 0 when
    there are none; every hour is listed once, and the hours come by
    decreasing count. The store is only read. *)
Theorem getStats_adds_up :
  forall input ctx s u,
    user ctx = Some u -> role u ∈ staffRoles ->
    let dated := List.filter (ReservationStaff.inRange input) (reservations s) in
    exists r,
      ReservationStaff.getStats input ctx s = (Ok r, s)
      /\ ReservationStaff.totalReservations r = Z.of_nat (List.length dated)
      /\ statusSum (ReservationStaff.byStatus r) = ReservationStaff.totalReservations r
      /\ sumZ (List.map ReservationStaff.count (ReservationStaff.peakTimes r))
         = ReservationStaff.totalReservations r
      /\ ReservationStaff.averagePartySize r
         = (if (0 <? ReservationStaff.totalReservations r)%Z
            then (sumFrom 0 (List.map (fun x => Js.of_Z (Reservation.partySize x)) dated)
                  / Js.of_Z (ReservationStaff.totalReservations r))%float
            else 0%float)
      /\ NoDup (List.map ReservationStaff.time (ReservationStaff.peakTimes r))
      /\ decreasing (ReservationStaff.peakTimes r).
Proof.
  intros input ctx s u Hu Hrole. cbv zeta.
  unfold ReservationStaff.getStats, staffProcedure.
  rewrite (requireRole_admits _ _ _ _ _ Hu Hrole).
  unfold ReservationStaff.getStatsHandler, bind, gets, ret.
  eexists. split; [reflexivity |].
  cbn [ReservationStaff.totalReservations ReservationStaff.byStatus
       ReservationStaff.averagePartySize ReservationStaff.peakTimes].
  set (dated := List.filter (ReservationStaff.inRange input) (reservations s)).
  destruct (tally_fold dated
              (ReservationStaff.mkTally (ReservationStaff.ByStatus.mk 0 0 0 0 0 0)
                 0%float []))
    as (Hstatus & Hguests & Hpeak & Hkeys).
  cbv zeta in Hstatus, Hguests, Hpeak, Hkeys.
  cbn [ReservationStaff.t_byStatus ReservationStaff.t_totalGuests
       ReservationStaff.t_peakTimes] in Hstatus, Hguests, Hpeak, Hkeys.
  split; [reflexivity |]. split; [rewrite Hstatus; reflexivity |].
  split; [| split; [| split]].
  - rewrite (sumZ_perm _ _ (Permutation_map _ (sortPeaks_perm _))).
    rewrite (proj1 (peak_entries _)), Hpeak. reflexivity.
  - rewrite Hguests. reflexivity.
  - rewrite (Permutation_map _ (sortPeaks_perm _)), (proj2 (peak_entries _)).
    apply Hkeys. constructor.
  - apply sortPeaks_decreasing.
Qed.

Lemma getStats_adds_up_witness :
  exists r,
    ReservationStaff.getStats Sample2.january (Sample.staff "ADMIN")
      Sample2.storeFull = (Ok r, Sample2.storeFull)
    /\ ReservationStaff.totalReservations r = 3%Z
    /\ statusSum (ReservationStaff.byStatus r) = 3%Z.
Proof.
  destruct (getStats_adds_up Sample2.january (Sample.staff "ADMIN")
              Sample2.storeFull (mkUser "staff-1" "staff@ordo.test" "ADMIN") eq_refl)
    as (r & Hcall & Htotal & Hstatus & _).
  - apply includes_elem_of. reflexivity.
  - exists r. split; [exact Hcall |]. rewrite Hstatus, Htotal. split; reflexivity.
Defined.

(** The average is a double: for 29 guests in seven parties it is
    4.142857142857143, and seven times that is not 29. *)
Example average_is_a_double :
  match ReservationStaff.getStats Sample2.january (Sample.staff "ADMIN")
          Sample2.storeWeek with
  | (Ok r, _) =>
      Some (ReservationStaff.totalReservations r, ReservationStaff.averagePartySize r,
            (ReservationStaff.averagePartySize r * 7)%float)
  | _ => None
  end = Some (7%Z, 4.142857142857143%float, 29.000000000000004%float)
  /\ PrimFloat.eqb 29.000000000000004 29 = false.
Proof. vm_compute. split; reflexivity. Qed.

(** ** The cart *)

Lemma cartItemsCount_sum c :
  CartStore.cartItemsCount c = sumZ (List.map CartStore.quantity c).
Proof.
  unfold CartStore.cartItemsCount.
  assert (H : forall acc,
             List.fold_left (fun sum item => (sum + CartStore.quantity item)%Z) c acc
             = (acc + sumZ (List.map CartStore.quantity c))%Z).
  { induction c as [| x c IH]; intros acc; simpl; [lia |]. rewrite IH. lia. }
  rewrite H. lia.
Qed.

Lemma cart_find_None k c :
  List.find (fun item => String.eqb (CartStore.id item) k) c = None <->
  k ∉ List.map CartStore.id c.
Proof.
  induction c as [| x c IH]; simpl.
  - split; [intros _; apply not_elem_of_nil | reflexivity].
  - destruct (String.eqb_spec (CartStore.id x) k) as [<- | Hne].
    + split; [discriminate |]. intros Hout. destruct Hout. apply list_elem_of_here.
    + rewrite IH. rewrite not_elem_of_cons. split; [intros Hout; split; congruence | tauto].
Qed.

Lemma cart_set_ids k (g : CartStore.CartItem -> Z) c :
  List.map CartStore.id
    (List.map (fun item => if String.eqb (CartStore.id item) k
                           then CartStore.withQuantity (g item) item else item) c)
  = List.map CartStore.id c.
Proof.
  induction c as [| x c IH]; simpl; [reflexivity |].
  rewrite IH. destruct (String.eqb (CartStore.id x) k); reflexivity.
Qed.

Lemma cart_set_absent k (g : CartStore.CartItem -> Z) c :
  k ∉ List.map CartStore.id c ->
  List.map (fun item => if String.eqb (CartStore.id item) k
                        then CartStore.withQuantity (g item) item else item) c = c.
Proof.
  induction c as [| x c IH]; simpl; [reflexivity |].
  rewrite not_elem_of_cons. intros [Hne Hout].
  rewrite (IH Hout). destruct (String.eqb_spec (CartStore.id x) k); congruence.
Qed.

Lemma cart_filter_absent k c :
  k ∉ List.map CartStore.id c ->
  List.filter (fun item => negb (String.eqb (CartStore.id item) k)) c = c.
Proof.
  induction c as [| x c IH]; simpl; [reflexivity |].
  rewrite not_elem_of_cons. intros [Hne Hout].
  rewrite (IH Hout). destruct (String.eqb_spec (CartStore.id x) k); [congruence | reflexivity].
Qed.

(** With distinct ids, rewriting the quantity of one dish moves the sum of
    the quantities by the difference. *)
Lemma cart_set_sum k (g : CartStore.CartItem -> Z) c item :
  NoDup (List.map CartStore.id c) -> item ∈ c -> CartStore.id item = k ->
  sumZ (List.map CartStore.quantity
          (List.map (fun item => if String.eqb (CartStore.id item) k
                                 then CartStore.withQuantity (g item) item else item) c))
  = (sumZ (List.map CartStore.quantity c) - CartStore.quantity item + g item)%Z.
Proof.
  induction c as [| x c IH]; intros Hnodup Hin Hid; [inversion Hin |].
  simpl in Hnodup. apply NoDup_cons in Hnodup as [Hx Hnodup].
  apply elem_of_cons in Hin as [-> | Hin]; simpl.
  - rewrite <- Hid in *. rewrite String.eqb_refl, (cart_set_absent _ _ _ Hx). simpl. lia.
  - assert (Hne : CartStore.id x <> k).
    { intros Heq. apply Hx. rewrite Heq, <- Hid. apply list_elem_of_fmap_2. exact Hin. }
    apply String.eqb_neq in Hne. rewrite Hne, (IH Hnodup Hin Hid). simpl. lia.
Qed.

Lemma cart_filter_sum k c item :
  NoDup (List.map CartStore.id c) -> item ∈ c -> CartStore.id item = k ->
  sumZ (List.map CartStore.quantity
          (List.filter (fun item => negb (String.eqb (CartStore.id item) k)) c))
  = (sumZ (List.map CartStore.quantity c) - CartStore.quantity item)%Z
  /\ k ∉ List.map CartStore.id
           (List.filter (fun item => negb (String.eqb (CartStore.id item) k)) c).
Proof.
  induction c as [| x c IH]; intros Hnodup Hin Hid; [inversion Hin |].
  simpl in Hnodup. apply NoDup_cons in Hnodup as [Hx Hnodup].
  apply elem_of_cons in Hin as [-> | Hin]; simpl.
  - rewrite <- Hid in *. rewrite String.eqb_refl. simpl.
    rewrite (cart_filter_absent _ _ Hx). split; [lia | exact Hx].
  - assert (Hne : CartStore.id x <> k).
    { intros Heq. apply Hx. rewrite Heq, <- Hid. apply list_elem_of_fmap_2. exact Hin. }
    destruct (IH Hnodup Hin Hid) as [Hsum Hout].
    apply String.eqb_neq in Hne. rewrite Hne. simpl. rewrite Hsum.
    split; [lia |]. rewrite not_elem_of_cons. split; [| exact Hout].
    apply String.eqb_neq in Hne. congruence.
Qed.

Lemma cart_filter_well_formed k c :
  wellFormed c ->
  wellFormed (List.filter (fun item => negb (String.eqb (CartStore.id item) k)) c).
Proof.
  intros [Hnodup Hpos]. split.
  - induction c as [| x c IH]; simpl; [constructor |].
    simpl in Hnodup. apply NoDup_cons in Hnodup as [Hx Hnodup].
    apply Forall_cons in Hpos as [_ Hpos].
    destruct (negb (String.eqb (CartStore.id x) k)); [| apply IH; assumption].
    simpl. apply NoDup_cons. split; [| apply IH; assumption].
    intros Hin. apply Hx. apply list_elem_of_fmap in Hin as (y & Hy & Hin).
    apply list_elem_of_In, filter_In in Hin as [Hin _].
    rewrite Hy. apply list_elem_of_fmap_2, list_elem_of_In. exact Hin.
  - apply Forall_forall. intros y Hy.
    apply list_elem_of_In, filter_In in Hy as [Hy _].
    rewrite Forall_forall in Hpos. apply Hpos, list_elem_of_In. exact Hy.
Qed.

Lemma cart_set_well_formed k (g : CartStore.CartItem -> Z) c :
  (forall item, item ∈ c -> (1 <= g item)%Z) ->
  wellFormed c ->
  wellFormed (List.map (fun item => if String.eqb (CartStore.id item) k
                                    then CartStore.withQuantity (g item) item else item) c).
Proof.
  intros Hg [Hnodup Hpos]. split; [rewrite cart_set_ids; exact Hnodup |].
  rewrite Forall_forall in Hpos. apply Forall_forall. intros y Hy.
  apply list_elem_of_fmap in Hy as (x & -> & Hx).
  destruct (String.eqb (CartStore.id x) k); [apply Hg | apply Hpos]; exact Hx.
Qed.

Lemma act_well_formed a c : wellFormed c -> wellFormed (CartStore.act a c).
Proof.
  intros Hwf. destruct a as [item | k | k q |]; simpl.
  - unfold CartStore.addToCart.
    destruct (List.find _ c) eqn:Hfind.
    + apply (cart_set_well_formed _ (fun i => (CartStore.quantity i + 1)%Z)); [| exact Hwf].
      intros i Hi. destruct Hwf as [_ Hpos]. rewrite Forall_forall in Hpos.
      specialize (Hpos i Hi). lia.
    + apply cart_find_None in Hfind. destruct Hwf as [Hnodup Hpos]. split.
      * rewrite List.map_app. apply NoDup_app. split; [exact Hnodup |]. split.
        -- intros x Hx Hnew. simpl in Hnew. apply list_elem_of_singleton in Hnew.
           subst x. exact (Hfind Hx).
        -- apply NoDup_singleton.
      * apply Forall_app. split; [exact Hpos |]. constructor; [simpl; lia | constructor].
  - apply cart_filter_well_formed. exact Hwf.
  - unfold CartStore.updateQuantity. destruct (q <=? 0)%Z eqn:Hq.
    + apply cart_filter_well_formed. exact Hwf.
    + apply Z.leb_gt in Hq.
      apply (cart_set_well_formed _ (fun _ => q)); [intros; lia | exact Hwf].
  - split; constructor.
Qed.

(** X21: whatever the user does, a cart that lists every dish once with a
    positive quantity keeps doing so; the empty cart is such a cart. *)
Theorem cart_stays_well_formed :
  forall actions c,
    wellFormed c -> wellFormed (CartStore.actAll actions c).
Proof.
  unfold CartStore.actAll.
  induction actions as [| a actions IH]; intros c Hwf; simpl; [exact Hwf |].
  apply IH, act_well_formed, Hwf.
Qed.

Lemma cart_stays_well_formed_witness :
  wellFormed
    (CartStore.actAll
       [CartStore.Add (CartStore.mkNewItem "item-1" "Guacamole" 89%float None);
        CartStore.Add (CartStore.mkNewItem "item-1" "Guacamole" 89%float None);
        CartStore.Update "item-1" 5; CartStore.Remove "item-2"]
       []).
Proof. apply cart_stays_well_formed. split; constructor. Defined.

Lemma cart_find_app {A} (p : A -> bool) l l' :
  List.find p (l ++ l')
  = match List.find p l with Some x => Some x | None => List.find p l' end.
Proof.
  induction l as [| x l IH]; simpl; [reflexivity |].
  destruct (p x); [reflexivity | exact IH].
Qed.

Lemma quantity_found k c :
  CartStore.getItemQuantityInCart k c
  = match List.find (fun item => String.eqb (CartStore.id item) k) c with
    | Some item => CartStore.quantity item
    | None => 0%Z
    end.
Proof.
  unfold CartStore.getItemQuantityInCart.
  destruct (List.find _ c) as [item |]; [| reflexivity].
  destruct (CartStore.quantity item =? 0)%Z eqn:H0; [| reflexivity].
  apply Z.eqb_eq in H0. congruence.
Qed.

Lemma cart_set_find k n (g : CartStore.CartItem -> Z) c :
  List.find (fun item => String.eqb (CartStore.id item) k)
    (List.map (fun item => if String.eqb (CartStore.id item) n
                           then CartStore.withQuantity (g item) item else item) c)
  = option_map (fun item => if String.eqb (CartStore.id item) n
                            then CartStore.withQuantity (g item) item else item)
      (List.find (fun item => String.eqb (CartStore.id item) k) c).
Proof.
  induction c as [| x c IH]; simpl; [reflexivity |].
  assert (Hid : CartStore.id (if String.eqb (CartStore.id x) n
                              then CartStore.withQuantity (g x) x else x)
                = CartStore.id x)
    by (destruct (String.eqb (CartStore.id x) n); reflexivity).
  rewrite Hid. destruct (String.eqb (CartStore.id x) k); [reflexivity | exact IH].
Qed.

(** X22: adding a dish raises its quantity by one, leaves the other dishes
    alone and, when the cart lists every dish once, raises the badge count
    by exactly one. *)
Theorem addToCart_adds_one :
  forall item c,
    NoDup (List.map CartStore.id c) ->
    CartStore.cartItemsCount (CartStore.addToCart item c)
    = (CartStore.cartItemsCount c + 1)%Z
    /\ forall k,
         CartStore.getItemQuantityInCart k (CartStore.addToCart item c)
         = (CartStore.getItemQuantityInCart k c
            + if String.eqb k (CartStore.n_id item) then 1 else 0)%Z.
Proof.
  intros item c Hnodup. split.
  - rewrite !cartItemsCount_sum. unfold CartStore.addToCart.
    destruct (List.find _ c) as [found |] eqn:Hfind.
    + apply find_some in Hfind as [Hin Hid]. apply String.eqb_eq in Hid.
      apply list_elem_of_In in Hin.
      rewrite (cart_set_sum _ (fun i => (CartStore.quantity i + 1)%Z) c found Hnodup Hin Hid).
      lia.
    + rewrite List.map_app. simpl.
      assert (Happ : forall l l', sumZ (l ++ l') = (sumZ l + sumZ l')%Z).
      { induction l as [| x l IH]; intros l'; simpl; [reflexivity | rewrite IH; lia]. }
      rewrite Happ. simpl. lia.
  - intros k. rewrite !quantity_found. unfold CartStore.addToCart.
    destruct (List.find (fun cartItem => String.eqb (CartStore.id cartItem)
                                           (CartStore.n_id item)) c) as [found |] eqn:Hfind.
    + rewrite (cart_set_find k (CartStore.n_id item)
                 (fun i => (CartStore.quantity i + 1)%Z)).
      destruct (String.eqb_spec k (CartStore.n_id item)) as [-> | Hk].
      * rewrite Hfind. simpl. apply find_some in Hfind as [_ ->]. simpl. reflexivity.
      * destruct (List.find (fun i => String.eqb (CartStore.id i) k) c) as [x |] eqn:Hx;
          simpl; [| reflexivity].
        apply find_some in Hx as [_ Hx]. apply String.eqb_eq in Hx.
        rewrite <- Hx in Hk. apply String.eqb_neq in Hk. rewrite Hk. lia.
    + rewrite cart_find_app.
      destruct (String.eqb_spec k (CartStore.n_id item)) as [-> | Hk].
      * rewrite Hfind. simpl. rewrite String.eqb_refl. reflexivity.
      * simpl. apply not_eq_sym, String.eqb_neq in Hk. rewrite Hk.
        destruct (List.find (fun i => String.eqb (CartStore.id i) k) c); lia.
Qed.

Lemma addToCart_adds_one_witness :
  CartStore.cartItemsCount
    (CartStore.addToCart (CartStore.mkNewItem "item-1" "Guacamole" 89%float None)
       [CartStore.mkCartItem "item-1" "Guacamole" 89%float 2 None;
        CartStore.mkCartItem "item-2" "Tacos" 120%float 1 None])
  = 4%Z.
Proof.
  apply (proj1 (addToCart_adds_one
                  (CartStore.mkNewItem "item-1" "Guacamole" 89%float None)
                  [CartStore.mkCartItem "item-1" "Guacamole" 89%float 2 None;
                   CartStore.mkCartItem "item-2" "Tacos" 120%float 1 None]
                  ltac:(refine (bool_decide_unpack _ _); vm_compute; exact I))).
Defined.

(** A stored cart that lists a dish twice gets both entries raised. *)
Example addToCart_raises_every_duplicate :
  let c := [CartStore.mkCartItem "item-1" "Guacamole" 89%float 2 None;
            CartStore.mkCartItem "item-1" "Guacamole" 89%float 1 None] in
  CartStore.cartItemsCount
    (CartStore.addToCart (CartStore.mkNewItem "item-1" "Guacamole" 89%float None) c)
  = (CartStore.cartItemsCount c + 2)%Z.
Proof. reflexivity. Qed.

Lemma cart_find_unique c item :
  NoDup (List.map CartStore.id c) -> item ∈ c ->
  List.find (fun i => String.eqb (CartStore.id i) (CartStore.id item)) c = Some item.
Proof.
  induction c as [| x c IH]; intros Hnodup Hin; [inversion Hin |].
  simpl in Hnodup. apply NoDup_cons in Hnodup as [Hx Hnodup].
  apply elem_of_cons in Hin as [-> | Hin]; simpl.
  - rewrite String.eqb_refl. reflexivity.
  - destruct (String.eqb_spec (CartStore.id x) (CartStore.id item)) as [Heq | _];
      [| apply IH; assumption].
    destruct Hx. rewrite Heq. apply list_elem_of_fmap_2. exact Hin.
Qed.

(** X23: the quantity buttons of the cart page: on a cart that lists every dish
    once with a positive quantity, minus lowers the dish and the badge
    count by one and takes the dish out of the cart when it was the last
    one; plus raises both by one. *)
Theorem quantity_buttons :
  forall c item,
    wellFormed c -> item ∈ c ->
    let minus := CartStore.updateQuantity (CartStore.id item)
                   (CartStore.quantity item - 1) c in
    let plus := CartStore.updateQuantity (CartStore.id item)
                  (CartStore.quantity item + 1) c in
    CartStore.cartItemsCount minus = (CartStore.cartItemsCount c - 1)%Z
    /\ CartStore.getItemQuantityInCart (CartStore.id item) minus
       = (CartStore.quantity item - 1)%Z
    /\ (CartStore.id item ∈ List.map CartStore.id minus <-> CartStore.quantity item <> 1%Z)
    /\ CartStore.cartItemsCount plus = (CartStore.cartItemsCount c + 1)%Z
    /\ CartStore.getItemQuantityInCart (CartStore.id item) plus
       = (CartStore.quantity item + 1)%Z.
Proof.
  intros c item [Hnodup Hpos] Hin. cbv zeta.
  assert (Hq : (1 <= CartStore.quantity item)%Z).
  { rewrite Forall_forall in Hpos. apply Hpos. exact Hin. }
  pose proof (cart_find_unique c item Hnodup Hin) as Hfind.
  rewrite !cartItemsCount_sum, !quantity_found. unfold CartStore.updateQuantity.
  assert (Hplus : (CartStore.quantity item + 1 <=? 0)%Z = false) by (apply Z.leb_gt; lia).
  rewrite Hplus.
  rewrite (cart_set_sum _ (fun _ => (CartStore.quantity item + 1)%Z) c item Hnodup Hin eq_refl).
  rewrite (cart_set_find _ _ (fun _ => (CartStore.quantity item + 1)%Z)), Hfind.
  simpl option_map. rewrite String.eqb_refl. simpl CartStore.quantity.
  destruct (CartStore.quantity item - 1 <=? 0)%Z eqn:Hminus.
  - apply Z.leb_le in Hminus.
    destruct (cart_filter_sum _ c item Hnodup Hin eq_refl) as [Hsum Hout].
    rewrite Hsum.
    apply cart_find_None in Hout as Hnone. rewrite Hnone.
    repeat split; try lia; tauto.
  - apply Z.leb_gt in Hminus.
    rewrite (cart_set_sum _ (fun _ => (CartStore.quantity item - 1)%Z) c item Hnodup Hin
               eq_refl).
    rewrite (cart_set_find _ _ (fun _ => (CartStore.quantity item - 1)%Z)), Hfind.
    simpl option_map. rewrite String.eqb_refl. simpl CartStore.quantity.
    rewrite cart_set_ids.
    repeat split; try lia.
    intros _. apply list_elem_of_fmap_2. exact Hin.
Qed.

Lemma quantity_buttons_witness :
  let c := [CartStore.mkCartItem "item-1" "Guacamole" 89%float 1 None;
            CartStore.mkCartItem "item-2" "Tacos" 120%float 3 None] in
  CartStore.cartItemsCount (CartStore.updateQuantity "item-1" 0 c) = 3%Z
  /\ "item-1" ∉ List.map CartStore.id (CartStore.updateQuantity "item-1" 0 c).
Proof.
  cbv zeta.
  destruct (quantity_buttons
              [CartStore.mkCartItem "item-1" "Guacamole" 89%float 1 None;
               CartStore.mkCartItem "item-2" "Tacos" 120%float 3 None]
              (CartStore.mkCartItem "item-1" "Guacamole" 89%float 1 None))
    as (Hcount & _ & Hgone & _).
  - split; [refine (bool_decide_unpack _ _); vm_compute; exact I
           | repeat constructor; simpl; lia].
  - apply list_elem_of_here.
  - split; [exact Hcount |]. intros Hin. apply Hgone in Hin. apply Hin. reflexivity.
Defined.

(** ** Slot strings *)

(** X24: a slot string made from a minute of the day reads back, through the
    parser of the bookings, as that minute. *)
Theorem timeString_round_trip :
  forall m,
    (0 <= m < 1440)%Z ->
    ReservationRouter.minutesOf (ReservationRouter.timeString m) = Some m.
Proof. exact minutesOf_timeString. Qed.

Lemma timeString_round_trip_witness :
  ReservationRouter.minutesOf (ReservationRouter.timeString 1290) = Some 1290%Z.
Proof. apply timeString_round_trip. lia. Defined.
